(** * GitlabAnalyserBackend: operation store, agents and lifecycle

    A shallow embedding of the Python backend: the JSON operation store
    ([operation_store.py]), the agents ([agents/*.py]) and the request
    lifecycle of [main.py], with the properties of the specification
    stated over it.

    Conventions of the embedding.
    - A Python [str] is a Rocq [string]; its characters stand for the code
      points below 256.
    - A JSON-serialisable Python value is a [pyval]; a float is kept as
      the rational it denotes, and the arithmetic that rounds to floats
      is a parameter of the code that computes with them.
    - A Python dict whose iteration order matters is an association list;
      the operation store's mapping, read and written as a whole JSON
      object, is a [gmap].
    - A call that may raise returns an [outcome]; only exceptions derived
      from [Exception] are modelled, which is what [except Exception]
      and the bare [except] of the source catch. *)

From Stdlib Require Import ZArith QArith Lia List Ascii String Bool Permutation.
From Stdlib Require Import DecimalString.
From stdpp Require Import base option list strings gmap.

Local Open Scope string_scope.
Local Open Scope Z_scope.

Set Warnings "-register-all".

(** ** Python values *)

Module Py.

Inductive pyval : Type :=
| PNone
| PBool (b : bool)
| PInt (z : Z)
| PFloat (q : Q)
| PStr (s : string)
| PList (l : list pyval)
| PDict (d : list (string * pyval)).

(** [bool(v)], as used by [if v] and [if not v]. *)
Definition truthy (v : pyval) : bool :=
  match v with
  | PNone => false
  | PBool b => b
  | PInt z => negb (z =? 0)
  | PFloat q => negb (Qeq_bool q 0)
  | PStr s => negb (String.eqb s "")
  | PList l => match l with [] => false | _ => true end
  | PDict d => match d with [] => false | _ => true end
  end.

(** [type(v).__name__] *)
Definition type_name (v : pyval) : string :=
  match v with
  | PNone => "NoneType"
  | PBool _ => "bool"
  | PInt _ => "int"
  | PFloat _ => "float"
  | PStr _ => "str"
  | PList _ => "list"
  | PDict _ => "dict"
  end.

(** [d.get(k)] on an insertion-ordered dict. *)
Fixpoint assoc_get {A} (k : string) (d : list (string * A)) : option A :=
  match d with
  | [] => None
  | (k', v) :: d' => if String.eqb k k' then Some v else assoc_get k d'
  end.

(** [d[k] = v]: an existing key keeps its position, a new key goes last. *)
Fixpoint assoc_set {A} (k : string) (v : A) (d : list (string * A))
  : list (string * A) :=
  match d with
  | [] => [(k, v)]
  | (k', v') :: d' =>
      if String.eqb k k' then (k, v) :: d' else (k', v') :: assoc_set k v d'
  end.

(** Exceptions: the class and [str(e)]. *)
Inductive exn_class :=
| ValueError | TypeError | AttributeError | KeyError | FileNotFoundError
| JSONDecodeError | YAMLError
| GitlabGetError (response_code : Z)
| OtherException.

Record exn := Exn { exn_cls : exn_class; exn_str : string }.

Inductive outcome (A : Type) : Type :=
| Ret (a : A)
| Raise (e : exn).
Arguments Ret {A} a.
Arguments Raise {A} e.

Definition bind {A B} (m : outcome A) (k : A -> outcome B) : outcome B :=
  match m with
  | Ret a => k a
  | Raise e => Raise e
  end.

(** [try: m except Exception as e: h e]. *)
Definition try_except {A} (m : outcome A) (h : exn -> outcome A) : outcome A :=
  match m with
  | Ret a => Ret a
  | Raise e => h e
  end.

End Py.
Import Py.

Notation "x <- m ;; k" := (bind m (fun x => k))
  (at level 100, m at next level, right associativity).

(** ** The operation store ([operation_store.py]) *)

Module Store.

(** What [OPERATIONS_FILE] holds.  The module only ever dumps a dict, so
    a parseable file holds a JSON object. *)
Inductive file_state :=
| Missing
| Corrupt
| Json (ops : gmap string pyval).

(** The backing file together with the number of [_write_operations]
    calls performed on it so far. *)
Record store := Store { file : file_state; writes : nat }.

Definition _read_operations (st : store) : gmap string pyval :=
  match file st with
  | Missing => ∅
  | Corrupt => ∅
  | Json ops => ops
  end.

Definition _write_operations (ops : gmap string pyval) (st : store) : store :=
  {| file := Json ops; writes := S (writes st) |}.

(** [ops.get(op_id)]: the entry, or [None] when there is none. *)
Definition get_operation (op_id : string) (st : store) : pyval :=
  let ops := _read_operations st in
  default PNone (ops !! op_id).

Definition set_operation (op_id : string) (data : pyval) (st : store) : store :=
  let ops := _read_operations st in
  let ops := <[op_id := data]> ops in
  _write_operations ops st.

Definition delete_operation (op_id : string) (st : store) : store :=
  let ops := _read_operations st in
  if decide (is_Some (ops !! op_id)) then
    let ops := delete op_id ops in
    _write_operations ops st
  else st.

(** A call on the store, for sequences of calls. *)
Inductive call :=
| CGet (op_id : string)
| CSet (op_id : string) (data : pyval)
| CDelete (op_id : string).

Definition run_call (c : call) (st : store) : store :=
  match c with
  | CGet _ => st
  | CSet op_id data => set_operation op_id data st
  | CDelete op_id => delete_operation op_id st
  end.

Definition run_calls (cs : list call) (st : store) : store :=
  fold_left (fun st c => run_call c st) cs st.

(** The call writes the entry of [op_id]. *)
Definition writes_to (op_id : string) (c : call) : Prop :=
  match c with
  | CGet _ => False
  | CSet i _ => i = op_id
  | CDelete i => i = op_id
  end.

End Store.

(** ** Python string methods used by the source *)

Module Str.

(** [c.isspace()] on the code points below 256. *)
Definition isspace (c : ascii) : bool :=
  let n := nat_of_ascii c in
  ((9 <=? n) && (n <=? 13) || (28 <=? n) && (n <=? 32)
   || (n =? 133) || (n =? 160))%nat.

Fixpoint lstrip (s : string) : string :=
  match s with
  | EmptyString => EmptyString
  | String c s' => if isspace c then lstrip s' else s
  end.

Fixpoint rstrip (s : string) : string :=
  match s with
  | EmptyString => EmptyString
  | String c s' =>
      match rstrip s' with
      | EmptyString => if isspace c then EmptyString else String c EmptyString
      | r => String c r
      end
  end.

(** [s.strip()] *)
Definition strip (s : string) : string := rstrip (lstrip s).

(** Every character is white space. *)
Fixpoint all_space (s : string) : bool :=
  match s with
  | EmptyString => true
  | String c s' => isspace c && all_space s'
  end.

(** [s.startswith(p)] *)
Definition startswith (p s : string) : bool := String.prefix p s.

(** [s[n:]] *)
Fixpoint slice_from (n : nat) (s : string) : string :=
  match n, s with
  | O, _ => s
  | S n', EmptyString => EmptyString
  | S n', String _ s' => slice_from n' s'
  end.

(** [s[:n]] *)
Fixpoint slice_to (n : nat) (s : string) : string :=
  match n, s with
  | O, _ => EmptyString
  | S n', EmptyString => EmptyString
  | S n', String c s' => String c (slice_to n' s')
  end.

(** [s[:-n]] for [n > 0] *)
Definition slice_to_minus (n : nat) (s : string) : string :=
  slice_to (String.length s - n) s.

(** [s.endswith(suf)] *)
Definition endswith (suf s : string) : bool :=
  (String.length suf <=? String.length s)%nat
  && String.eqb (slice_from (String.length s - String.length suf) s) suf.

(** [c.lower()] on the code points below 256: the ASCII capitals and
    the Latin-1 capitals. *)
Definition lower_char (c : ascii) : ascii :=
  let n := nat_of_ascii c in
  if ((65 <=? n) && (n <=? 90)
      || (192 <=? n) && (n <=? 222) && negb (n =? 215))%nat
  then ascii_of_nat (n + 32) else c.

Fixpoint lower (s : string) : string :=
  match s with
  | EmptyString => EmptyString
  | String c s' => String (lower_char c) (lower s')
  end.

(** [s.split(sep)] for a non-empty separator.  [skip] counts the
    characters of a matched separator still to be dropped and [cur] is
    the piece being read. *)
Fixpoint split_go (sep : string) (skip : nat) (cur : string) (s : string)
  : list string :=
  match s with
  | EmptyString => [cur]
  | String c s' =>
      match skip with
      | S k => split_go sep k cur s'
      | O =>
          if String.prefix sep s
          then cur :: split_go sep (String.length sep - 1) EmptyString s'
          else split_go sep 0 (cur ++ String c EmptyString) s'
      end
  end.

Definition split (sep s : string) : list string := split_go sep 0 EmptyString s.

(** [l[-1]] of a list that [split] returned (never empty). *)
Definition last_piece (l : list string) : string := List.last l EmptyString.

(** [sep.join(l)] *)
Fixpoint join (sep : string) (l : list string) : string :=
  match l with
  | [] => EmptyString
  | [x] => x
  | x :: l' => x ++ sep ++ join sep l'
  end.

(** The line feed, [chr(10)]. *)
Definition nl : string := String (ascii_of_nat 10) EmptyString.

End Str.

(** ** The agents: configuration and result shapes
       ([agents/base_agent.py] and the constructors of its subclasses) *)

Module Agent.
Import Str.

(** [os.getenv(name)] on the process environment. *)
Definition getenv (env : gmap string string) (name : string) : option string :=
  env !! name.

(** [not v] for the result of [os.getenv]: unset, or set to the empty
    string. *)
Definition unset (v : option string) : bool :=
  match v with
  | None => true
  | Some s => String.eqb s ""
  end.

(** Times are in microseconds, the resolution of [datetime]. *)
Record BaseAgent := mkBaseAgent {
  openai_api_key : option string;
  openai_model : string;
  last_request_time : Z;
  min_request_interval : Z
}.

(** [BaseAgent.__init__]; the second component is what it prints. *)
Definition BaseAgent_init (env : gmap string string) (now : Z)
  : BaseAgent * list string :=
  let key := getenv env "OPENAI_API_KEY" in
  let model := default "gpt-3.5-turbo" (getenv env "OPENAI_MODEL") in
  ({| openai_api_key := key;
      openai_model := model;
      last_request_time := now;
      min_request_interval := 1000000 |},
   if unset key
   then ["Warning: OPENAI_API_KEY environment variable is not set."]
   else []).

Record GitlabAgent := mkGitlabAgent {
  gl_base : BaseAgent;
  gitlab_url : string;
  gitlab_token : string
}.

Record DeploymentAgent := mkDeploymentAgent {
  dep_gitlab : GitlabAgent;
  project_id : string
}.

(** The check shared by the three agents that talk to GitLab. *)
Definition gitlab_config (env : gmap string string) (base : BaseAgent)
  : outcome GitlabAgent :=
  let url := getenv env "GITLAB_URL" in
  let token := getenv env "GITLAB_TOKEN" in
  if unset url || unset token
  then Raise (Exn ValueError "GitLab configuration is missing")
  else Ret {| gl_base := base;
              gitlab_url := default "" url;
              gitlab_token := default "" token |}.

Definition CodeAnalysisAgent_init (env : gmap string string) (now : Z)
  : outcome GitlabAgent :=
  gitlab_config env (fst (BaseAgent_init env now)).

Definition ValidationAgent_init (env : gmap string string) (now : Z)
  : outcome GitlabAgent :=
  gitlab_config env (fst (BaseAgent_init env now)).

(** [cloud_clients] is the construction of the two Google Cloud clients
    at the end of [DeploymentAgent.__init__]. *)
Definition DeploymentAgent_init (cloud_clients : outcome unit)
    (env : gmap string string) (now : Z) : outcome DeploymentAgent :=
  let base := fst (BaseAgent_init env now) in
  let url := getenv env "GITLAB_URL" in
  let token := getenv env "GITLAB_TOKEN" in
  let project := getenv env "GOOGLE_PROJECT_ID" in
  if unset url || unset token
  then Raise (Exn ValueError "GitLab configuration is missing")
  else if unset project
  then Raise (Exn ValueError "Google Cloud project ID is missing")
  else
    _ <- cloud_clients ;;
    Ret {| dep_gitlab := {| gl_base := base;
                            gitlab_url := default "" url;
                            gitlab_token := default "" token |};
           project_id := default "" project |}.

Definition PipelineAgent_init (env : gmap string string) (now : Z)
  : outcome BaseAgent :=
  Ret (fst (BaseAgent_init env now)).

Definition PipelineGenAgent_init (env : gmap string string) (now : Z)
  : outcome BaseAgent :=
  Ret (fst (BaseAgent_init env now)).

(** The five agent classes. *)
Inductive agent_class :=
| CodeAnalysisAgent | PipelineAgent | PipelineGenAgent
| ValidationAgent | DeploymentAgentC.

(** Constructing an agent of a class: the base agent it holds, or the
    exception its constructor raises. *)
Definition construct (cloud_clients : outcome unit) (c : agent_class)
    (env : gmap string string) (now : Z) : outcome BaseAgent :=
  match c with
  | CodeAnalysisAgent => a <- CodeAnalysisAgent_init env now ;; Ret (gl_base a)
  | PipelineAgent => PipelineAgent_init env now
  | PipelineGenAgent => PipelineGenAgent_init env now
  | ValidationAgent => a <- ValidationAgent_init env now ;; Ret (gl_base a)
  | DeploymentAgentC =>
      a <- DeploymentAgent_init cloud_clients env now ;;
      Ret (gl_base (dep_gitlab a))
  end.

(** The environment variables the constructor of a class reads without
    a default, its own and those of [BaseAgent.__init__]. *)
Definition config_inputs (c : agent_class) : list string :=
  match c with
  | CodeAnalysisAgent | ValidationAgent =>
      ["OPENAI_API_KEY"; "GITLAB_URL"; "GITLAB_TOKEN"]
  | PipelineAgent | PipelineGenAgent => ["OPENAI_API_KEY"]
  | DeploymentAgentC =>
      ["OPENAI_API_KEY"; "GITLAB_URL"; "GITLAB_TOKEN"; "GOOGLE_PROJECT_ID"]
  end.

(** Those among them that the constructor tests. *)
Definition checked_inputs (c : agent_class) : list string :=
  match c with
  | CodeAnalysisAgent | ValidationAgent => ["GITLAB_URL"; "GITLAB_TOKEN"]
  | PipelineAgent | PipelineGenAgent => []
  | DeploymentAgentC => ["GITLAB_URL"; "GITLAB_TOKEN"; "GOOGLE_PROJECT_ID"]
  end.

(** [_make_openai_request]: [chat] is the remote chat-completion call,
    given the model and the messages as (role, content) pairs; it
    returns [response.choices[0].message.content]. *)
Definition _make_openai_request
    (chat : string -> list (string * string) -> outcome string)
    (self : BaseAgent) (prompt : string) (system_prompt : option string)
  : outcome string :=
  if unset (openai_api_key self)
  then Raise (Exn ValueError "OPENAI_API_KEY is not set.")
  else
    let messages :=
      match system_prompt with
      | Some sp => if String.eqb sp "" then [] else [("system", sp)]
      | None => []
      end in
    let messages := (messages ++ [("user", prompt)])%list in
    content <- chat (openai_model self) messages ;;
    Ret (strip content).

(** [_call_openai], as its caller sees it: the queue consumer resolves
    the caller's future with the result of [_make_openai_request] or with
    the exception it raised.  The pacing of the consumer is the subject
    of the gateway model below. *)
Definition _call_openai
    (chat : string -> list (string * string) -> outcome string)
    (self : BaseAgent) (prompt : string) : outcome string :=
  _make_openai_request chat self prompt None.

(** [_format_error] and [_format_success] *)
Definition _format_error (error : exn) : pyval :=
  PDict [("status", PStr "error");
         ("message", PStr (exn_str error));
         ("data", PNone)].

Definition _format_success (message : string) (data : pyval) : pyval :=
  PDict [("status", PStr "success");
         ("message", PStr message);
         ("data", data)].

End Agent.

(** ** Operations on dynamically typed values *)

Module Dyn.
Import Str.

(** The message of the [AttributeError] raised by [v.attr] on a value
    without that attribute. *)
Definition no_attribute (v : pyval) (attr : string) : string :=
  "'" ++ type_name v ++ "' object has no attribute '" ++ attr ++ "'".

(** [v.get(key, dflt)]: only a dict has [get]. *)
Definition py_get (v : pyval) (key : string) (dflt : pyval) : outcome pyval :=
  match v with
  | PDict d => Ret (default dflt (assoc_get key d))
  | _ => Raise (Exn AttributeError (no_attribute v "get"))
  end.

(** [table.get(key, dflt)] for a dict with string keys and a key of any
    type: a list or a dict cannot be hashed. *)
Definition table_get (table : list (string * string)) (key : pyval)
    (dflt : string) : outcome string :=
  match key with
  | PStr k => Ret (default dflt (assoc_get k table))
  | PList _ | PDict _ =>
      Raise (Exn TypeError ("unhashable type: '" ++ type_name key ++ "'"))
  | _ => Ret dflt
  end.

(** The characters of a string, each as a string. *)
Fixpoint chars (s : string) : list string :=
  match s with
  | EmptyString => []
  | String c s' => String c EmptyString :: chars s'
  end.

(** The strings of a list of values, or the first value that is not a
    string, with its index. *)
Fixpoint all_strings (i : nat) (l : list pyval)
  : list string + (nat * pyval) :=
  match l with
  | [] => inl []
  | PStr s :: l' =>
      match all_strings (S i) l' with
      | inl ss => inl (s :: ss)
      | inr bad => inr bad
      end
  | v :: _ => inr (i, v)
  end.

(** [sep.join(v)]. [show_index] renders the index in the message of
    the [TypeError]. *)
Definition py_join (show_index : nat -> string) (sep : string) (v : pyval)
  : outcome string :=
  match v with
  | PStr s => Ret (join sep (chars s))
  | PDict d => Ret (join sep (List.map fst d))
  | PList l =>
      match all_strings 0 l with
      | inl ss => Ret (join sep ss)
      | inr (i, bad) =>
          Raise (Exn TypeError
                   ("sequence item " ++ show_index i ++ ": expected str instance, "
                    ++ type_name bad ++ " found"))
      end
  | _ => Raise (Exn TypeError "can only join an iterable")
  end.

(** [v[:n]], for the types that can be sliced. *)
Definition py_slice_to (n : nat) (v : pyval) : outcome pyval :=
  match v with
  | PStr s => Ret (PStr (slice_to n s))
  | PList l => Ret (PList (List.firstn n l))
  | PDict _ => Raise (Exn TypeError "unhashable type: 'slice'")
  | _ => Raise (Exn TypeError
                  ("'" ++ type_name v ++ "' object is not subscriptable"))
  end.

(** [try: m  except cls as e: h e]: other classes pass through. *)
Definition try_except_class {A} (is_cls : exn_class -> bool) (m : outcome A)
    (h : exn -> outcome A) : outcome A :=
  match m with
  | Ret a => Ret a
  | Raise e => if is_cls (exn_cls e) then h e else Raise e
  end.

(** The double quote, [chr(34)]. *)
Definition dq : string := String (ascii_of_nat 34) EmptyString.

End Dyn.

(** ** The GitLab collaborator, as the agents call it *)

Module Gitlab.

(** An entry of [project.repository_tree(...)]: [item["path"]] and
    [item["type"]]. *)
Record tree_item := mkItem { item_path : string; item_type : string }.

(** A project handle, with the two attributes the agents read. *)
Record project := mkProject { web_url : string; path : string }.

(** The calls of the python-gitlab client.  Each may raise. *)
Record api := mkApi {
  (** [self.gl.projects.get(project_path)] *)
  projects_get : string -> outcome project;
  (** [project.repository_tree(ref=branch, recursive=True)] *)
  repository_tree : project -> pyval -> outcome (list tree_item);
  (** [project.files.get(file, branch).decode().decode()] *)
  files_get : project -> string -> pyval -> outcome string;
  (** [file = project.files.get(".gitlab-ci.yml", "main");
       file.content = ...; file.save(...)] *)
  ci_file_update : project -> pyval -> outcome unit;
  (** [project.files.create({...})] *)
  ci_file_create : project -> pyval -> outcome unit
}.

End Gitlab.

(** ** The analyze task ([agents/code_analysis_agent.py]) *)

Module Analysis.
Import Str Dyn Agent Gitlab.

(** [needle in hay] for strings *)
Fixpoint contains (needle hay : string) : bool :=
  match hay with
  | EmptyString => String.prefix needle EmptyString
  | String _ hay' => String.prefix needle hay || contains needle hay'
  end.

(** [_extract_project_path]; every exception of its body is re-raised
    as a [ValueError]. *)
Definition _extract_project_path (repo_url : pyval) : outcome string :=
  match repo_url with
  | PStr url =>
      let path_parts := split "/" (last_piece (split "//" url)) in
      if (List.length path_parts <? 2)%nat
      then Raise (Exn ValueError
                    ("Error parsing GitLab URL: Invalid GitLab URL format: " ++ url))
      else
        let path_parts :=
          List.filter (fun p => negb (String.eqb p "")) (List.tl path_parts) in
        let project_path := join "/" path_parts in
        let project_path :=
          if endswith ".git" project_path
          then slice_to_minus 4 project_path else project_path in
        Ret project_path
  | _ =>
      Raise (Exn ValueError
               ("Error parsing GitLab URL: " ++ no_attribute repo_url "split"))
  end.

(** [_analyze_repo_structure]: the paths of all items, and those of the
    trees. *)
Definition _analyze_repo_structure (gl : api) (p : project) (branch : pyval)
  : outcome (list string * list string) :=
  try_except
    (items <- repository_tree gl p branch ;;
     Ret (List.map item_path items,
          List.map item_path
            (List.filter (fun i => String.eqb (item_type i) "tree") items)))
    (fun e => Raise (Exn OtherException
                       ("Error analyzing repository structure: " ++ exn_str e))).

(** The manifest files of each ecosystem, in the order of the dict. *)
Definition dependency_files : list (string * list string) :=
  [("python", ["requirements.txt"; "setup.py"; "Pipfile"]);
   ("node", ["package.json"]);
   ("java", ["pom.xml"; "build.gradle"]);
   ("ruby", ["Gemfile"]);
   ("php", ["composer.json"])].

(** The inner loop: the content of the first manifest that can be
    fetched; a fetch that raises is skipped by the bare [except]. *)
Fixpoint first_manifest (fetch : string -> outcome string) (files : list string)
  : option string :=
  match files with
  | [] => None
  | file :: files' =>
      match fetch file with
      | Ret content => Some content
      | Raise _ => first_manifest fetch files'
      end
  end.

(** The outer loop over [dependency_files.items()]. *)
Fixpoint scan_dependencies (fetch : string -> outcome string)
    (table : list (string * list string)) (dependencies : list (string * string))
  : list (string * string) :=
  match table with
  | [] => dependencies
  | (lang, files) :: table' =>
      match first_manifest fetch files with
      | Some content =>
          scan_dependencies fetch table' (assoc_set lang content dependencies)
      | None => scan_dependencies fetch table' dependencies
      end
  end.

Definition _analyze_dependencies (gl : api) (p : project) (branch : pyval)
  : outcome (list (string * string)) :=
  Ret (scan_dependencies (fun file => files_get gl p file branch)
         dependency_files []).

(** The first key of a dict, [list(d.keys())[0]]. *)
Definition head_key {A} (d : list (string * A)) : option string :=
  match d with
  | [] => None
  | (k, _) :: _ => Some k
  end.

(** The specification's rule for manifests: the first ecosystem, in the
    priority order of the table, one of whose manifests can be fetched. *)
Fixpoint spec_manifest_language (fetch : string -> outcome string)
    (table : list (string * list string)) : option string :=
  match table with
  | [] => None
  | (lang, files) :: table' =>
      match first_manifest fetch files with
      | Some _ => Some lang
      | None => spec_manifest_language fetch table'
      end
  end.

(** The loop that counts the extensions of the files. *)
Definition count_extensions (files : list string) : list (string * Z) :=
  fold_left
    (fun extensions file =>
       let ext := lower (last_piece (split "." file)) in
       assoc_set ext (default 0 (assoc_get ext extensions) + 1) extensions)
    files [].

(** [max(items, key=lambda x: x[1])]: the first item with the largest
    count. *)
Fixpoint max_by_count (best : string * Z) (items : list (string * Z))
  : string * Z :=
  match items with
  | [] => best
  | item :: items' =>
      if snd best <? snd item then max_by_count item items'
      else max_by_count best items'
  end.

Definition ext_to_lang : list (string * string) :=
  [("py", "python"); ("js", "javascript"); ("ts", "typescript");
   ("java", "java"); ("rb", "ruby"); ("php", "php"); ("go", "go")].

Definition _detect_language (files : list string)
    (dependencies : list (string * string)) : string :=
  match dependencies with
  | (lang, _) :: _ => lang
  | [] =>
      match count_extensions files with
      | [] => "unknown"
      | item :: items =>
          let most_common := fst (max_by_count item items) in
          default "unknown" (assoc_get most_common ext_to_lang)
      end
  end.

Definition build_steps_table : list (string * list string) :=
  [("python", ["install dependencies"; "build wheel"]);
   ("javascript", ["install dependencies"; "build assets"]);
   ("typescript", ["install dependencies"; "compile typescript"; "build assets"]);
   ("java", ["install dependencies"; "compile"; "package"]);
   ("ruby", ["install dependencies"; "build gem"]);
   ("php", ["install dependencies"; "build"]);
   ("go", ["install dependencies"; "build binary"])].

Definition _get_build_steps (language : string) : list string :=
  default ["install dependencies"; "build"] (assoc_get language build_steps_table).

Definition str_list (l : list string) : pyval := PList (List.map PStr l).

Definition _generate_analysis (files : list string)
    (dependencies : list (string * string)) : pyval :=
  let language := _detect_language files dependencies in
  let has_dockerfile := List.existsb (String.eqb "Dockerfile") files in
  let has_tests := List.existsb (fun f => contains "test" (lower f)) files in
  let build_steps := _get_build_steps language in
  let test_steps := if has_tests then ["run tests"] else [] in
  let deploy_steps := ["deploy to Cloud Run"] in
  PDict [("language", PStr language);
         ("has_dockerfile", PBool has_dockerfile);
         ("has_tests", PBool has_tests);
         ("build_steps", str_list build_steps);
         ("test_steps", str_list test_steps);
         ("deploy_steps", str_list deploy_steps)].

(** The body of [CodeAnalysisAgent.execute], inside its [try]. *)
Definition execute_body (gl : api) (context : list (string * pyval))
  : outcome pyval :=
  let repo_url := default PNone (assoc_get "repo_url" context) in
  let branch := default (PStr "main") (assoc_get "branch" context) in
  if negb (truthy repo_url)
  then Raise (Exn ValueError "Repository URL is required")
  else
    project_path <- _extract_project_path repo_url ;;
    project <-
      try_except (projects_get gl project_path)
        (fun e =>
           match exn_cls e, repo_url with
           | GitlabGetError code, PStr url =>
               if code =? 404
               then Raise (Exn ValueError
                      ("Repository not found: " ++ url ++
                       ". Please check if the URL is correct and you have access to it."))
               else Raise (Exn ValueError ("GitLab API error: " ++ exn_str e))
           | GitlabGetError code, _ =>
               Raise (Exn ValueError ("GitLab API error: " ++ exn_str e))
           | _, _ => Raise e
           end) ;;
    repo_structure <- _analyze_repo_structure gl project branch ;;
    dependencies <- _analyze_dependencies gl project branch ;;
    let analysis := _generate_analysis (fst repo_structure) dependencies in
    Ret (_format_success "Repository analysis completed"
           (PDict [("structure",
                    PDict [("files", str_list (fst repo_structure));
                           ("directories", str_list (snd repo_structure))]);
                   ("dependencies",
                    PDict (List.map (fun kv => (fst kv, PStr (snd kv)))
                             dependencies));
                   ("analysis", analysis)])).

(** [CodeAnalysisAgent.execute]: the body under
    [except Exception as e: return self._format_error(e)]. *)
Definition execute (gl : api) (context : list (string * pyval)) : outcome pyval :=
  try_except (execute_body gl context) (fun e => Ret (_format_error e)).

End Analysis.

(** ** The template generate task ([agents/pipeline_agent.py]) *)

Module Pipeline.
Import Str Dyn Agent.

Definition images : list (string * string) :=
  [("python", "python:3.9"); ("javascript", "node:16");
   ("typescript", "node:16"); ("java", "maven:3.8"); ("ruby", "ruby:3.0");
   ("php", "php:8.0"); ("go", "golang:1.16")].

Definition build_commands : list (string * string) :=
  [("python", "pip install -r requirements.txt && python setup.py build");
   ("javascript", "npm install && npm run build");
   ("typescript", "npm install && npm run build");
   ("java", "mvn clean package");
   ("ruby", "bundle install && bundle exec rake build");
   ("php", "composer install && php artisan build");
   ("go", "go build -o app")].

Definition test_commands : list (string * string) :=
  [("python", "python -m pytest"); ("javascript", "npm test");
   ("typescript", "npm test"); ("java", "mvn test");
   ("ruby", "bundle exec rspec"); ("php", "php artisan test");
   ("go", "go test ./...")].

Definition _get_language_image (language : pyval) : outcome string :=
  table_get images language "alpine:latest".

Definition _get_build_commands (language : pyval) : outcome string :=
  table_get build_commands language "echo 'No build commands defined'".

Definition _get_test_commands (language : pyval) : outcome string :=
  table_get test_commands language "echo 'No test commands defined'".

Definition _generate_basic_pipeline (analysis : pyval) : outcome string :=
  language <- py_get analysis "language" (PStr "unknown") ;;
  image1 <- _get_language_image language ;;
  build <- _get_build_commands language ;;
  image2 <- _get_language_image language ;;
  test <- _get_test_commands language ;;
  Ret ("
stages:
  - build
  - test
  - deploy

variables:
  DOCKER_DRIVER: overlay2

build:
  stage: build
  image: " ++ image1 ++ "
  script:
    - echo " ++ dq ++ "Building application..." ++ dq ++ "
    - " ++ build ++ "
  artifacts:
    paths:
      - build/
    expire_in: 1 week

test:
  stage: test
  image: " ++ image2 ++ "
  script:
    - echo " ++ dq ++ "Running tests..." ++ dq ++ "
    - " ++ test ++ "
  dependencies:
    - build

deploy:
  stage: deploy
  image: alpine:latest
  script:
    - echo " ++ dq ++ "Deploying application..." ++ dq ++ "
    - echo " ++ dq ++ "Deployment completed successfully" ++ dq ++ "
  only:
    - main
").

(** The body of [PipelineAgent.execute], inside its [try]. *)
Definition execute_body (context : list (string * pyval)) : outcome pyval :=
  let analysis := default (PDict []) (assoc_get "analysis" context) in
  if negb (truthy analysis)
  then Raise (Exn ValueError "Repository analysis is required")
  else
    pipeline_yaml <- _generate_basic_pipeline analysis ;;
    Ret (_format_success "Pipeline generation completed"
           (PDict [("pipeline_yaml", PStr pipeline_yaml)])).

Definition execute (context : list (string * pyval)) : outcome pyval :=
  try_except (execute_body context) (fun e => Ret (_format_error e)).

End Pipeline.

(** ** The generate task's clean-up ([agents/pipeline_gen_agent.py]) *)

Module PipelineGen.
Import Str Dyn Agent.

Definition fence : string := "```".
Definition fence_yaml : string := "```yaml".

Definition _clean_yaml_response (yaml_str : string) : string :=
  let yaml_str := strip yaml_str in
  let yaml_str :=
    if startswith fence_yaml yaml_str then slice_from 7 yaml_str else yaml_str in
  let yaml_str :=
    if startswith fence yaml_str then slice_from 3 yaml_str else yaml_str in
  let yaml_str :=
    if endswith fence yaml_str then slice_to_minus 3 yaml_str else yaml_str in
  strip yaml_str.

(** The loop of [_fix_common_yaml_issues]: a line that starts with a
    fence toggles [in_yaml] and is dropped; every other line is kept. *)
Fixpoint fix_lines (in_yaml : bool) (lines : list string) : list string :=
  match lines with
  | [] => []
  | line :: rest =>
      if startswith fence (strip line) then fix_lines (negb in_yaml) rest
      else if in_yaml || negb (startswith fence (strip line))
           then line :: fix_lines in_yaml rest
           else fix_lines in_yaml rest
  end.

Definition _fix_common_yaml_issues (yaml_str : string) : string :=
  join nl (fix_lines false (split nl yaml_str)).

(** The index of a list item in the message of [str.join]. *)
Definition show_index (i : nat) : string :=
  NilEmpty.string_of_uint (Nat.to_uint i).

(** The prompt of [_generate_pipeline]. [py_str] is the built-in [str],
    which the f-string applies to the values it formats. *)
Definition pipeline_prompt (py_str : pyval -> string) (analysis : pyval)
  : outcome string :=
  language <- py_get analysis "language" (PStr "unknown") ;;
  has_docker <- py_get analysis "has_dockerfile" (PBool false) ;;
  has_tests <- py_get analysis "has_tests" (PBool false) ;;
  build_steps <- py_get analysis "build_steps" (PList []) ;;
  test_steps <- py_get analysis "test_steps" (PList []) ;;
  deploy_steps <- py_get analysis "deploy_steps" (PList []) ;;
  build <- py_join show_index ", " build_steps ;;
  test <- (if truthy test_steps then py_join show_index ", " test_steps
           else Ret "No test steps specified") ;;
  deploy <- py_join show_index ", " deploy_steps ;;
  Ret ("Create a GitLab CI/CD pipeline for a " ++ py_str language
       ++ " project with the following requirements:

Project Details:
- Language: " ++ py_str language ++ "
- Has Dockerfile: " ++ py_str has_docker ++ "
- Has Tests: " ++ py_str has_tests ++ "

Required Stages:
1. Build Stage:
   - Steps: " ++ build ++ "
   - Use appropriate " ++ py_str language ++ " base image
   - Cache dependencies
   - Build artifacts

2. Test Stage:
   - Steps: " ++ test ++ "
   - Run tests if present
   - Generate test reports

3. Deploy Stage:
   - Steps: " ++ deploy ++ "
   - Deploy to production
   - Include deployment verification

Additional Requirements:
- Use GitLab CI/CD best practices
- Include proper caching
- Add appropriate environment variables
- Include job dependencies
- Add proper artifacts handling
- Include deployment conditions

Return only the YAML configuration without any explanations or markdown formatting.").

Definition _generate_pipeline
    (chat : string -> list (string * string) -> outcome string)
    (py_str : pyval -> string) (self : BaseAgent) (analysis : pyval)
  : outcome string :=
  prompt <- pipeline_prompt py_str analysis ;;
  pipeline <- _call_openai chat self prompt ;;
  Ret (_clean_yaml_response pipeline).

Definition is_YAMLError (c : exn_class) : bool :=
  match c with YAMLError => true | _ => false end.

(** The body of [PipelineGenAgent.execute], inside its [try].
    [yaml_safe_load] is [yaml.safe_load], whose result is dropped. *)
Definition execute_body
    (chat : string -> list (string * string) -> outcome string)
    (yaml_safe_load : string -> outcome unit)
    (py_str : pyval -> string) (self : BaseAgent)
    (context : list (string * pyval)) : outcome pyval :=
  let analysis := default PNone (assoc_get "analysis" context) in
  if negb (truthy analysis)
  then Raise (Exn ValueError "Repository analysis is required")
  else
    pipeline_yaml <- _generate_pipeline chat py_str self analysis ;;
    pipeline_yaml <-
      try_except_class is_YAMLError
        (_ <- yaml_safe_load pipeline_yaml ;; Ret pipeline_yaml)
        (fun _ =>
           let pipeline_yaml := _fix_common_yaml_issues pipeline_yaml in
           try_except_class is_YAMLError
             (_ <- yaml_safe_load pipeline_yaml ;; Ret pipeline_yaml)
             (fun e =>
                Raise (Exn ValueError
                         ("Generated pipeline has invalid YAML syntax: "
                          ++ exn_str e)))) ;;
    Ret (PDict [("status", PStr "success");
                ("message", PStr "Pipeline generated successfully");
                ("data", PDict [("pipeline_yaml", PStr pipeline_yaml)])]).

Definition execute
    (chat : string -> list (string * string) -> outcome string)
    (yaml_safe_load : string -> outcome unit)
    (py_str : pyval -> string) (self : BaseAgent)
    (context : list (string * pyval)) : outcome pyval :=
  try_except (execute_body chat yaml_safe_load py_str self context)
    (fun e => Ret (_format_error e)).

End PipelineGen.

(** ** The validate task ([agents/validation_agent.py]) *)

Module Validation.
Import Str Dyn Agent Gitlab.

(** [_extract_project_path] of the validation and deployment agents. *)
Definition _extract_project_path (repo_url : pyval) : outcome string :=
  match repo_url with
  | PStr url =>
      Ret (join "/" (List.tl (split "/" (last_piece (split "//" url)))))
  | _ => Raise (Exn AttributeError (no_attribute repo_url "split"))
  end.

(** [_validate_pipeline]: the source returns a fixed valid result that
    carries the input back. *)
Definition _validate_pipeline (pipeline_yaml : pyval) : list (string * pyval) :=
  [("valid", PBool true);
   ("errors", PList []);
   ("warnings", PList []);
   ("merged_yaml", pipeline_yaml)].

(** The body of [ValidationAgent.execute], inside its [try].  The
    slice is the one of the second [print].  The branch that asks for
    suggestions is taken when [valid] is false, which the result of
    [_validate_pipeline] never is. *)
Definition execute_body (gl : api) (context : list (string * pyval))
  : outcome pyval :=
  let pipeline_yaml := default PNone (assoc_get "pipeline_yaml" context) in
  let repo_url := default PNone (assoc_get "repo_url" context) in
  _ <- py_slice_to 100 pipeline_yaml ;;
  if negb (truthy pipeline_yaml)
  then Raise (Exn ValueError "Pipeline YAML is required")
  else
    project_path <- _extract_project_path repo_url ;;
    project <- projects_get gl project_path ;;
    let validation_result := _validate_pipeline pipeline_yaml in
    Ret (PDict [("status", PStr "success");
                ("message", PStr "Pipeline validation completed");
                ("data", PDict validation_result)]).

Definition execute (gl : api) (context : list (string * pyval)) : outcome pyval :=
  try_except (execute_body gl context) (fun e => Ret (_format_error e)).

End Validation.

(** ** The deploy task ([agents/deployment_agent.py]) *)

Module Deployment.
Import Str Dyn Agent Gitlab.

(** The calls of the two Google Cloud clients; each returns the [name]
    of the resource. *)
Record cloud_api := mkCloud {
  (** [artifact_client.get_repository(name=...)] *)
  get_repository : string -> outcome string;
  (** [artifact_client.create_repository(parent=..., repository_id=..., ...)] *)
  create_repository : string -> string -> outcome string;
  (** [run_client.get_service(name=...)] *)
  get_service : string -> outcome string;
  (** [run_client.create_service(parent=..., service_id=..., service=...)],
      with the image of the container *)
  create_service : string -> string -> string -> outcome string
}.

Definition _deploy_pipeline (gl : api) (p : project) (pipeline_yaml : pyval)
  : outcome pyval :=
  try_except
    (_ <- try_except (ci_file_update gl p pipeline_yaml)
            (fun _ => ci_file_create gl p pipeline_yaml) ;;
     Ret (PDict [("status", PStr "success");
                 ("message", PStr "Pipeline deployed to GitLab");
                 ("pipeline_url", PStr (web_url p ++ "/-/pipelines"))]))
    (fun e => Raise (Exn OtherException
                       ("Error deploying pipeline: " ++ exn_str e))).

Definition _setup_cloud_resources (cloud : cloud_api) (self : DeploymentAgent)
    (p : project) : outcome pyval :=
  try_except
    (let parent := "projects/" ++ project_id self ++ "/locations/us-central1" in
     let repo_name := parent ++ "/repositories/" ++ path p in
     repo <- try_except (get_repository cloud repo_name)
               (fun _ => create_repository cloud parent (path p)) ;;
     let service_name := parent ++ "/services/" ++ path p in
     service <- try_except (get_service cloud service_name)
                  (fun _ =>
                     create_service cloud parent (path p)
                       ("us-central1-docker.pkg.dev/" ++ project_id self
                        ++ "/" ++ path p ++ "/app:latest")) ;;
     Ret (PDict [("status", PStr "success");
                 ("message", PStr "Google Cloud resources created");
                 ("artifact_registry", PStr repo);
                 ("cloud_run", PStr service)]))
    (fun e => Raise (Exn OtherException
                       ("Error setting up Google Cloud resources: " ++ exn_str e))).

(** The body of [DeploymentAgent.execute], inside its [try]. *)
Definition execute_body (gl : api) (cloud : cloud_api) (self : DeploymentAgent)
    (context : list (string * pyval)) : outcome pyval :=
  let pipeline_yaml := default PNone (assoc_get "pipeline_yaml" context) in
  let repo_url := default PNone (assoc_get "repo_url" context) in
  let deploy_to_cloud :=
    default (PBool false) (assoc_get "deploy_to_cloud" context) in
  if negb (truthy pipeline_yaml)
  then Raise (Exn ValueError "Pipeline YAML is required")
  else
    project_path <- Validation._extract_project_path repo_url ;;
    project <- projects_get gl project_path ;;
    pipeline_result <- _deploy_pipeline gl project pipeline_yaml ;;
    cloud_result <-
      (if truthy deploy_to_cloud
       then _setup_cloud_resources cloud self project
       else Ret PNone) ;;
    Ret (PDict [("status", PStr "success");
                ("message", PStr "Deployment completed successfully");
                ("data", PDict [("pipeline", pipeline_result);
                                ("cloud", cloud_result)])]).

Definition execute (gl : api) (cloud : cloud_api) (self : DeploymentAgent)
    (context : list (string * pyval)) : outcome pyval :=
  try_except (execute_body gl cloud self context)
    (fun e => Ret (_format_error e)).

End Deployment.

(** ** The agent tasks together *)

Module Tasks.
Import Agent.

(** What lies outside the program: the collaborators and the built-ins
    that the model leaves open. *)
Record world := mkWorld {
  gl : Gitlab.api;
  cloud : Deployment.cloud_api;
  chat : string -> list (string * string) -> outcome string;
  yaml_safe_load : string -> outcome unit;
  py_str : pyval -> string
}.

(** A constructed agent of each class. *)
Inductive agent :=
| ACodeAnalysis (self : GitlabAgent)
| APipeline (self : BaseAgent)
| APipelineGen (self : BaseAgent)
| AValidation (self : GitlabAgent)
| ADeployment (self : DeploymentAgent).

(** The body of [execute], inside the [try] of the agent's class. *)
Definition execute_body (w : world) (a : agent)
    (context : list (string * pyval)) : outcome pyval :=
  match a with
  | ACodeAnalysis _ => Analysis.execute_body (gl w) context
  | APipeline _ => Pipeline.execute_body context
  | APipelineGen self =>
      PipelineGen.execute_body (chat w) (yaml_safe_load w) (py_str w) self context
  | AValidation _ => Validation.execute_body (gl w) context
  | ADeployment self => Deployment.execute_body (gl w) (cloud w) self context
  end.

(** [agent.execute(context)] *)
Definition execute (w : world) (a : agent)
    (context : list (string * pyval)) : outcome pyval :=
  match a with
  | ACodeAnalysis _ => Analysis.execute (gl w) context
  | APipeline _ => Pipeline.execute context
  | APipelineGen self =>
      PipelineGen.execute (chat w) (yaml_safe_load w) (py_str w) self context
  | AValidation _ => Validation.execute (gl w) context
  | ADeployment self => Deployment.execute (gl w) (cloud w) self context
  end.

(** The two terminal shapes of a result: status, message and data, with
    status "success", or status "error" and no data. *)
Definition is_success_shape (r : pyval) : Prop :=
  ∃ message data,
    r = PDict [("status", PStr "success"); ("message", PStr message);
               ("data", data)].

Definition is_error_shape (r : pyval) : Prop :=
  ∃ message,
    r = PDict [("status", PStr "error"); ("message", PStr message);
               ("data", PNone)].

End Tasks.

(** ** Sequences of store calls, and threads that interleave *)

Module StoreSeq.
Import Store.

(** The entry of [op_id] in a mapping that starts with the entry [cur]
    and receives the calls [cs] in order: a set stores its payload, a
    delete removes the entry, calls on other ids leave it. *)
Fixpoint map_model (op_id : string) (cs : list call) (cur : option pyval)
  : option pyval :=
  match cs with
  | [] => cur
  | CGet _ :: cs' => map_model op_id cs' cur
  | CSet i data :: cs' =>
      map_model op_id cs' (if String.eqb i op_id then Some data else cur)
  | CDelete i :: cs' =>
      map_model op_id cs' (if String.eqb i op_id then None else cur)
  end.

End StoreSeq.

Module Threads.
Import Store.

(** Where a thread that runs [set_operation(op_id, data)] stands. *)
Inductive pc :=
| AtRead
| AtWrite (ops : gmap string pyval)
| Finished.

Record thread := Thread { t_id : string; t_data : pyval; t_pc : pc }.

Definition writer (op_id : string) (data : pyval) : thread :=
  Thread op_id data AtRead.

Definition step (t : thread) (st : store) : thread * store :=
  match t_pc t with
  | AtRead =>
      let ops := _read_operations st in
      let ops := <[t_id t := t_data t]> ops in
      (Thread (t_id t) (t_data t) (AtWrite ops), st)
  | AtWrite ops =>
      (Thread (t_id t) (t_data t) Finished, _write_operations ops st)
  | Finished => (t, st)
  end.

Fixpoint run (sched : list nat) (ts : list thread) (st : store)
  : list thread * store :=
  match sched with
  | [] => (ts, st)
  | i :: sched' =>
      match ts !! i with
      | Some t =>
          let '(t', st') := step t st in
          run sched' (<[i := t']> ts) st'
      | None => run sched' ts st
      end
  end.

(** Each of the two threads takes its two steps. *)
Definition complete2 (sched : list nat) : bool :=
  (List.length sched =? 4)%nat
  && (List.count_occ Nat.eq_dec sched 0%nat =? 2)%nat
  && (List.count_occ Nat.eq_dec sched 1%nat =? 2)%nat.

End Threads.

(** ** The endpoints ([main.py]) *)

Module Main.
Import Store Agent Dyn Tasks.

(** What an endpoint answers: the JSON body of a 200 response, or the
    status code and the detail of the [HTTPException] it raises. *)
Inductive response :=
| Ok (body : pyval)
| HttpError (status_code : Z) (detail : string).

(** [get_operation_status] *)
Definition get_operation_status (operation_id : string) (st : store) : response :=
  let op := get_operation operation_id st in
  if negb (truthy op) then HttpError 404 "Operation not found" else Ok op.

(** [r[key]] on the record that [execute] returned.  The messages for
    the other types are those of Python 3.11. *)
Definition py_subscript (r : pyval) (key : string) : outcome pyval :=
  match r with
  | PDict d =>
      match assoc_get key d with
      | Some v => Ret v
      | None => Raise (Exn KeyError ("'" ++ key ++ "'"))
      end
  | PStr _ => Raise (Exn TypeError "string indices must be integers, not 'str'")
  | PList _ =>
      Raise (Exn TypeError "list indices must be integers or slices, not str")
  | _ => Raise (Exn TypeError
                  ("'" ++ type_name r ++ "' object is not subscriptable"))
  end.

(** [v == "error"] *)
Definition is_error (v : pyval) : bool :=
  match v with
  | PStr s => String.eqb s "error"
  | _ => false
  end.

(** A background task: with the collaborators fixed, a function of the
    store.  It runs after the response has been sent. *)
Definition background := store -> outcome store.

(** What the request supplies beside the body: the environment of the
    process, the clock readings of the constructors and the time stamp
    [datetime.now().strftime('%Y%m%d_%H%M%S')]. *)
Record request_env := mkEnv {
  environ : gmap string string;
  now : Z;
  stamp : string
}.

(** The [try] of an endpoint under
    [except Exception as e: raise HTTPException(status_code=500, detail=str(e))]. *)
Definition endpoint (body : outcome (pyval * background))
  : response * option background :=
  match body with
  | Ret (r, task) => (Ok r, Some task)
  | Raise e => (HttpError 500 (exn_str e), None)
  end.

Definition processing (message operation_id : string) : pyval :=
  PDict [("status", PStr "processing");
         ("message", PStr message);
         ("operation_id", PStr operation_id)].

(** [run_analysis] of [analyze_repository] *)
Definition run_analysis (w : world) (agent : GitlabAgent)
    (operation_id repo_url : string) (branch : pyval) : background :=
  fun st =>
    result <- execute w (ACodeAnalysis agent)
                [("repo_url", PStr repo_url); ("branch", branch)] ;;
    Ret (set_operation operation_id result st).

Definition analyze_repository (w : world) (rq : request_env)
    (repo_url : string) (branch : pyval) : response * option background :=
  endpoint
    (let operation_id := "analyze_" ++ stamp rq in
     agent <- CodeAnalysisAgent_init (environ rq) (now rq) ;;
     Ret (processing "Repository analysis started" operation_id,
          run_analysis w agent operation_id repo_url branch)).

(** [run_generation] of [generate_pipeline]; the closure reads
    [analysis_result["data"]] when it runs. *)
Definition run_generation (w : world) (pipeline_agent : BaseAgent)
    (operation_id : string) (analysis_result : pyval) (repo_url : string)
    (branch : pyval) : background :=
  fun st =>
    analysis <- py_subscript analysis_result "data" ;;
    result <- execute w (APipeline pipeline_agent)
                [("analysis", analysis); ("repo_url", PStr repo_url);
                 ("branch", branch)] ;;
    Ret (set_operation operation_id result st).

(** [PipelineResponse(...)]: [data] is declared [Optional[Dict[str, Any]]];
    the fields that are not given are [None]. *)
Definition PipelineResponse (status message operation_id : string)
    (data : pyval) : outcome pyval :=
  match data with
  | PDict _ | PNone =>
      Ret (PDict [("status", PStr status);
                  ("message", PStr message);
                  ("operation_id", PStr operation_id);
                  ("pipeline_yaml", PNone);
                  ("validation_status", PNone);
                  ("suggestions", PNone);
                  ("data", data)])
  | _ => Raise (Exn ValueError "1 validation error for PipelineResponse")
  end.

(** [generate_pipeline].  [http_str] is [str] of an [HTTPException],
    which the [except] of the endpoint applies to the one its [try]
    raised. *)
Definition generate_pipeline (w : world) (http_str : Z -> pyval -> string)
    (rq : request_env) (now2 : Z) (repo_url : string) (branch : pyval)
  : response * option background :=
  endpoint
    (let operation_id := "generate_" ++ stamp rq in
     analysis_agent <- CodeAnalysisAgent_init (environ rq) (now rq) ;;
     analysis_result <- execute w (ACodeAnalysis analysis_agent)
                          [("repo_url", PStr repo_url); ("branch", branch)] ;;
     status <- py_subscript analysis_result "status" ;;
     _ <- (if is_error status
           then message <- py_subscript analysis_result "message" ;;
                Raise (Exn OtherException (http_str 500 message))
           else Ret tt) ;;
     pipeline_agent <- PipelineAgent_init (environ rq) now2 ;;
     data <- py_subscript analysis_result "data" ;;
     r <- PipelineResponse "processing" "Pipeline generation started"
            operation_id data ;;
     Ret (r, run_generation w pipeline_agent operation_id analysis_result
               repo_url branch)).

(** [run_validation] of [validate_pipeline] *)
Definition run_validation (w : world) (agent : GitlabAgent)
    (operation_id pipeline_yaml repo_url : string) : background :=
  fun st =>
    result <- execute w (AValidation agent)
                [("pipeline_yaml", PStr pipeline_yaml);
                 ("repo_url", PStr repo_url)] ;;
    Ret (set_operation operation_id result st).

Definition validate_pipeline (w : world) (rq : request_env)
    (pipeline_yaml repo_url : string) : response * option background :=
  endpoint
    (let operation_id := "validate_" ++ stamp rq in
     agent <- ValidationAgent_init (environ rq) (now rq) ;;
     Ret (processing "Pipeline validation started" operation_id,
          run_validation w agent operation_id pipeline_yaml repo_url)).

(** [run_deployment] of [deploy_pipeline] *)
Definition run_deployment (w : world) (agent : DeploymentAgent)
    (operation_id pipeline_yaml repo_url : string) (deploy_to_cloud : pyval)
  : background :=
  fun st =>
    result <- execute w (ADeployment agent)
                [("pipeline_yaml", PStr pipeline_yaml);
                 ("repo_url", PStr repo_url);
                 ("deploy_to_cloud", deploy_to_cloud)] ;;
    Ret (set_operation operation_id result st).

(** [deploy_pipeline]; [cloud_clients] is the construction of the two
    Google Cloud clients in the agent's constructor. *)
Definition deploy_pipeline (w : world) (cloud_clients : outcome unit)
    (rq : request_env) (pipeline_yaml repo_url : string)
    (deploy_to_cloud : pyval) : response * option background :=
  endpoint
    (let operation_id := "deploy_" ++ stamp rq in
     agent <- DeploymentAgent_init cloud_clients (environ rq) (now rq) ;;
     Ret (processing "Pipeline deployment started" operation_id,
          run_deployment w agent operation_id pipeline_yaml repo_url
            deploy_to_cloud)).

(** The four endpoints that start an agent task, with their requests. *)
Inductive start_request :=
| Analyze (repo_url : string) (branch : pyval)
| Generate (http_str : Z -> pyval -> string) (now2 : Z)
    (repo_url : string) (branch : pyval)
| Validate (pipeline_yaml repo_url : string)
| Deploy (cloud_clients : outcome unit) (pipeline_yaml repo_url : string)
    (deploy_to_cloud : pyval).

Definition start (w : world) (rq : request_env) (r : start_request)
  : response * option background :=
  match r with
  | Analyze repo_url branch => analyze_repository w rq repo_url branch
  | Generate http_str now2 repo_url branch =>
      generate_pipeline w http_str rq now2 repo_url branch
  | Validate pipeline_yaml repo_url =>
      validate_pipeline w rq pipeline_yaml repo_url
  | Deploy cloud_clients pipeline_yaml repo_url deploy_to_cloud =>
      deploy_pipeline w cloud_clients rq pipeline_yaml repo_url deploy_to_cloud
  end.

(** The operation id that the endpoint puts in its answer. *)
Definition operation_id_of (rq : request_env) (r : start_request) : string :=
  match r with
  | Analyze _ _ => "analyze_" ++ stamp rq
  | Generate _ _ _ _ => "generate_" ++ stamp rq
  | Validate _ _ => "validate_" ++ stamp rq
  | Deploy _ _ _ _ => "deploy_" ++ stamp rq
  end.

End Main.
(** ** Collaborators for the worked examples *)

Module Fixtures.
Import Tasks.

Definition offline : exn := Exn OtherException "connection refused".

(** A GitLab that cannot be reached. *)
Definition offline_gitlab : Gitlab.api :=
  Gitlab.mkApi (fun _ => Raise offline) (fun _ _ => Raise offline)
    (fun _ _ _ => Raise offline) (fun _ _ => Raise offline)
    (fun _ _ => Raise offline).

Definition offline_cloud : Deployment.cloud_api :=
  Deployment.mkCloud (fun _ => Raise offline) (fun _ _ => Raise offline)
    (fun _ => Raise offline) (fun _ _ _ => Raise offline).

(** [str] on the values that the examples format. *)
Definition str_of (v : pyval) : string :=
  match v with
  | PStr s => s
  | PBool true => "True"
  | PBool false => "False"
  | PNone => "None"
  | _ => type_name v
  end.

Definition offline_world : world :=
  mkWorld offline_gitlab offline_cloud (fun _ _ => Raise offline)
    (fun _ => Ret tt) str_of.

(** A GitLab with one Python project. *)
Definition demo_project : Gitlab.project :=
  Gitlab.mkProject "https://gitlab.com/group/project" "project".

Definition demo_gitlab : Gitlab.api :=
  Gitlab.mkApi
    (fun _ => Ret demo_project)
    (fun _ _ => Ret [Gitlab.mkItem "src" "tree";
                     Gitlab.mkItem "src/app.py" "blob";
                     Gitlab.mkItem "requirements.txt" "blob"])
    (fun _ file _ =>
       if String.eqb file "requirements.txt" then Ret "flask"
       else Raise (Exn (GitlabGetError 404) "404 File Not Found"))
    (fun _ _ => Ret tt)
    (fun _ _ => Ret tt).

Definition demo_world : world :=
  mkWorld demo_gitlab offline_cloud (fun _ _ => Raise offline)
    (fun _ => Ret tt) str_of.

(** An environment with the GitLab configuration and nothing else. *)
Definition gitlab_env : gmap string string :=
  <["GITLAB_URL" := "https://gitlab.com"]>
    (<["GITLAB_TOKEN" := "glpat-token"]> ∅).

Definition demo_request : Main.request_env :=
  Main.mkEnv gitlab_env 0 "20240101_120000".

End Fixtures.

(** ** Records that the validate and deploy tasks return *)

Module Records.

(** The record of a validation that found the pipeline valid. *)
Definition valid_record (pipeline_yaml : pyval) : pyval :=
  PDict [("status", PStr "success");
         ("message", PStr "Pipeline validation completed");
         ("data", PDict [("valid", PBool true);
                         ("errors", PList []);
                         ("warnings", PList []);
                         ("merged_yaml", pipeline_yaml)])].

(** The record of a deployment without Google Cloud resources. *)
Definition deployed_record (p : Gitlab.project) : pyval :=
  PDict [("status", PStr "success");
         ("message", PStr "Deployment completed successfully");
         ("data",
          PDict [("pipeline",
                  PDict [("status", PStr "success");
                         ("message", PStr "Pipeline deployed to GitLab");
                         ("pipeline_url",
                          PStr (Gitlab.web_url p ++ "/-/pipelines"))]);
                 ("cloud", PNone)])].

(** [context.get("deploy_to_cloud", False)] is true. *)
Definition wants_cloud (context : list (string * pyval)) : bool :=
  truthy (default (PBool false) (assoc_get "deploy_to_cloud" context)).

(** A deployment agent for the worked examples. *)
Definition demo_deployer : Agent.DeploymentAgent :=
  Agent.mkDeploymentAgent
    (Agent.mkGitlabAgent (Agent.mkBaseAgent None "gpt-3.5-turbo" 0 1000000)
       "https://gitlab.com" "glpat-token")
    "demo-project".

End Records.

(** ** Pieces of strings *)

Module Pieces.
Import Str.

(** [t] is a run of consecutive characters of [s]. *)
Definition substring_of (t s : string) : Prop :=
  ∃ pre post, s = pre ++ t ++ post.

(** The line is kept by [_fix_common_yaml_issues]: stripped, it does
    not start with a fence. *)
Definition kept_line (line : string) : bool :=
  negb (startswith PipelineGen.fence (strip line)).

End Pieces.
(** ** More collaborators for the worked examples *)

Module GenFixtures.
Import Str Agent.

Definition keyed_agent : BaseAgent :=
  mkBaseAgent (Some "sk-test") "gpt-3.5-turbo" 0 1000000.

Definition keyless_agent : BaseAgent :=
  mkBaseAgent None "gpt-3.5-turbo" 0 1000000.

(** The analysis of a Python project. *)
Definition python_analysis : pyval :=
  Analysis._generate_analysis ["app.py"; "tests/test_app.py"]
    [("python", "flask")].

(** A completion that wraps the YAML in prose and a fence. *)
Definition fenced_chat (model : string) (messages : list (string * string))
  : outcome string :=
  Ret ("Sure:" ++ nl ++ "```yaml" ++ nl ++ "stages: [build]" ++ nl ++ "```").

(** A YAML loader that rejects the back quote, as [yaml.safe_load]
    does at the start of a token. *)
Definition strict_yaml (text : string) : outcome unit :=
  if Analysis.contains "`" text
  then Raise (Exn YAMLError "found character '`' that cannot start any token")
  else Ret tt.

End GenFixtures.

(** ** Repository URLs *)

Module Urls.
Import Str.

(** No character of the string is a slash. *)
Fixpoint no_slash (s : string) : bool :=
  match s with
  | EmptyString => true
  | String c s' => negb (Ascii.eqb c "/") && no_slash s'
  end.

(** A segment of a path: not empty, and without a slash. *)
Definition segment (s : string) : bool :=
  negb (String.eqb s "") && no_slash s.

(** [scheme://host/seg1/.../segn], with [scheme] given up to its colon. *)
Definition url_of (scheme host : string) (segs : list string) : string :=
  scheme ++ "//" ++ host ++ "/" ++ join "/" segs.

(** The path without the suffix [.git], as the analysis agent cuts it. *)
Definition drop_git (project_path : string) : string :=
  if endswith ".git" project_path
  then slice_to_minus 4 project_path else project_path.

End Urls.

(** ** The code review ([run_review] of [main.py]) *)

Module Review.
Import Str Dyn Agent Gitlab Store Tasks Main.

(** [l.extend(v)]: [v] is iterated. *)
Definition py_extend (l : list pyval) (v : pyval) : outcome (list pyval) :=
  match v with
  | PList items => Ret (l ++ items)%list
  | PStr s => Ret (l ++ List.map PStr (chars s))%list
  | PDict d => Ret (l ++ List.map (fun kv => PStr (fst kv)) d)%list
  | _ => Raise (Exn TypeError
                  ("'" ++ type_name v ++ "' object is not iterable"))
  end.

(** A number: an [int], a [bool] that counts as one, or a [float]. *)
Definition number (v : pyval) : option (Z + Q) :=
  match v with
  | PInt z => Some (inl z)
  | PBool t => Some (inl (if t then 1 else 0))
  | PFloat q => Some (inr q)
  | _ => None
  end.

(** Python's arithmetic where a float takes part.  It rounds to the
    floats and is bounded by their range, so it is a parameter of the
    review, as the services are.  [float_of_int z] is [float(z)], the
    conversion that [+] and [/] apply to an [int] operand beside a
    float: it raises [OverflowError] for an [int] beyond the range.
    [float_add] and [float_div] are [+] and [/] on two floats, the
    divisor not being zero: they do not raise.  [int_true_div a b] is
    [a / b] on two [int]s with [b] positive: the float nearest to the
    quotient, or [OverflowError] when the quotient is beyond the range.
    (An infinite or undefined float has no [pyval]; the embedding follows
    the code on the finite ones.) *)
Record floats := mkFloats {
  float_of_int : Z -> outcome Q;
  float_add : Q -> Q -> Q;
  float_div : Q -> Q -> Q;
  int_true_div : Z -> Z -> outcome Q
}.

(** [a += b] on numbers: exact on two [int]s, in floats otherwise. *)
Definition py_add (fl : floats) (a b : pyval) : outcome pyval :=
  match number a, number b with
  | Some (inl x), Some (inl y) => Ret (PInt (x + y))
  | Some (inl x), Some (inr q) =>
      p <- float_of_int fl x ;; Ret (PFloat (float_add fl p q))
  | Some (inr p), Some (inl y) =>
      q <- float_of_int fl y ;; Ret (PFloat (float_add fl p q))
  | Some (inr p), Some (inr q) => Ret (PFloat (float_add fl p q))
  | _, _ =>
      Raise (Exn TypeError
               ("unsupported operand type(s) for +=: '" ++ type_name a
                ++ "' and '" ++ type_name b ++ "'"))
  end.

(** [total_score / files_reviewed if files_reviewed > 0 else 0]: the
    true division gives a [float], or raises. *)
Definition py_average (fl : floats) (total : pyval) (n : nat)
  : outcome pyval :=
  if (0 <? n)%nat
  then match number total with
       | Some (inl z) =>
           q <- int_true_div fl z (Z.of_nat n) ;; Ret (PFloat q)
       | Some (inr p) =>
           q <- float_of_int fl (Z.of_nat n) ;;
           Ret (PFloat (float_div fl p q))
       | None =>
           Raise (Exn TypeError
                    ("unsupported operand type(s) for /: '"
                     ++ type_name total ++ "' and 'int'"))
       end
  else Ret (PInt 0).

(** The variables of the loop, and the prompts that were passed to
    [_call_openai] for the files, in order. *)
Record review_state := mkReview {
  findings : list pyval;
  recommendations : list pyval;
  total_score : pyval;
  files_reviewed : nat;
  openai_failed : bool;
  openai_error_message : option string;
  sent : list string
}.

Definition initial : review_state :=
  mkReview [] [] (PInt 0) 0 false None [].

(** What the loop needs from outside. *)
Record reviewer := mkReviewer {
  rv_gl : api;
  rv_project : project;
  rv_branch : pyval;
  rv_focus_areas : pyval;
  rv_chat : string -> list (string * string) -> outcome string;
  rv_self : BaseAgent;
  rv_json_loads : string -> outcome pyval;
  rv_floats : floats
}.

Definition is_JSONDecodeError (c : exn_class) : bool :=
  match c with JSONDecodeError => true | _ => false end.

Definition error_finding (severity description location : string) : pyval :=
  PDict [("type", PStr "error");
         ("severity", PStr severity);
         ("description", PStr description);
         ("location", PStr location)].

(** The prompt for a file. *)
Definition review_prompt (path areas content : string) : string :=
  "Review this code file (" ++ path ++ ") for:
1. Code quality and best practices
2. Potential bugs or issues
3. Security concerns
4. Performance improvements
5. Maintainability

Focus areas: " ++ areas ++ "

Provide the review strictly as a valid JSON object with the following keys: "
  ++ dq ++ "findings" ++ dq ++ " (list of strings), "
  ++ dq ++ "recommendations" ++ dq ++ " (list of strings), and "
  ++ dq ++ "score" ++ dq ++ " (number between 0 and 10).

Code:
" ++ slice_to 2000 content ++ "  # Limit content length
".

(** The content of the file and the prompt: the part of the body that
    is under the [try] of the file only. *)
Definition build_prompt (rv : reviewer) (file : tree_item) : outcome string :=
  content <- files_get (rv_gl rv) (rv_project rv) (item_path file)
               (rv_branch rv) ;;
  areas <- py_join PipelineGen.show_index ", " (rv_focus_areas rv) ;;
  Ret (review_prompt (item_path file) areas content).

(** The statements under [try: review_data = json.loads(review) ...]:
    each one mutates the state before the next one runs, so an exception
    leaves the mutations made so far.  The result is the state, and the
    exception if one was raised. *)
Definition take_review (rv : reviewer) (review : string) (s : review_state)
  : review_state * option exn :=
  match rv_json_loads rv review with
  | Raise e => (s, Some e)
  | Ret review_data =>
      match (f <- py_get review_data "findings" (PList []) ;;
             py_extend (findings s) f) with
      | Raise e => (s, Some e)
      | Ret fs =>
          let s := mkReview fs (recommendations s) (total_score s)
                     (files_reviewed s) (openai_failed s)
                     (openai_error_message s) (sent s) in
          match (r <- py_get review_data "recommendations" (PList []) ;;
                 py_extend (recommendations s) r) with
          | Raise e => (s, Some e)
          | Ret rs =>
              let s := mkReview (findings s) rs (total_score s)
                         (files_reviewed s) (openai_failed s)
                         (openai_error_message s) (sent s) in
              match (x <- py_get review_data "score" (PInt 0) ;;
                     py_add (rv_floats rv) (total_score s) x) with
              | Raise e => (s, Some e)
              | Ret total =>
                  (mkReview (findings s) (recommendations s) total
                     (S (files_reviewed s)) (openai_failed s)
                     (openai_error_message s) (sent s), None)
              end
          end
      end
  end.

Definition add_finding (f : pyval) (s : review_state) : review_state :=
  mkReview (findings s ++ [f]) (recommendations s) (total_score s)
    (files_reviewed s) (openai_failed s) (openai_error_message s) (sent s).

Definition fail_with (e : exn) (s : review_state) : review_state :=
  mkReview (findings s) (recommendations s) (total_score s)
    (files_reviewed s) true (Some (exn_str e)) (sent s).

Definition record_sent (prompt : string) (s : review_state) : review_state :=
  mkReview (findings s) (recommendations s) (total_score s)
    (files_reviewed s) (openai_failed s) (openai_error_message s)
    (sent s ++ [prompt]).

(** The body of the loop for one file; the boolean tells whether the
    loop goes on ([true]) or was left by [break]. *)
Definition review_file (rv : reviewer) (file : tree_item) (s : review_state)
  : review_state * bool :=
  match build_prompt rv file with
  | Raise e =>
      (add_finding
         (error_finding "medium"
            ("Error reviewing " ++ item_path file ++ ": " ++ exn_str e)
            (item_path file)) s, true)
  | Ret prompt =>
      let s := record_sent prompt s in
      match _call_openai (rv_chat rv) (rv_self rv) prompt with
      | Raise oe => (fail_with oe s, false)
      | Ret review =>
          match take_review rv review s with
          | (s, None) => (s, true)
          | (s, Some e) =>
              if is_JSONDecodeError (exn_cls e)
              then (add_finding
                      (error_finding "low"
                         ("Failed to parse review for " ++ item_path file
                          ++ " due to invalid JSON response from AI.")
                         (item_path file)) s, true)
              else (fail_with e s, false)
          end
      end
  end.

(** [for file in code_files[:5]: ...] *)
Fixpoint review_files (rv : reviewer) (files : list tree_item)
    (s : review_state) : review_state :=
  match files with
  | [] => s
  | file :: files' =>
      match review_file rv file s with
      | (s', true) => review_files rv files' s'
      | (s', false) => s'
      end
  end.

(** The files that are reviewed among the items of the tree. *)
Definition code_files (items : list tree_item) : list tree_item :=
  List.filter
    (fun f =>
       String.eqb (item_type f) "blob"
       && negb (startswith ".git" (item_path f)
                || startswith "node_modules" (item_path f)
                || startswith "__pycache__" (item_path f)))
    items.

Definition mock_finding : pyval :=
  PDict [("type", PStr "mock_review");
         ("severity", PStr "info");
         ("description",
          PStr "OpenAI review failed or quota exceeded. This is a mock code review.");
         ("location", PStr "N/A")].

Definition mock_recommendations : list pyval :=
  [PStr "Add more tests to your codebase.";
   PStr "Follow best practices for code structure.";
   PStr "Ensure proper error handling."].

(** [openai_error_message or 'Unknown error'] *)
Definition error_text (m : option string) : string :=
  match m with
  | Some t => if String.eqb t "" then "Unknown error" else t
  | None => "Unknown error"
  end.

Definition summary_prompt (json_dumps : pyval -> string)
    (fs rs : list pyval) : string :=
  "Based on these findings and recommendations, provide a summary of the most important improvements needed:
Findings: " ++ json_dumps (PList fs) ++ "
Recommendations: " ++ json_dumps (PList rs) ++ "

Return a brief summary paragraph.".

(** What follows the loop: the mock review or the aggregate, and the
    record that is stored.  The division of the score is under no
    [try]: what it raises leaves [run_review]. *)
Definition review_record (rv : reviewer) (json_dumps : pyval -> string)
    (operation_id : string) (s : review_state) : outcome pyval :=
  parts <-
    (if openai_failed s || (files_reviewed s =? 0)%nat
     then Ret ([mock_finding], mock_recommendations, PInt 50,
               "OpenAI review failed: " ++ error_text (openai_error_message s)
               ++ ". Returned mock review.")
     else
       score <- py_average (rv_floats rv) (total_score s)
                  (files_reviewed s) ;;
       Ret (findings s, recommendations s, score,
            if truthy (PList (findings s))
               || truthy (PList (recommendations s))
            then
              match _call_openai (rv_chat rv) (rv_self rv)
                      (summary_prompt json_dumps (findings s)
                         (recommendations s))
              with
              | Ret summary => summary
              | Raise oe => "OpenAI summary failed: " ++ exn_str oe ++ "."
              end
            else "No significant issues found in the reviewed files.")) ;;
  let '(fs, rs, score, summary) := parts in
  Ret (PDict [("review_id", PStr operation_id);
              ("status", PStr "completed");
              ("message",
               PStr (if negb (openai_failed s) then "Code review completed"
                     else "Code review completed with mock fallback due to OpenAI error."));
              ("findings", PList fs);
              ("recommendations", PList rs);
              ("score", score);
              ("summary", PStr summary)]).

(** [run_review].  [w] is the world during the analysis; [gl2] is
    GitLab as it answers afterwards, through the same client. *)
Definition run_review (w : world) (gl2 : api)
    (json_loads : string -> outcome pyval) (json_dumps : pyval -> string)
    (fl : floats) (rq : request_env) (operation_id repo_url : string)
    (branch focus_areas : pyval) : background :=
  fun st =>
    analysis_agent <- CodeAnalysisAgent_init (environ rq) (now rq) ;;
    analysis_result <- execute w (ACodeAnalysis analysis_agent)
                         [("repo_url", PStr repo_url); ("branch", branch)] ;;
    status <- py_subscript analysis_result "status" ;;
    if is_error status
    then
      message <- py_subscript analysis_result "message" ;;
      Ret (set_operation operation_id
             (PDict [("review_id", PStr operation_id);
                     ("status", PStr "error");
                     ("message", message);
                     ("findings", PList []);
                     ("recommendations", PList []);
                     ("score", PInt 0)]) st)
    else
      project_path <- Analysis._extract_project_path (PStr repo_url) ;;
      project <- projects_get gl2 project_path ;;
      files <- repository_tree gl2 project branch ;;
      let rv := mkReviewer gl2 project branch focus_areas (chat w)
                  (gl_base analysis_agent) json_loads fl in
      let s := review_files rv (List.firstn 5 (code_files files)) initial in
      record <- review_record rv json_dumps operation_id s ;;
      Ret (set_operation operation_id record st).

(** [review_code]: the agent is constructed by the task, not by the
    endpoint. *)
Definition review_code (w : world) (gl2 : api)
    (json_loads : string -> outcome pyval) (json_dumps : pyval -> string)
    (fl : floats) (rq : request_env) (repo_url : string) (branch focus_areas : pyval)
  : response * option background :=
  endpoint
    (let operation_id := "review_" ++ stamp rq in
     Ret (PDict [("review_id", PStr operation_id);
                 ("status", PStr "processing");
                 ("message", PStr "Code review started");
                 ("findings", PList []);
                 ("recommendations", PList []);
                 ("score", PFloat 0%Q)],
          run_review w gl2 json_loads json_dumps fl rq operation_id
            repo_url branch focus_areas)).

End Review.
(** ** What the review loop does, in words of its outcome *)

Module ReviewSpec.
Import Agent Review.


(** The record of the mock review. *)
Definition mock_record (operation_id : string) (failed : bool)
    (error : option string) : pyval :=
  PDict [("review_id", PStr operation_id);
         ("status", PStr "completed");
         ("message",
          PStr (if failed
                then "Code review completed with mock fallback due to OpenAI error."
                else "Code review completed"));
         ("findings", PList [mock_finding]);
         ("recommendations", PList mock_recommendations);
         ("score", PInt 50);
         ("summary",
          PStr ("OpenAI review failed: " ++ error_text error
                ++ ". Returned mock review."))].











End ReviewSpec.

(** ** The floats of CPython

    An instance of the arithmetic: IEEE 754 binary64 with results
    rounded to the nearest float, to the one with the even significand
    of two nearest, as [float(int)], [+], [/] and the true division of
    two [int]s do. *)

Module Binary64.
Import Review.

(** [n / d] rounded to the nearest integer, to the even one of two
    nearest, for [0 <= n] and [0 < d]. *)
Definition round_half_even (n d : Z) : Z :=
  let q := n / d in
  let r := n mod d in
  if 2 * r <? d then q
  else if d <? 2 * r then q + 1
  else if Z.even q then q else q + 1.

(** The float nearest to a rational; [None] beyond the range.  The
    significand has 53 bits, fewer below [2 ^ -1022], where the floats
    are the multiples of [2 ^ -1074]. *)
Definition nearest_float (x : Q) : option Q :=
  let a := Z.abs (Qnum x) in
  let b := Zpos (Qden x) in
  if a =? 0 then Some 0%Q
  else
    let num k := if 0 <=? k then a else a * 2 ^ (- k) in
    let den k := if 0 <=? k then b * 2 ^ k else b in
    let e0 := Z.log2 a - Z.log2 b in
    let e := if den e0 <=? num e0 then e0 else e0 - 1 in
    let k := Z.max (e - 52) (-1074) in
    let m := round_half_even (num k) (den k) in
    let sm := if Qnum x <? 0 then - m else m in
    if 0 <=? k
    then if 2 ^ 1024 <=? m * 2 ^ k then None
         else Some (inject_Z (sm * 2 ^ k))
    else Some (Qred (Qmake sm (Z.to_pos (2 ^ (- k))))).

(** [OverflowError] is among the classes that the code does not tell
    apart.  A sum or a quotient of two floats beyond the range is an
    infinity in Python and is left unrounded here. *)
Definition binary64 : floats :=
  mkFloats
    (fun z =>
       match nearest_float (inject_Z z) with
       | Some q => Ret q
       | None =>
           Raise (Exn OtherException "int too large to convert to float")
       end)
    (fun p q => default (p + q)%Q (nearest_float (p + q)))
    (fun p q => default (p / q)%Q (nearest_float (p / q)))
    (fun a b =>
       match nearest_float (Qmake a (Z.to_pos b)) with
       | Some q => Ret q
       | None =>
           Raise (Exn OtherException
                    "integer division result too large for a float")
       end).

End Binary64.

(** ** Collaborators for the worked review *)

Module ReviewFixtures.
Import Str Agent Gitlab Tasks Main Review.

(** A GitLab whose files can all be read. *)
Definition readable_gitlab : api :=
  mkApi
    (fun _ => Ret Fixtures.demo_project)
    (fun _ _ => Ret [mkItem "src" "tree";
                     mkItem "src/app.py" "blob";
                     mkItem "requirements.txt" "blob"])
    (fun _ file _ =>
       if String.eqb file "requirements.txt" then Ret "flask"
       else Ret "import os")
    (fun _ _ => Ret tt)
    (fun _ _ => Ret tt).

Definition good_review : string :=
  "{" ++ Dyn.dq ++ "findings" ++ Dyn.dq ++ ": [" ++ Dyn.dq ++ "Unused import"
  ++ Dyn.dq ++ "], " ++ Dyn.dq ++ "score" ++ Dyn.dq ++ ": 7}".

(** A completion service that reviews the first file and then refuses. *)
Definition flaky_chat (model : string) (messages : list (string * string))
  : outcome string :=
  match messages with
  | [(_, prompt)] =>
      if Analysis.contains "(src/app.py)" prompt then Ret good_review
      else Raise (Exn OtherException "quota exceeded")
  | _ => Raise (Exn OtherException "quota exceeded")
  end.

(** [json.loads] on the answers of the example. *)
Definition demo_json_loads (text : string) : outcome pyval :=
  if String.eqb text good_review
  then Ret (PDict [("findings", PList [PStr "Unused import"]);
                   ("score", PInt 7)])
  else Raise (Exn JSONDecodeError "Expecting value: line 1 column 1 (char 0)").

Definition flaky_world : world :=
  mkWorld readable_gitlab Fixtures.offline_cloud flaky_chat
    (fun _ => Ret tt) Fixtures.str_of.

(** A completion service that gives the same review of every file, and
    a [json.loads] that reads a score of [10 ** 400] in it. *)
Definition steady_chat (model : string) (messages : list (string * string))
  : outcome string :=
  Ret good_review.

Definition huge_json_loads (text : string) : outcome pyval :=
  Ret (PDict [("findings", PList [PStr "Unused import"]);
              ("score", PInt (10 ^ 400))]).

Definition steady_world : world :=
  mkWorld readable_gitlab Fixtures.offline_cloud steady_chat
    (fun _ => Ret tt) Fixtures.str_of.

(** An environment with the GitLab configuration and the API key. *)
Definition full_env : gmap string string :=
  <["OPENAI_API_KEY" := "sk-test"]> Fixtures.gitlab_env.

Definition review_request : request_env :=
  mkEnv full_env 0 "20240101_120000".

Definition demo_reviewer : reviewer :=
  mkReviewer readable_gitlab Fixtures.demo_project (PStr "main")
    (PList [PStr "security"]) flaky_chat
    (mkBaseAgent (Some "sk-test") "gpt-3.5-turbo" 0 1000000)
    demo_json_loads Binary64.binary64.

End ReviewFixtures.

(** ** The paced queue of completion requests
       ([_process_queue] of [agents/base_agent.py])

    Times are in microseconds.  The loop is followed through the turns
    in which it finds a request in the queue.  What the program does not
    decide is given with each request: how long the request takes, and
    by how much each of the two sleeps of the turn overruns what was
    asked ([asyncio.sleep] returns no earlier than asked; the overrun of
    the sleep that ends the turn includes the turns that find the queue
    empty).  Rounding of the seconds below the resolution of the clock
    is not modelled. *)

Module Gateway.
Import Agent.

Record queued := mkQueued {
  q_prompt : string;
  q_system_prompt : option string;
  q_pause_lag : Z;
  q_duration : Z;
  q_poll_lag : Z
}.

(** The lags and the duration are not negative. *)
Definition sound (q : queued) : Prop :=
  0 <= q_pause_lag q ∧ 0 <= q_duration q ∧ 0 <= q_poll_lag q.

(** A request as the completion service sees it: when
    [_make_openai_request] was entered, when it was left, and how. *)
Record request := mkRequest {
  started : Z;
  finished : Z;
  result : outcome string
}.

(** The agent, the time, and the requests made so far. *)
Record gateway := mkGateway {
  self : BaseAgent;
  clock : Z;
  log : list request
}.

(** [self.last_request_time = t] *)
Definition set_last_request_time (a : BaseAgent) (t : Z) : BaseAgent :=
  mkBaseAgent (openai_api_key a) (openai_model a) t (min_request_interval a).

(** The [asyncio.sleep(0.1)] that ends a turn. *)
Definition poll_interval : Z := 100000.

(** A turn of the loop that takes a request off the queue. *)
Definition serve (chat : string -> list (string * string) -> outcome string)
    (g : gateway) (q : queued) : gateway :=
  let now := clock g in
  let time_since_last := now - last_request_time (self g) in
  let start :=
    if time_since_last <? min_request_interval (self g)
    then now + (min_request_interval (self g) - time_since_last)
         + q_pause_lag q
    else now in
  let r := _make_openai_request chat (self g) (q_prompt q)
             (q_system_prompt q) in
  let done := start + q_duration q in
  let self' :=
    match r with
    | Ret _ => set_last_request_time (self g) done
    | Raise _ => self g
    end in
  mkGateway self' (done + poll_interval + q_poll_lag q)
    (log g ++ [mkRequest start done r]).

Definition run (chat : string -> list (string * string) -> outcome string)
    (qs : list queued) (g : gateway) : gateway :=
  fold_left (serve chat) qs g.

Definition succeeded (r : request) : bool :=
  match result r with Ret _ => true | Raise _ => false end.

(** What the loop keeps true of the log and the time stamp. *)
Definition paced (m : Z) (g : gateway) : Prop :=
  min_request_interval (self g) = m
  ∧ (∀ c, last (log g) = Some c → succeeded c = true →
          last_request_time (self g) = finished c)
  ∧ (∀ i c1 c2, log g !! i = Some c1 → log g !! S i = Some c2 →
                succeeded c1 = true → finished c1 + m <= started c2).

(** A completion service that answers, except to the prompt "fail". *)
Definition moody_chat (model : string) (messages : list (string * string))
  : outcome string :=
  match messages with
  | [(_, prompt)] =>
      if String.eqb prompt "fail"
      then Raise (Exn OtherException "rate limit exceeded")
      else Ret "ok"
  | _ => Ret "ok"
  end.

(** An agent with a key, constructed at time 0. *)
Definition paced_agent : BaseAgent :=
  mkBaseAgent (Some "sk-test") "gpt-3.5-turbo" 0 1000000.

End Gateway.

(** ** The Google Cloud resources of a deployment *)

Module CloudNames.
Import Agent Gitlab.

(** [projects/{project_id}/locations/us-central1] *)
Definition parent_of (self : DeploymentAgent) : string :=
  "projects/" ++ project_id self ++ "/locations/us-central1".

Definition repository_name (self : DeploymentAgent) (p : project) : string :=
  parent_of self ++ "/repositories/" ++ path p.

Definition service_name (self : DeploymentAgent) (p : project) : string :=
  parent_of self ++ "/services/" ++ path p.

(** The record of a deployment with its cloud resources. *)
Definition cloud_record (p : project) (repo service : string) : pyval :=
  PDict [("status", PStr "success");
         ("message", PStr "Deployment completed successfully");
         ("data",
          PDict [("pipeline",
                  PDict [("status", PStr "success");
                         ("message", PStr "Pipeline deployed to GitLab");
                         ("pipeline_url", PStr (web_url p ++ "/-/pipelines"))]);
                 ("cloud",
                  PDict [("status", PStr "success");
                         ("message", PStr "Google Cloud resources created");
                         ("artifact_registry", PStr repo);
                         ("cloud_run", PStr service)])])].

(** A Google Cloud in which the repository and the service exist. *)
Definition provisioned_cloud : Deployment.cloud_api :=
  Deployment.mkCloud (fun name => Ret name)
    (fun _ _ => Raise (Exn OtherException "409 already exists"))
    (fun name => Ret name)
    (fun _ _ _ => Raise (Exn OtherException "409 already exists")).

End CloudNames.

(** ** Kinds of operations *)

Module Kinds.
Import Main.

(** The prefix of the operation id of a request. *)
Definition kind_of (r : start_request) : string :=
  match r with
  | Analyze _ _ => "analyze"
  | Generate _ _ _ _ => "generate"
  | Validate _ _ => "validate"
  | Deploy _ _ _ _ => "deploy"
  end.

(** A value that can be the key of a dict. *)
Definition hashable (v : pyval) : bool :=
  match v with
  | PList _ | PDict _ => false
  | _ => true
  end.

End Kinds.

(** ** The rule of the language detection, stated on the file list *)

Module LanguageSpec.
Import Str Analysis.

(** The extension of a path as the detection reads it: what follows
    the last dot, in lower case; the whole path when it has no dot. *)
Definition extension (file : string) : string :=
  lower (last_piece (split "." file)).

(** How many of the files have the extension. *)
Definition occurrences (e : string) (files : list string) : nat :=
  List.count_occ String.string_dec (List.map extension files) e.

(** The rule as the specification's claim words it: without a
    manifest, the most frequent extension among those that the table
    maps to a language decides. *)
Definition mapped_extension_wins : Prop :=
  ∀ files e lang,
    assoc_get e ext_to_lang = Some lang →
    (∀ e' lang', e' ≠ e → assoc_get e' ext_to_lang = Some lang' →
                 (occurrences e' files < occurrences e files)%nat) →
    _detect_language files [] = lang.

(** The step of the counting loop, on the extension. *)
Definition bump (acc : list (string * Z)) (e : string) : list (string * Z) :=
  assoc_set e (default 0 (assoc_get e acc) + 1) acc.

Definition tally (es : list string) : list (string * Z) := fold_left bump es [].

(** The keys stand in the order in which the extensions were first
    seen: each key occurs in the list at a place before which no later
    key occurs. *)
Definition first_seen_order (es keys : list string) : Prop :=
  ∀ pre x post, keys = (pre ++ x :: post)%list →
    ∀ y, In y post → ∃ a b, es = (a ++ x :: b)%list ∧ ¬ In y a.

(** No manifest of the ecosystems can be fetched. *)
Definition no_manifest (fetch : string -> outcome string)
    (table : list (string * list string)) : Prop :=
  ∀ lang fs f, In (lang, fs) table → In f fs → ∃ e, fetch f = Raise e.

(** A repository with more notes than code. *)
Definition notes_and_code : list string :=
  ["README.md"; "docs/a.md"; "docs/b.md"; "docs/c.md";
   "src/a.js"; "src/b.js"; "src/c.js"; "tool.py"].

(** A repository with manifests of two ecosystems. *)
Definition two_manifests (file : string) : outcome string :=
  if String.eqb file "requirements.txt" then Ret "flask"
  else if String.eqb file "Gemfile" then Ret "gem 'rails'"
  else Raise (Exn (GitlabGetError 404) "404 File Not Found").

End LanguageSpec.

(** * Properties *)

(** ** Properties of the operation store *)

Module StoreProps.
Import Store.

Lemma read_after_write ops st : _read_operations (_write_operations ops st) = ops.
Proof. reflexivity. Qed.

Lemma read_set op_id data st :
  _read_operations (set_operation op_id data st)
  = <[op_id := data]> (_read_operations st).
Proof. reflexivity. Qed.

Lemma read_delete op_id st :
  _read_operations (delete_operation op_id st) = delete op_id (_read_operations st).
Proof.
  unfold delete_operation. case_decide as Hin; [reflexivity|].
  symmetry. apply delete_id. by apply eq_None_not_Some.
Qed.

(** A call that does not write [op_id] leaves its entry alone. *)
Lemma run_call_frame op_id c st :
  ¬ writes_to op_id c →
  _read_operations (run_call c st) !! op_id = _read_operations st !! op_id.
Proof.
  destruct c as [i|i d|i]; simpl; intros Hne.
  - reflexivity.
  - rewrite read_set. by apply lookup_insert_ne.
  - rewrite read_delete. by apply lookup_delete_ne.
Qed.

Lemma run_calls_frame op_id cs : ∀ st,
  Forall (fun c => ¬ writes_to op_id c) cs →
  _read_operations (run_calls cs st) !! op_id = _read_operations st !! op_id.
Proof.
  induction cs as [|c cs IH]; intros st Hcs; [reflexivity|].
  inversion Hcs as [|? ? Hc Hrest]; subst.
  change (run_calls (c :: cs) st) with (run_calls cs (run_call c st)).
  rewrite IH by assumption. by apply run_call_frame.
Qed.

(** C1. Round trip of the operation store: for every store state, id and
    payload, [get_operation] after [set_operation] returns exactly the
    payload, also across any sequence of store calls in between none of
    which writes that id. *)
Theorem set_get_roundtrip (st : store) (op_id : string) (data : pyval)
    (between : list call) :
  Forall (fun c => ¬ writes_to op_id c) between →
  get_operation op_id (run_calls between (set_operation op_id data st)) = data.
Proof.
  intros Hbetween. unfold get_operation.
  rewrite run_calls_frame by assumption.
  rewrite read_set, lookup_insert_eq. reflexivity.
Qed.

Lemma set_get_roundtrip_witness :
  get_operation "analyze_20240101_120000"
    (run_calls [CSet "deploy_20240101_120001" PNone; CDelete "review_1"; CGet "x"]
       (set_operation "analyze_20240101_120000"
          (PDict [("status", PStr "success")]) (Store Corrupt 0)))
  = PDict [("status", PStr "success")].
Proof.
  apply set_get_roundtrip.
  repeat (first [apply List.Forall_nil | apply List.Forall_cons]);
    simpl; first [discriminate | tauto].
Defined.

(** C10. Deleting an id that is not in the store performs no write and
    leaves the store as it is; deleting a present id removes exactly
    that entry, in one write, and every other entry is unchanged. *)
Theorem delete_frame (st : store) (op_id : string) :
  (_read_operations st !! op_id = None → delete_operation op_id st = st)
  ∧ (is_Some (_read_operations st !! op_id) →
       writes (delete_operation op_id st) = S (writes st)
       ∧ _read_operations (delete_operation op_id st) !! op_id = None
       ∧ ∀ other, other ≠ op_id →
           _read_operations (delete_operation op_id st) !! other
           = _read_operations st !! other).
Proof.
  split.
  - intros Habsent. unfold delete_operation.
    case_decide as Hin; [|reflexivity].
    rewrite Habsent in Hin. by destruct Hin.
  - intros Hin. split; [|split].
    + unfold delete_operation. by rewrite decide_True.
    + rewrite read_delete. apply lookup_delete_eq.
    + intros other Hne. rewrite read_delete. by apply lookup_delete_ne.
Qed.

Lemma delete_frame_witness :
  delete_operation "review_1" (Store Missing 0) = Store Missing 0
  ∧ (writes (delete_operation "review_1"
        (set_operation "review_1" PNone (Store Missing 0))) = 2%nat
     ∧ _read_operations (delete_operation "review_1"
        (set_operation "review_1" PNone (Store Missing 0))) !! "review_1" = None).
Proof.
  split.
  - apply (proj1 (delete_frame (Store Missing 0) "review_1")). reflexivity.
  - pose proof (proj2 (delete_frame
        (set_operation "review_1" PNone (Store Missing 0)) "review_1")) as H.
    destruct H as (Hw & Hgone & _).
    + exists PNone. rewrite read_set. apply lookup_insert_eq.
    + split; [exact Hw | exact Hgone].
Defined.

End StoreProps.

(** ** Properties of the string methods *)

Module StrProps.
Import Str.

Lemma app_cons c s t : String c s ++ t = String c (s ++ t).
Proof. reflexivity. Qed.

Lemma app_empty_l s : "" ++ s = s.
Proof. reflexivity. Qed.

Lemma app_empty_r s : s ++ "" = s.
Proof. induction s as [|c s IH]; [reflexivity|]. by rewrite app_cons, IH. Qed.

Lemma app_assoc s t u : (s ++ t) ++ u = s ++ (t ++ u).
Proof. induction s as [|c s IH]; [reflexivity|]. by rewrite !app_cons, IH. Qed.

Lemma length_app s t : String.length (s ++ t) = (String.length s + String.length t)%nat.
Proof. induction s as [|c s IH]; [reflexivity|]. rewrite app_cons. simpl. by rewrite IH. Qed.

Lemma lstrip_app_space ws s : all_space ws = true → lstrip (ws ++ s) = lstrip s.
Proof.
  induction ws as [|c ws IH]; [reflexivity|].
  simpl. intros [Hc Hws]%andb_prop. rewrite Hc. auto.
Qed.

Lemma lstrip_all_space ws : all_space ws = true → lstrip ws = "".
Proof.
  induction ws as [|c ws IH]; [reflexivity|].
  simpl. intros [Hc Hws]%andb_prop. rewrite Hc. auto.
Qed.

Lemma lstrip_nonspace c s : isspace c = false → lstrip (String c s) = String c s.
Proof. intros Hc. simpl. by rewrite Hc. Qed.

Lemma rstrip_all_space ws : all_space ws = true → rstrip ws = "".
Proof.
  induction ws as [|c ws IH]; [reflexivity|].
  simpl. intros [Hc Hws]%andb_prop. rewrite IH by assumption. by rewrite Hc.
Qed.

(** [rstrip] of a concatenation, by whether the right part survives. *)
Lemma rstrip_app s t :
  rstrip (s ++ t) = match rstrip t with "" => rstrip s | r => s ++ r end.
Proof.
  induction s as [|c s IH].
  - rewrite app_empty_l. simpl. by destruct (rstrip t).
  - rewrite app_cons. simpl. rewrite IH.
    destruct (rstrip t) as [|d r]; [reflexivity|].
    rewrite app_cons. by destruct s.
Qed.

Lemma rstrip_app_space s ws : all_space ws = true → rstrip (s ++ ws) = rstrip s.
Proof. intros Hws. by rewrite rstrip_app, rstrip_all_space. Qed.

Lemma rstrip_idem s : rstrip (rstrip s) = rstrip s.
Proof.
  induction s as [|c s IH]; [reflexivity|].
  simpl. destruct (rstrip s) as [|d r] eqn:Hr.
  - destruct (isspace c) eqn:Hc; [reflexivity|]. simpl. by rewrite Hc.
  - simpl. simpl in IH. rewrite IH. reflexivity.
Qed.

(** [lstrip] yields the empty string or a string that starts with a
    character that is not white space. *)
Lemma lstrip_head s :
  lstrip s = "" ∨ ∃ c s', lstrip s = String c s' ∧ isspace c = false.
Proof.
  induction s as [|c s IH]; [by left|].
  simpl. destruct (isspace c) eqn:Hc; [exact IH|]. right. eauto.
Qed.

Lemma rstrip_head c s :
  isspace c = false → ∃ s', rstrip (String c s) = String c s'.
Proof.
  intros Hc. simpl. destruct (rstrip s); [rewrite Hc|]; eauto.
Qed.

Lemma strip_head s :
  strip s = "" ∨ ∃ c s', strip s = String c s' ∧ isspace c = false.
Proof.
  unfold strip. destruct (lstrip_head s) as [->|(c & s' & -> & Hc)]; [by left|].
  right. destruct (rstrip_head c s' Hc) as [r Hr]. eauto.
Qed.

Lemma strip_idem s : strip (strip s) = strip s.
Proof.
  destruct (strip_head s) as [->|(c & s' & Hs & Hc)]; [reflexivity|].
  unfold strip at 1. rewrite Hs, lstrip_nonspace by assumption.
  rewrite <- Hs. unfold strip. apply rstrip_idem.
Qed.

(** White space around a text does not survive [strip]. *)
Lemma strip_pad ws1 s ws2 :
  all_space ws1 = true → all_space ws2 = true →
  strip (ws1 ++ s ++ ws2) = strip s.
Proof.
  intros H1 H2. unfold strip. rewrite lstrip_app_space by assumption.
  clear ws1 H1. induction s as [|c s IH].
  - rewrite app_empty_l. simpl. by rewrite lstrip_all_space.
  - rewrite app_cons. simpl. destruct (isspace c) eqn:Hc; [exact IH|].
    rewrite <- app_cons. by apply rstrip_app_space.
Qed.

Lemma slice_from_app s t : slice_from (String.length s) (s ++ t) = t.
Proof. induction s as [|c s IH]; [by destruct t|]. rewrite app_cons. exact IH. Qed.

Lemma slice_to_app s t : slice_to (String.length s) (s ++ t) = s.
Proof.
  induction s as [|c s IH]; [by destruct t|]. rewrite app_cons. simpl. by rewrite IH.
Qed.

Lemma endswith_app s suf : endswith suf (s ++ suf) = true.
Proof.
  unfold endswith. rewrite length_app.
  replace (String.length s + String.length suf - String.length suf)%nat
    with (String.length s) by lia.
  rewrite slice_from_app, String.eqb_refl.
  rewrite andb_true_r. apply Nat.leb_le. lia.
Qed.

Lemma slice_to_minus_app s suf :
  slice_to_minus (String.length suf) (s ++ suf) = s.
Proof.
  unfold slice_to_minus. rewrite length_app.
  replace (String.length s + String.length suf - String.length suf)%nat
    with (String.length s) by lia.
  apply slice_to_app.
Qed.

Lemma startswith_trans p q s :
  startswith p q = true → startswith q s = true → startswith p s = true.
Proof.
  unfold startswith. revert q s.
  induction p as [|a p IH]; intros q s Hpq Hqs; [by destruct s|].
  destruct q as [|b q]; [discriminate|]. destruct s as [|c s]; [discriminate|].
  simpl in *. destruct (ascii_dec a b) as [->|]; [|discriminate].
  destruct (ascii_dec b c) as [->|]; [|discriminate]. eauto.
Qed.

End StrProps.

(** ** Properties of the generate task's clean-up *)

Module PipelineGenProps.
Import Str PipelineGen StrProps.

Lemma nl_space : all_space nl = true.
Proof. reflexivity. Qed.

(** The three steps after the first [strip], on a text that opens with
    a fence line and closes with a fence. *)
Lemma clean_fenced_body (opening y : string) :
  opening = fence ∨ opening = fence_yaml →
  _clean_yaml_response (opening ++ nl ++ y ++ nl ++ fence) = strip y.
Proof.
  intros Hopen. unfold _clean_yaml_response.
  assert (Hstrip : strip (opening ++ nl ++ y ++ nl ++ fence)
                   = opening ++ nl ++ y ++ nl ++ fence).
  { unfold strip.
    assert (Hl : lstrip (opening ++ nl ++ y ++ nl ++ fence)
                 = opening ++ nl ++ y ++ nl ++ fence)
      by (destruct Hopen as [-> | ->]; reflexivity).
    rewrite Hl.
    rewrite <- !app_assoc. rewrite rstrip_app. reflexivity. }
  rewrite Hstrip.
  assert (Hrest : (if startswith fence
                        (if startswith fence_yaml (opening ++ nl ++ y ++ nl ++ fence)
                         then slice_from 7 (opening ++ nl ++ y ++ nl ++ fence)
                         else opening ++ nl ++ y ++ nl ++ fence)
                   then slice_from 3
                        (if startswith fence_yaml (opening ++ nl ++ y ++ nl ++ fence)
                         then slice_from 7 (opening ++ nl ++ y ++ nl ++ fence)
                         else opening ++ nl ++ y ++ nl ++ fence)
                   else (if startswith fence_yaml (opening ++ nl ++ y ++ nl ++ fence)
                         then slice_from 7 (opening ++ nl ++ y ++ nl ++ fence)
                         else opening ++ nl ++ y ++ nl ++ fence))
                  = (nl ++ y ++ nl) ++ fence).
  { rewrite app_assoc, app_assoc.
    destruct Hopen as [-> | ->]; reflexivity. }
  rewrite Hrest.
  rewrite endswith_app.
  change 3%nat with (String.length fence).
  rewrite slice_to_minus_app.
  apply strip_pad; apply nl_space.
Qed.

Lemma clean_of_strip s : _clean_yaml_response (strip s) = _clean_yaml_response s.
Proof. unfold _clean_yaml_response. by rewrite strip_idem. Qed.

Lemma strip_fenced (opening y : string) :
  opening = fence ∨ opening = fence_yaml →
  strip (opening ++ nl ++ y ++ nl ++ fence) = opening ++ nl ++ y ++ nl ++ fence.
Proof.
  intros Hopen. unfold strip.
  assert (Hl : lstrip (opening ++ nl ++ y ++ nl ++ fence)
               = opening ++ nl ++ y ++ nl ++ fence)
    by (destruct Hopen as [-> | ->]; reflexivity).
  rewrite Hl, <- !app_assoc, rstrip_app. reflexivity.
Qed.

(** C8. Cleaning a pipeline text [y] that is wrapped in a code fence (an
    opening line of three backquotes, with or without [yaml], the text,
    and a closing line of three backquotes, possibly with white space
    around the whole) yields [y] stripped; cleaning a text whose
    stripped form neither starts nor ends with a fence only strips it. *)
Theorem clean_yaml_response_spec (y : string) :
  (∀ ws1 ws2 opening,
     all_space ws1 = true → all_space ws2 = true →
     opening = fence ∨ opening = fence_yaml →
     _clean_yaml_response
       (ws1 ++ (opening ++ nl ++ y ++ nl ++ fence) ++ ws2) = strip y)
  ∧ (startswith fence (strip y) = false →
     endswith fence (strip y) = false →
     _clean_yaml_response y = strip y).
Proof.
  split.
  - intros ws1 ws2 opening H1 H2 Hopen.
    rewrite <- clean_of_strip, strip_pad by assumption.
    rewrite strip_fenced by assumption.
    by apply clean_fenced_body.
  - intros Hstart Hend. unfold _clean_yaml_response.
    assert (Hyaml : startswith fence_yaml (strip y) = false).
    { destruct (startswith fence_yaml (strip y)) eqn:Hy; [|reflexivity].
      rewrite (startswith_trans fence fence_yaml (strip y) eq_refl Hy) in Hstart.
      discriminate. }
    rewrite Hyaml, Hstart, Hend. apply strip_idem.
Qed.

Lemma clean_yaml_response_spec_witness :
  _clean_yaml_response
    (" " ++ ("```yaml" ++ nl ++ "stages: [build]" ++ nl ++ "```") ++ nl)
  = strip "stages: [build]"
  ∧ _clean_yaml_response " stages: [build] " = strip " stages: [build] ".
Proof.
  split.
  - apply (proj1 (clean_yaml_response_spec "stages: [build]"));
      [reflexivity | reflexivity | right; reflexivity].
  - apply (proj2 (clean_yaml_response_spec " stages: [build] ")); reflexivity.
Defined.

(** A fence glued to the text without a line break is not covered: the
    opening fence followed by a text that begins with [yaml] is read as
    a [yaml] fence. *)
Example clean_glued_fence :
  _clean_yaml_response ("```" ++ "yaml: 1" ++ "```") = ": 1".
Proof. reflexivity. Qed.

End PipelineGenProps.

(** ** Properties of agent construction *)

Module AgentProps.
Import Agent.

(** The claim as the specification words it: an absent configuration
    input makes the construction of the agent raise. *)
Definition fails_at_construction : Prop :=
  ∀ (cloud_clients : outcome unit) (c : agent_class)
    (env : gmap string string) (now : Z) (name : string),
    In name (config_inputs c) →
    unset (getenv env name) = true →
    ∃ e, construct cloud_clients c env now = Raise e.

Definition gitlab_only_env : gmap string string :=
  <["GITLAB_URL" := "https://gitlab.com"]>
    (<["GITLAB_TOKEN" := "glpat-token"]> ∅).

(** Without the completion-service credential the analysis agent is
    constructed all the same. *)
Lemma construction_without_openai_key :
  ¬ fails_at_construction.
Proof.
  intros H.
  destruct (H (Ret tt) CodeAnalysisAgent gitlab_only_env 0 "OPENAI_API_KEY")
    as [e He].
  - simpl. auto.
  - reflexivity.
  - vm_compute in He. discriminate.
Qed.

Lemma unset_base_key env now :
  openai_api_key (fst (BaseAgent_init env now)) = getenv env "OPENAI_API_KEY".
Proof. reflexivity. Qed.

Lemma gitlab_config_base env base a :
  gitlab_config env base = Ret a → gl_base a = base.
Proof.
  unfold gitlab_config.
  destruct (unset (getenv env "GITLAB_URL") || unset (getenv env "GITLAB_TOKEN"));
    [discriminate|].
  intros [= <-]. reflexivity.
Qed.

Lemma deployment_init_base cloud_clients env now a :
  DeploymentAgent_init cloud_clients env now = Ret a →
  gl_base (dep_gitlab a) = fst (BaseAgent_init env now).
Proof.
  unfold DeploymentAgent_init.
  destruct (unset (getenv env "GITLAB_URL") || unset (getenv env "GITLAB_TOKEN"));
    [discriminate|].
  destruct (unset (getenv env "GOOGLE_PROJECT_ID")); [discriminate|].
  destruct cloud_clients as [[]|e]; [|discriminate].
  intros [= <-]. reflexivity.
Qed.

Lemma construct_base cloud_clients c env now a :
  construct cloud_clients c env now = Ret a →
  a = fst (BaseAgent_init env now).
Proof.
  destruct c; unfold construct.
  - unfold CodeAnalysisAgent_init.
    destruct (gitlab_config env _) as [g|e] eqn:Hg; [|discriminate].
    intros [= <-]. by apply gitlab_config_base in Hg.
  - unfold PipelineAgent_init. by intros [= <-].
  - unfold PipelineGenAgent_init. by intros [= <-].
  - unfold ValidationAgent_init.
    destruct (gitlab_config env _) as [g|e] eqn:Hg; [|discriminate].
    intros [= <-]. by apply gitlab_config_base in Hg.
  - destruct (DeploymentAgent_init _ env now) as [d|e] eqn:Hd; [|discriminate].
    intros [= <-]. by apply deployment_init_base in Hd.
Qed.

Lemma gitlab_config_missing env base :
  unset (getenv env "GITLAB_URL") || unset (getenv env "GITLAB_TOKEN") = true →
  gitlab_config env base
  = Raise (Exn ValueError "GitLab configuration is missing").
Proof. unfold gitlab_config. intros ->. reflexivity. Qed.

Lemma gitlab_config_present env base :
  unset (getenv env "GITLAB_URL") = false →
  unset (getenv env "GITLAB_TOKEN") = false →
  ∃ g, gitlab_config env base = Ret g.
Proof. unfold gitlab_config. intros -> ->. eexists. reflexivity. Qed.

Lemma deployment_init_missing cloud_clients env now :
  unset (getenv env "GITLAB_URL") = true
  ∨ unset (getenv env "GITLAB_TOKEN") = true
  ∨ unset (getenv env "GOOGLE_PROJECT_ID") = true →
  ∃ msg, DeploymentAgent_init cloud_clients env now
         = Raise (Exn ValueError msg).
Proof.
  unfold DeploymentAgent_init. intros H.
  destruct (unset (getenv env "GITLAB_URL")) eqn:Hu;
    [eexists; reflexivity|].
  destruct (unset (getenv env "GITLAB_TOKEN")) eqn:Ht;
    [eexists; reflexivity|].
  destruct (unset (getenv env "GOOGLE_PROJECT_ID")) eqn:Hp;
    [eexists; reflexivity|].
  destruct H as [H|[H|H]]; discriminate.
Qed.

Lemma deployment_init_present env now :
  unset (getenv env "GITLAB_URL") = false →
  unset (getenv env "GITLAB_TOKEN") = false →
  unset (getenv env "GOOGLE_PROJECT_ID") = false →
  ∃ d, DeploymentAgent_init (Ret tt) env now = Ret d.
Proof. unfold DeploymentAgent_init. intros -> -> ->. eexists. reflexivity. Qed.

(** C7, as the code has it. An absent GitLab URL or token (for the
    analysis, validation and deployment agents) or cloud project id (for
    the deployment agent) makes the constructor raise a [ValueError].
    An absent completion-service credential does not: when the tested
    inputs are present and the cloud clients can be built, the agent is
    constructed, and every later completion request of that agent
    raises the configuration error. *)
Theorem configuration_failure (cloud_clients : outcome unit) (c : agent_class)
    (env : gmap string string) (now : Z) :
  (∀ name, In name (checked_inputs c) →
           unset (getenv env name) = true →
           ∃ msg, construct cloud_clients c env now = Raise (Exn ValueError msg))
  ∧ ((∀ name, In name (checked_inputs c) → unset (getenv env name) = false) →
     cloud_clients = Ret tt →
     ∃ a, construct cloud_clients c env now = Ret a
          ∧ (unset (getenv env "OPENAI_API_KEY") = true →
             ∀ chat prompt system_prompt,
               _make_openai_request chat a prompt system_prompt
               = Raise (Exn ValueError "OPENAI_API_KEY is not set."))).
Proof.
  split.
  - intros name Hin Hunset. destruct c; unfold construct.
    + unfold CodeAnalysisAgent_init. rewrite gitlab_config_missing; [eauto|].
      destruct Hin as [<- | [<- | []]]; rewrite Hunset;
        [reflexivity | apply orb_true_r].
    + destruct Hin.
    + destruct Hin.
    + unfold ValidationAgent_init. rewrite gitlab_config_missing; [eauto|].
      destruct Hin as [<- | [<- | []]]; rewrite Hunset;
        [reflexivity | apply orb_true_r].
    + destruct (deployment_init_missing cloud_clients env now) as [msg ->];
        [|eauto].
      destruct Hin as [<- | [<- | [<- | []]]]; auto.
  - intros Hpresent Hclients.
    assert (Hex : ∃ a, construct cloud_clients c env now = Ret a).
    { subst cloud_clients. destruct c; unfold construct.
      - unfold CodeAnalysisAgent_init.
        destruct (gitlab_config_present env (fst (BaseAgent_init env now)))
          as [g ->]; [apply Hpresent; simpl; auto..|]. eexists. reflexivity.
      - eexists. reflexivity.
      - eexists. reflexivity.
      - unfold ValidationAgent_init.
        destruct (gitlab_config_present env (fst (BaseAgent_init env now)))
          as [g ->]; [apply Hpresent; simpl; auto..|]. eexists. reflexivity.
      - destruct (deployment_init_present env now) as [d ->];
          [apply Hpresent; simpl; auto..|]. eexists. reflexivity. }
    destruct Hex as [a Ha]. exists a. split; [exact Ha|].
    intros Hkey chat prompt sp.
    apply construct_base in Ha. subst a.
    unfold _make_openai_request. rewrite unset_base_key, Hkey. reflexivity.
Qed.

Lemma configuration_failure_witness :
  (∃ msg, construct (Ret tt) DeploymentAgentC gitlab_only_env 0
          = Raise (Exn ValueError msg))
  ∧ (∃ a, construct (Ret tt) CodeAnalysisAgent gitlab_only_env 0 = Ret a
          ∧ ∀ chat prompt system_prompt,
              _make_openai_request chat a prompt system_prompt
              = Raise (Exn ValueError "OPENAI_API_KEY is not set.")).
Proof.
  split.
  - apply (proj1 (configuration_failure (Ret tt) DeploymentAgentC
                    gitlab_only_env 0) "GOOGLE_PROJECT_ID").
    + simpl. auto.
    + reflexivity.
  - destruct (proj2 (configuration_failure (Ret tt) CodeAnalysisAgent
                       gitlab_only_env 0)) as (a & Ha & Hreq).
    + intros name [<- | [<- | []]]; reflexivity.
    + reflexivity.
    + exists a. split; [exact Ha|]. apply Hreq. reflexivity.
Defined.

End AgentProps.

(** ** Properties of the analyze task *)

Module AnalysisProps.
Import Str Analysis.

Lemma assoc_set_head_key {A} k (v : A) d :
  d ≠ [] → head_key (assoc_set k v d) = head_key d.
Proof.
  destruct d as [|[k' v'] d]; [congruence|]. intros _. simpl.
  destruct (String.eqb k k') eqn:Hk; [|reflexivity].
  apply String.eqb_eq in Hk. by subst.
Qed.

Lemma assoc_set_nonempty {A} k (v : A) d : assoc_set k v d ≠ [].
Proof. destruct d as [|[k' v'] d]; simpl; [|destruct (String.eqb k k')]; congruence. Qed.

Lemma scan_head_key_nonempty fetch table : ∀ deps,
  deps ≠ [] → head_key (scan_dependencies fetch table deps) = head_key deps.
Proof.
  induction table as [|[lang files] table IH]; intros deps Hne; [reflexivity|].
  simpl. destruct (first_manifest fetch files) as [content|]; [|by apply IH].
  rewrite IH by apply assoc_set_nonempty. by apply assoc_set_head_key.
Qed.

(** The first key of the dependencies found is the ecosystem that the
    specification's rule picks. *)
Lemma scan_head_key fetch table :
  head_key (scan_dependencies fetch table []) = spec_manifest_language fetch table.
Proof.
  induction table as [|[lang files] table IH]; [reflexivity|].
  simpl. destruct (first_manifest fetch files) as [content|]; [|exact IH].
  by rewrite scan_head_key_nonempty.
Qed.

Lemma detect_language_head files deps lang :
  head_key deps = Some lang → _detect_language files deps = lang.
Proof. destruct deps as [|[k v] deps]; simpl; congruence. Qed.

Lemma first_manifest_found fetch files c :
  first_manifest fetch files = Some c → ∃ f, In f files ∧ fetch f = Ret c.
Proof.
  induction files as [|f files IH]; simpl; [discriminate|].
  destruct (fetch f) as [c'|e] eqn:Hf.
  - intros [= <-]. eauto.
  - intros H. destruct (IH H) as (f' & Hin & Hf'). eauto.
Qed.

Lemma first_manifest_complete fetch files f c :
  In f files → fetch f = Ret c → is_Some (first_manifest fetch files).
Proof.
  induction files as [|f' files IH]; simpl; [tauto|].
  intros [-> | Hin] Hf.
  - rewrite Hf. eauto.
  - destruct (fetch f'); eauto.
Qed.

Lemma spec_manifest_sound fetch table lang :
  spec_manifest_language fetch table = Some lang →
  ∃ files f c, In (lang, files) table ∧ In f files ∧ fetch f = Ret c.
Proof.
  induction table as [|[l files] table IH]; simpl; [discriminate|].
  destruct (first_manifest fetch files) as [c|] eqn:Hfirst.
  - intros [= <-]. destruct (first_manifest_found _ _ _ Hfirst) as (f & Hin & Hf).
    exists files, f, c. auto.
  - intros H. destruct (IH H) as (fs & f & c & Hin & Hf & Hc).
    exists fs, f, c. auto.
Qed.

Lemma spec_manifest_complete fetch table lang files f c :
  In (lang, files) table → In f files → fetch f = Ret c →
  is_Some (spec_manifest_language fetch table).
Proof.
  induction table as [|[l fs] table IH]; simpl; [tauto|].
  intros [Heq | Hin] Hf Hc.
  - injection Heq as -> ->.
    destruct (first_manifest_complete fetch files f c Hf Hc) as [c' ->]. eauto.
  - destruct (first_manifest fetch fs); eauto.
Qed.

Lemma scan_no_manifest fetch table :
  spec_manifest_language fetch table = None →
  scan_dependencies fetch table [] = [].
Proof.
  induction table as [|[l fs] table IH]; simpl; [reflexivity|].
  destruct (first_manifest fetch fs); [discriminate|exact IH].
Qed.

(** The first maximum: the chosen item has the largest count. *)
Lemma max_by_count_max items : ∀ best item,
  In item (best :: items) → snd item <= snd (max_by_count best items).
Proof.
  induction items as [|it items IH]; intros best item Hin; simpl.
  - destruct Hin as [<- | []]. lia.
  - destruct (snd best <? snd it) eqn:Hlt.
    + apply Z.ltb_lt in Hlt. destruct Hin as [<- | [<- | Hin]].
      * pose proof (IH it it (or_introl eq_refl)). lia.
      * apply IH. by left.
      * apply IH. by right.
    + apply Z.ltb_ge in Hlt. destruct Hin as [<- | [<- | Hin]].
      * apply IH. by left.
      * pose proof (IH best best (or_introl eq_refl)). lia.
      * apply IH. by right.
Qed.

Definition manifests_of_two (file : string) : outcome string :=
  if String.eqb file "requirements.txt" then Ret "flask"
  else if String.eqb file "Gemfile" then Ret "gem 'rails'"
  else Raise (Exn (GitlabGetError 404) "404 File Not Found").

(** With manifests of two ecosystems the earlier one in the table wins:
    a fetched [Gemfile] next to a fetched [requirements.txt] gives
    "python". *)
Example detect_language_priority :
  _detect_language ["app.rb"]
    (scan_dependencies manifests_of_two dependency_files []) = "python".
Proof. reflexivity. Qed.

(** A fetched [package.json] gives the key of its ecosystem, "node". *)
Example detect_language_node :
  _detect_language ["index.js"]
    (scan_dependencies
       (fun file => if String.eqb file "package.json" then Ret "{}"
                    else Raise (Exn OtherException "no file"))
       dependency_files []) = "node".
Proof. reflexivity. Qed.

End AnalysisProps.

(** ** The store under sequences of calls *)

Module StoreSeqProps.
Import Store StoreSeq.

Lemma read_set_lookup op_id data st i :
  _read_operations (set_operation op_id data st) !! i
  = if String.eqb op_id i then Some data else _read_operations st !! i.
Proof.
  unfold set_operation, _write_operations, _read_operations at 1. cbn [file].
  destruct (String.eqb_spec op_id i) as [->|Hne].
  - apply lookup_insert_eq.
  - apply lookup_insert_ne. exact Hne.
Qed.

Lemma read_delete_lookup op_id st i :
  _read_operations (delete_operation op_id st) !! i
  = if String.eqb op_id i then None else _read_operations st !! i.
Proof.
  unfold delete_operation.
  destruct (decide (is_Some (_read_operations st !! op_id))) as [Hs|Hn].
  - unfold _write_operations, _read_operations at 1. cbn [file].
    destruct (String.eqb_spec op_id i) as [->|Hne].
    + apply lookup_delete_eq.
    + apply lookup_delete_ne. exact Hne.
  - destruct (String.eqb_spec op_id i) as [->|Hne]; [|reflexivity].
    destruct (_read_operations st !! i) eqn:E; [|reflexivity].
    exfalso. apply Hn. eauto.
Qed.

(** X1. The store behaves as a key-value map: after any sequence of
    [get_operation], [set_operation] and [delete_operation] calls, the
    entry of an id is the one the map model computes from the calls, and
    [get_operation] returns it, or [None] when there is none. *)
Theorem store_is_a_map (cs : list call) (st : store) (op_id : string) :
  _read_operations (run_calls cs st) !! op_id
  = map_model op_id cs (_read_operations st !! op_id)
  ∧ get_operation op_id (run_calls cs st)
    = default PNone (map_model op_id cs (_read_operations st !! op_id)).
Proof.
  assert (H : ∀ cs st, _read_operations (run_calls cs st) !! op_id
            = map_model op_id cs (_read_operations st !! op_id)).
  { clear. induction cs as [|c cs IH]; intros st; [reflexivity|].
    change (run_calls (c :: cs) st) with (run_calls cs (run_call c st)).
    rewrite IH. destruct c as [i|i data|i]; cbn [run_call map_model].
    - reflexivity.
    - rewrite read_set_lookup. reflexivity.
    - rewrite read_delete_lookup. reflexivity. }
  split; [apply H|]. unfold get_operation. rewrite H. reflexivity.
Qed.

(** X2. A file that is missing or cannot be parsed reads as the empty
    mapping: every [get_operation] gives [None], a [delete_operation]
    leaves the file alone, and the next [set_operation] replaces the file
    by one that holds its entry only. *)
Theorem unreadable_file_is_empty (st : store) (op_id : string) (data : pyval) :
  file st = Missing ∨ file st = Corrupt →
  (∀ i, get_operation i st = PNone)
  ∧ delete_operation op_id st = st
  ∧ file (set_operation op_id data st) = Json {[ op_id := data ]}.
Proof.
  intros H.
  assert (Hr : _read_operations st = ∅).
  { unfold _read_operations. destruct H as [-> | ->]; reflexivity. }
  split; [|split].
  - intros i. unfold get_operation. rewrite Hr, lookup_empty. reflexivity.
  - unfold delete_operation. rewrite Hr.
    destruct (decide (is_Some ((∅ : gmap string pyval) !! op_id))) as [Hs|Hn];
      [|reflexivity].
    rewrite lookup_empty in Hs. destruct Hs as [x Hx]. discriminate.
  - unfold set_operation. rewrite Hr. reflexivity.
Qed.

Lemma unreadable_file_is_empty_witness :
  (∀ i, get_operation i (Store Corrupt 0) = PNone)
  ∧ delete_operation "analyze_20240101_000000" (Store Corrupt 0) = Store Corrupt 0
  ∧ file (set_operation "analyze_20240101_000000" (PStr "r") (Store Corrupt 0))
    = Json {[ "analyze_20240101_000000" := PStr "r" ]}.
Proof.
  apply (unreadable_file_is_empty (Store Corrupt 0)). right. reflexivity.
Defined.

(** X3. Two [set_operation] calls on different ids commute: in either order
    the file ends with the same mapping. *)
Theorem set_operation_commute (st : store) (a b : string) (x y : pyval) :
  a ≠ b →
  file (set_operation a x (set_operation b y st))
  = file (set_operation b y (set_operation a x st)).
Proof.
  intros Hab. unfold set_operation, _write_operations. cbn [file].
  unfold _read_operations at 1 3. cbn [file].
  f_equal. apply insert_insert_ne. exact Hab.
Qed.

Lemma set_operation_commute_witness :
  file (set_operation "a" (PInt 1) (set_operation "b" (PInt 2) (Store Missing 0)))
  = file (set_operation "b" (PInt 2) (set_operation "a" (PInt 1) (Store Missing 0))).
Proof.
  apply (set_operation_commute (Store Missing 0) "a" "b"). discriminate.
Defined.

End StoreSeqProps.

(** ** Two writers in two threads *)

Module ThreadsProps.
Import Store Threads.

Lemma read_write ops st : _read_operations (_write_operations ops st) = ops.
Proof. reflexivity. Qed.

Lemma complete2_cases sched :
  complete2 sched = true →
  sched = [0;0;1;1]%nat ∨ sched = [1;1;0;0]%nat
  ∨ sched = [0;1;0;1]%nat ∨ sched = [0;1;1;0]%nat
  ∨ sched = [1;0;0;1]%nat ∨ sched = [1;0;1;0]%nat.
Proof.
  unfold complete2. intros H.
  destruct sched as [|i1 [|i2 [|i3 [|i4 [|i5 r]]]]]; try discriminate H.
  destruct i1 as [|[|i1]], i2 as [|[|i2]], i3 as [|[|i3]], i4 as [|[|i4]];
    cbn in H; try discriminate H; tauto.
Qed.

(** X4. [set_operation] takes the lock for its read and again for its
    write, not across the two.  Two threads that set different fresh ids
    leave both entries in the file exactly when one of them runs both its
    steps before the other starts; in each of the four other orders the
    entry written first is lost. *)
Theorem both_entries_iff_serial (st : store) (a b : string) (x y : pyval)
    (sched : list nat) :
  a ≠ b →
  _read_operations st !! a = None →
  _read_operations st !! b = None →
  complete2 sched = true →
  let st' := snd (run sched [writer a x; writer b y] st) in
  (_read_operations st' !! a = Some x ∧ _read_operations st' !! b = Some y)
  ↔ (sched = [0;0;1;1]%nat ∨ sched = [1;1;0;0]%nat).
Proof.
  intros Hab Ha Hb Hc.
  assert (Hba : b ≠ a) by congruence.
  destruct (complete2_cases sched Hc) as [->|[->|[->|[->|[->| ->]]]]];
    cbn [run lookup list_lookup insert list_insert writer step t_pc t_id t_data snd fst];
    rewrite ?read_write;
    rewrite ?lookup_insert_eq, ?(lookup_insert_ne _ _ _ _ Hab),
      ?(lookup_insert_ne _ _ _ _ Hba), ?lookup_insert_eq, ?Ha, ?Hb;
    split; try (intros [? ?]; discriminate); try (intros [?|?]; discriminate);
    auto.
Qed.

Lemma both_entries_iff_serial_witness :
  let st' := snd (run [0;1;0;1]%nat
                    [writer "a" (PInt 1); writer "b" (PInt 2)] (Store Missing 0)) in
  (_read_operations st' !! "a" = Some (PInt 1)
   ∧ _read_operations st' !! "b" = Some (PInt 2))
  ↔ ([0;1;0;1]%nat = [0;0;1;1]%nat ∨ [0;1;0;1]%nat = [1;1;0;0]%nat).
Proof.
  apply (both_entries_iff_serial (Store Missing 0) "a" "b");
    [discriminate | reflexivity | reflexivity | reflexivity].
Defined.

(** The lost update itself. *)
Example lost_update :
  let st' := snd (run [0;1;0;1]%nat
                    [writer "a" (PInt 1); writer "b" (PInt 2)] (Store Missing 0)) in
  get_operation "a" st' = PNone ∧ get_operation "b" st' = PInt 2.
Proof. split; reflexivity. Qed.

End ThreadsProps.

(** ** The exception monad *)

Module OutcomeProps.

Lemma bind_ret {A B} (m : outcome A) (k : A → outcome B) (b : B) :
  bind m k = Ret b → ∃ a, m = Ret a ∧ k a = Ret b.
Proof. destruct m as [a|e]; [eauto | discriminate]. Qed.

Lemma bind_raise {A B} (m : outcome A) (k : A → outcome B) (e : exn) :
  bind m k = Raise e → m = Raise e ∨ ∃ a, m = Ret a ∧ k a = Raise e.
Proof. destruct m as [a|e']; [eauto | intros [= ->]; auto]. Qed.

End OutcomeProps.

(** ** The agent tasks: what [execute] returns *)

Module TasksProps.
Import Agent Dyn Tasks OutcomeProps.

(** Peels the binds and the tests off a hypothesis [body = Ret r]. *)
Ltac peel H :=
  repeat first
    [ apply bind_ret in H; destruct H as (? & _ & H)
    | match type of H with
      | (if ?c then _ else _) = Ret _ => destruct c; [try discriminate H |]
      end ].

Lemma format_success_shape message data :
  is_success_shape (_format_success message data).
Proof. exists message, data. reflexivity. Qed.

Lemma analysis_body_shape gl context r :
  Analysis.execute_body gl context = Ret r → is_success_shape r.
Proof.
  unfold Analysis.execute_body. intros H. peel H.
  injection H as <-. apply format_success_shape.
Qed.

Lemma pipeline_body_shape context r :
  Pipeline.execute_body context = Ret r → is_success_shape r.
Proof.
  unfold Pipeline.execute_body. intros H. peel H.
  injection H as <-. apply format_success_shape.
Qed.

Lemma pipeline_gen_body_shape chat yaml_safe_load py_str self context r :
  PipelineGen.execute_body chat yaml_safe_load py_str self context = Ret r →
  is_success_shape r.
Proof.
  unfold PipelineGen.execute_body. intros H. peel H.
  injection H as <-. eexists _, _. reflexivity.
Qed.

Lemma validation_body_shape gl context r :
  Validation.execute_body gl context = Ret r → is_success_shape r.
Proof.
  unfold Validation.execute_body. intros H. peel H.
  injection H as <-. eexists _, _. reflexivity.
Qed.

Lemma deployment_body_shape gl cloud self context r :
  Deployment.execute_body gl cloud self context = Ret r → is_success_shape r.
Proof.
  unfold Deployment.execute_body. intros H. peel H.
  injection H as <-. eexists _, _. reflexivity.
Qed.

Lemma body_shape w a context r :
  execute_body w a context = Ret r → is_success_shape r.
Proof.
  destruct a; cbn [execute_body];
    eauto using analysis_body_shape, pipeline_body_shape,
      pipeline_gen_body_shape, validation_body_shape, deployment_body_shape.
Qed.

Lemma execute_unfold w a context :
  execute w a context
  = try_except (execute_body w a context) (fun e => Ret (_format_error e)).
Proof. destruct a; reflexivity. Qed.

(** X5. Whatever the collaborators do and whatever the context holds, the
    [execute] of each of the five agents returns, never raises: it gives
    the body's result, which has the keys status, message and data with
    status "success", or, when the body raises [e], the error record with
    status "error", the text of [e] as message and no data. *)
Theorem execute_returns_a_result (w : world) (a : agent)
    (context : list (string * pyval)) :
  ∃ r, execute w a context = Ret r
       ∧ (is_success_shape r ∨ is_error_shape r)
       ∧ (∀ v, execute_body w a context = Ret v → r = v)
       ∧ (∀ e, execute_body w a context = Raise e →
               r = PDict [("status", PStr "error");
                          ("message", PStr (exn_str e));
                          ("data", PNone)]).
Proof.
  rewrite execute_unfold.
  destruct (execute_body w a context) as [v|e] eqn:E; cbn [try_except].
  - exists v. split; [reflexivity|]. split; [|split].
    + left. eapply body_shape. exact E.
    + intros v' [= ->]. reflexivity.
    + intros e' [=].
  - exists (_format_error e). split; [reflexivity|]. split; [|split].
    + right. exists (exn_str e). reflexivity.
    + intros v' [=].
    + intros e' [= ->]. reflexivity.
Qed.

End TasksProps.

(** ** The endpoints and the status of an operation *)

Module MainProps.
Import Store Agent Dyn Tasks Main OutcomeProps.

Lemma endpoint_started body resp task :
  endpoint body = (resp, Some task) →
  ∃ r, body = Ret (r, task) ∧ resp = Ok r.
Proof.
  unfold endpoint. destruct body as [[r t]|e]; [|discriminate].
  intros [= <- <-]. eauto.
Qed.

Lemma execute_total w a context :
  ∃ r, execute w a context = Ret r
       ∧ (is_success_shape r ∨ is_error_shape r).
Proof.
  assert (H : execute w a context
              = try_except (execute_body w a context)
                  (fun e => Ret (_format_error e))) by (destruct a; reflexivity).
  rewrite H. destruct (execute_body w a context) as [v|e] eqn:E.
  - exists v. split; [reflexivity|]. left.
    eapply TasksProps.body_shape. exact E.
  - exists (_format_error e). split; [reflexivity|]. right.
    exists (exn_str e). reflexivity.
Qed.

Lemma shape_truthy r : is_success_shape r ∨ is_error_shape r → truthy r = true.
Proof. intros [(m & d & ->)|(m & ->)]; reflexivity. Qed.

Lemma status_of_written operation_id r st :
  truthy r = true →
  get_operation_status operation_id (set_operation operation_id r st) = Ok r.
Proof.
  intros Hr.
  assert (Hg : get_operation operation_id (set_operation operation_id r st) = r).
  { unfold get_operation, set_operation, _write_operations, _read_operations at 1.
    cbn [file]. rewrite lookup_insert_eq. reflexivity. }
  unfold get_operation_status. rewrite Hg, Hr. reflexivity.
Qed.

Lemma task_of_execute w a context operation_id (task : background) :
  (∀ st, task st = (result <- execute w a context ;;
                    Ret (set_operation operation_id result st))) →
  ∃ result, (is_success_shape result ∨ is_error_shape result)
            ∧ ∀ st, task st = Ret (set_operation operation_id result st).
Proof.
  intros Ht. destruct (execute_total w a context) as (r & Hr & Hs).
  exists r. split; [exact Hs|]. intros st. rewrite Ht, Hr. reflexivity.
Qed.

Lemma processing_fields message operation_id :
  py_subscript (processing message operation_id) "status"
  = Ret (PStr "processing")
  ∧ py_subscript (processing message operation_id) "operation_id"
    = Ret (PStr operation_id).
Proof. split; reflexivity. Qed.

Lemma analysis_success_data gl context r :
  Analysis.execute_body gl context = Ret r →
  ∃ structure dependencies analysis,
    r = _format_success "Repository analysis completed"
          (PDict [("structure", structure);
                  ("dependencies", dependencies);
                  ("analysis", analysis)]).
Proof.
  unfold Analysis.execute_body. intros H.
  repeat first
    [ apply bind_ret in H; destruct H as (? & _ & H)
    | match type of H with
      | (if ?c then _ else _) = Ret _ => destruct c; [try discriminate H |]
      end ].
  injection H as <-. eexists _, _, _. reflexivity.
Qed.

(** What [generate_pipeline] hands to the template agent. *)
Lemma generate_started w http_str rq now2 repo_url branch resp task :
  generate_pipeline w http_str rq now2 repo_url branch = (resp, Some task) →
  ∃ agent structure dependencies analysis,
    let data := PDict [("structure", structure);
                       ("dependencies", dependencies);
                       ("analysis", analysis)] in
    resp = Ok (PDict [("status", PStr "processing");
                      ("message", PStr "Pipeline generation started");
                      ("operation_id", PStr ("generate_" ++ stamp rq));
                      ("pipeline_yaml", PNone);
                      ("validation_status", PNone);
                      ("suggestions", PNone);
                      ("data", data)])
    ∧ task = run_generation w agent ("generate_" ++ stamp rq)
               (_format_success "Repository analysis completed" data)
               repo_url branch.
Proof.
  unfold generate_pipeline. intros H.
  apply endpoint_started in H. destruct H as (r & H & ->).
  apply bind_ret in H. destruct H as (agent & _ & H).
  apply bind_ret in H. destruct H as (ar & Har & H).
  cbn [execute] in Har. unfold Analysis.execute in Har.
  destruct (Analysis.execute_body (gl w)
              [("repo_url", PStr repo_url); ("branch", branch)])
    as [v|e] eqn:E; cbn [try_except] in Har; injection Har as <-.
  - apply analysis_success_data in E.
    destruct E as (s & d & a & ->).
    cbn in H. injection H as <- <-.
    eexists _, s, d, a. split; reflexivity.
  - cbn in H. discriminate H.
Qed.

Lemma started_task w rq r resp task :
  start w rq r = (resp, Some task) →
  ∃ body a context,
    resp = Ok body
    ∧ py_subscript body "status" = Ret (PStr "processing")
    ∧ py_subscript body "operation_id" = Ret (PStr (operation_id_of rq r))
    ∧ ∀ st, task st = (result <- execute w a context ;;
                       Ret (set_operation (operation_id_of rq r) result st)).
Proof.
  intros H.
  destruct r as [repo_url branch|http_str now2 repo_url branch
                |pipeline_yaml repo_url
                |cloud_clients pipeline_yaml repo_url deploy_to_cloud];
    cbn [start operation_id_of] in *.
  - unfold analyze_repository in H. apply endpoint_started in H.
    destruct H as (b & H & ->). apply bind_ret in H.
    destruct H as (agent & _ & [= <- <-]).
    eexists _, _, _. repeat split; reflexivity.
  - apply generate_started in H.
    destruct H as (agent & s & d & a & -> & ->).
    eexists _, _, _. repeat split; reflexivity.
  - unfold validate_pipeline in H. apply endpoint_started in H.
    destruct H as (b & H & ->). apply bind_ret in H.
    destruct H as (agent & _ & [= <- <-]).
    eexists _, _, _. repeat split; reflexivity.
  - unfold deploy_pipeline in H. apply endpoint_started in H.
    destruct H as (b & H & ->). apply bind_ret in H.
    destruct H as (agent & _ & [= <- <-]).
    eexists _, _, _. repeat split; reflexivity.
Qed.

Lemma status_not_found operation_id st :
  _read_operations st !! operation_id = None →
  get_operation_status operation_id st = HttpError 404 "Operation not found".
Proof.
  intros H. unfold get_operation_status, get_operation. rewrite H. reflexivity.
Qed.

(** X6. The life of an operation.  When one of the four endpoints answers
    that an operation is processing, it has written nothing: a status
    request on a store without the id of the answer gets a 404, not
    "processing".  The background task then stores a result under that
    id, whatever the collaborators do, and from then on the status
    endpoint returns that result, a success or an error record. *)
Theorem status_after_task (w : world) (rq : request_env) (r : start_request)
    (resp : response) (task : background) :
  start w rq r = (resp, Some task) →
  ∃ body result,
    resp = Ok body
    ∧ py_subscript body "status" = Ret (PStr "processing")
    ∧ py_subscript body "operation_id" = Ret (PStr (operation_id_of rq r))
    ∧ (is_success_shape result ∨ is_error_shape result)
    ∧ ∀ st,
        (_read_operations st !! operation_id_of rq r = None →
         get_operation_status (operation_id_of rq r) st
         = HttpError 404 "Operation not found")
        ∧ task st = Ret (set_operation (operation_id_of rq r) result st)
        ∧ get_operation_status (operation_id_of rq r)
            (set_operation (operation_id_of rq r) result st) = Ok result.
Proof.
  intros H. apply started_task in H.
  destruct H as (body & a & context & -> & Hs & Hi & Ht).
  destruct (task_of_execute w a context _ task Ht) as (result & Hsh & Hst).
  exists body, result. repeat split; auto using status_not_found.
  apply status_of_written, shape_truthy, Hsh.
Qed.

Lemma status_after_task_witness :
  ∃ resp task,
    start Fixtures.offline_world Fixtures.demo_request
      (Validate "stages: [build]" "https://gitlab.com/group/project")
    = (resp, Some task)
    ∧ ∃ body result,
        resp = Ok body
        ∧ py_subscript body "status" = Ret (PStr "processing")
        ∧ py_subscript body "operation_id"
          = Ret (PStr "validate_20240101_120000")
        ∧ (is_success_shape result ∨ is_error_shape result)
        ∧ ∀ st,
            (_read_operations st !! "validate_20240101_120000" = None →
             get_operation_status "validate_20240101_120000" st
             = HttpError 404 "Operation not found")
            ∧ task st
              = Ret (set_operation "validate_20240101_120000" result st)
            ∧ get_operation_status "validate_20240101_120000"
                (set_operation "validate_20240101_120000" result st)
              = Ok result.
Proof.
  eexists _, _. split; [reflexivity|].
  apply (status_after_task Fixtures.offline_world Fixtures.demo_request
           (Validate "stages: [build]" "https://gitlab.com/group/project")).
  reflexivity.
Defined.

(** X7. [generate_pipeline] passes the whole data of the analysis result,
    with the keys structure, dependencies and analysis, as the analysis
    of the template agent, which looks for the key language in it.  So
    whatever the repository holds, the stored pipeline is the one of the
    language "unknown". *)
Theorem generate_ignores_language (w : world)
    (http_str : Z → pyval → string) (rq : request_env) (now2 : Z)
    (repo_url : string) (branch : pyval) (resp : response) (task : background) :
  generate_pipeline w http_str rq now2 repo_url branch = (resp, Some task) →
  ∃ yaml,
    Pipeline._generate_basic_pipeline (PDict [("language", PStr "unknown")])
    = Ret yaml
    ∧ ∀ st, task st
            = Ret (set_operation ("generate_" ++ stamp rq)
                     (_format_success "Pipeline generation completed"
                        (PDict [("pipeline_yaml", PStr yaml)])) st).
Proof.
  intros H. apply generate_started in H.
  destruct H as (agent & s & d & a & _ & ->).
  eexists. split; [reflexivity|]. intros st. reflexivity.
Qed.

Lemma generate_ignores_language_witness :
  ∃ resp task,
    generate_pipeline Fixtures.demo_world (fun _ _ => "")
      Fixtures.demo_request 0 "https://gitlab.com/group/project" (PStr "main")
    = (resp, Some task)
    ∧ ∃ yaml,
        Pipeline._generate_basic_pipeline (PDict [("language", PStr "unknown")])
        = Ret yaml
        ∧ ∀ st, task st
                = Ret (set_operation "generate_20240101_120000"
                         (_format_success "Pipeline generation completed"
                            (PDict [("pipeline_yaml", PStr yaml)])) st).
Proof.
  eexists _, _. split; [reflexivity|].
  eapply (generate_ignores_language Fixtures.demo_world (fun _ _ => "")
            Fixtures.demo_request 0 "https://gitlab.com/group/project"
            (PStr "main")).
  reflexivity.
Defined.

(** The analysis of the example detects Python, and the image of the
    stored pipeline is the default one all the same. *)
Example demo_detects_python :
  ∃ data analysis,
    Analysis.execute Fixtures.demo_gitlab
      [("repo_url", PStr "https://gitlab.com/group/project");
       ("branch", PStr "main")]
    = Ret (_format_success "Repository analysis completed" data)
    ∧ py_subscript data "analysis" = Ret analysis
    ∧ py_subscript analysis "language" = Ret (PStr "python")
    ∧ Pipeline._get_language_image (PStr "unknown") = Ret "alpine:latest".
Proof. eexists _, _. repeat split; reflexivity. Qed.

End MainProps.

(** ** The validate and deploy tasks *)

Module ValidationProps.
Import Str Agent Dyn Gitlab Records OutcomeProps.

(** X8. [ValidationAgent.execute] never reports a pipeline as invalid: its
    result is an error record, for a failure before the validation (no
    pipeline, a URL that is no string, a project that GitLab does not
    return), or the record with valid true, no errors, no warnings and
    the submitted text as merged YAML.  The second is what it returns
    for every non-empty text once GitLab returns the project. *)
Theorem validation_never_invalid (gl : api) (context : list (string * pyval)) :
  (∃ r, Validation.execute gl context = Ret r
        ∧ (Tasks.is_error_shape r
           ∨ ∃ y, assoc_get "pipeline_yaml" context = Some y
                  ∧ r = valid_record y))
  ∧ (∀ y url path p,
       assoc_get "pipeline_yaml" context = Some (PStr y) →
       y ≠ "" →
       assoc_get "repo_url" context = Some (PStr url) →
       Validation._extract_project_path (PStr url) = Ret path →
       projects_get gl path = Ret p →
       Validation.execute gl context = Ret (valid_record (PStr y))).
Proof.
  split.
  - unfold Validation.execute.
    destruct (Validation.execute_body gl context) as [v|e] eqn:E;
      cbn [try_except].
    + exists v. split; [reflexivity|]. right.
      unfold Validation.execute_body in E.
      destruct (assoc_get "pipeline_yaml" context) as [y|] eqn:Ey;
        cbn [default from_option id] in E.
      * exists y. split; [reflexivity|].
        apply bind_ret in E. destruct E as (? & _ & E).
        destruct (negb (truthy y)); [discriminate E|].
        apply bind_ret in E. destruct E as (? & _ & E).
        apply bind_ret in E. destruct E as (? & _ & E).
        injection E as <-. reflexivity.
      * discriminate E.
    + exists (_format_error e). split; [reflexivity|]. left.
      exists (exn_str e). reflexivity.
  - intros y url path p Hy Hne Hu Hpath Hp.
    unfold Validation.execute, Validation.execute_body.
    rewrite Hy, Hu. cbn [default from_option id py_slice_to bind truthy].
    destruct (String.eqb_spec y "") as [->|_]; [congruence|].
    cbn [negb]. rewrite Hpath. cbn [bind]. rewrite Hp. reflexivity.
Qed.

(** X9. A context without a pipeline: the validation agent fails on the
    slice of its log line before its own test, so its error is the
    [TypeError] of [None[:100]]; the deployment agent, which has no such
    line, answers that the pipeline is required. *)
Theorem missing_pipeline_yaml (gl : api) (cloud : Deployment.cloud_api)
    (self : DeploymentAgent) (context : list (string * pyval)) :
  assoc_get "pipeline_yaml" context = None →
  Validation.execute gl context
  = Ret (PDict [("status", PStr "error");
                ("message", PStr "'NoneType' object is not subscriptable");
                ("data", PNone)])
  ∧ Deployment.execute gl cloud self context
    = Ret (PDict [("status", PStr "error");
                  ("message", PStr "Pipeline YAML is required");
                  ("data", PNone)]).
Proof.
  intros H. split.
  - unfold Validation.execute, Validation.execute_body. rewrite H. reflexivity.
  - unfold Deployment.execute, Deployment.execute_body. rewrite H. reflexivity.
Qed.

Lemma validation_never_invalid_witness :
  Validation.execute Fixtures.demo_gitlab
    [("pipeline_yaml", PStr "stages: [build]");
     ("repo_url", PStr "https://gitlab.com/group/project")]
  = Ret (valid_record (PStr "stages: [build]")).
Proof.
  apply (proj2 (validation_never_invalid Fixtures.demo_gitlab _)
           "stages: [build]" "https://gitlab.com/group/project"
           "group/project" Fixtures.demo_project);
    [reflexivity | discriminate | reflexivity | reflexivity | reflexivity].
Defined.

Lemma missing_pipeline_yaml_witness :
  Validation.execute Fixtures.offline_gitlab
    [("repo_url", PStr "https://gitlab.com/group/project")]
  = Ret (PDict [("status", PStr "error");
                ("message", PStr "'NoneType' object is not subscriptable");
                ("data", PNone)])
  ∧ Deployment.execute Fixtures.offline_gitlab Fixtures.offline_cloud
      demo_deployer [("repo_url", PStr "https://gitlab.com/group/project")]
    = Ret (PDict [("status", PStr "error");
                  ("message", PStr "Pipeline YAML is required");
                  ("data", PNone)]).
Proof.
  apply (missing_pipeline_yaml Fixtures.offline_gitlab Fixtures.offline_cloud
           demo_deployer [("repo_url", PStr "https://gitlab.com/group/project")]).
  reflexivity.
Defined.

End ValidationProps.

Module DeploymentProps.
Import Str Agent Dyn Gitlab Records Deployment.

(** X10. Unless the context asks for it, a deployment does not touch Google
    Cloud: its result is the same whatever the two cloud clients would
    answer and whatever the project id of the agent is. *)
Theorem deploy_without_cloud (gl : api) (cloud cloud' : cloud_api)
    (self self' : DeploymentAgent) (context : list (string * pyval)) :
  wants_cloud context = false →
  execute gl cloud self context = execute gl cloud' self' context.
Proof.
  unfold wants_cloud, execute, execute_body. intros H. rewrite H.
  reflexivity.
Qed.

Lemma deploy_without_cloud_witness :
  execute Fixtures.demo_gitlab Fixtures.offline_cloud demo_deployer
    [("pipeline_yaml", PStr "stages: [build]");
     ("repo_url", PStr "https://gitlab.com/group/project")]
  = execute Fixtures.demo_gitlab
      (mkCloud (fun n => Ret n) (fun _ n => Ret n) (fun n => Ret n)
         (fun _ n _ => Ret n))
      demo_deployer
      [("pipeline_yaml", PStr "stages: [build]");
       ("repo_url", PStr "https://gitlab.com/group/project")].
Proof.
  apply (deploy_without_cloud Fixtures.demo_gitlab). reflexivity.
Defined.

(** X11. The pipeline file is updated, or created when the update fails.
    With a pipeline text, a project that GitLab returns and no cloud
    set-up, the deployment succeeds as soon as one of the two writes
    does, with the pipelines page of the project as URL; when both fail
    it returns the error of the creation, and the error of the update
    is dropped. *)
Theorem deploy_update_or_create (gl : api) (cloud : cloud_api)
    (self : DeploymentAgent) (context : list (string * pyval))
    (y repo_url : pyval) (path : string) (p : project) :
  assoc_get "pipeline_yaml" context = Some y →
  truthy y = true →
  assoc_get "repo_url" context = Some repo_url →
  Validation._extract_project_path repo_url = Ret path →
  projects_get gl path = Ret p →
  wants_cloud context = false →
  (ci_file_update gl p y = Ret tt ∨ ci_file_create gl p y = Ret tt →
   execute gl cloud self context = Ret (deployed_record p))
  ∧ (∀ e1 e2,
       ci_file_update gl p y = Raise e1 →
       ci_file_create gl p y = Raise e2 →
       execute gl cloud self context
       = Ret (PDict [("status", PStr "error");
                     ("message",
                      PStr ("Error deploying pipeline: " ++ exn_str e2));
                     ("data", PNone)])).
Proof.
  intros Hy Ht Hu Hpath Hp Hc. unfold wants_cloud in Hc.
  unfold execute, execute_body. rewrite Hy, Hu, Hc.
  cbn [default from_option id]. rewrite Ht. cbn [negb].
  rewrite Hpath. cbn [bind]. rewrite Hp. cbn [bind].
  unfold _deploy_pipeline. split.
  - intros H.
    destruct (ci_file_update gl p y) as [[]|e1] eqn:E1; cbn [try_except bind].
    + reflexivity.
    + destruct H as [H|H]; [discriminate H|]. rewrite H. reflexivity.
  - intros e1 e2 -> ->. reflexivity.
Qed.

Lemma deploy_update_or_create_witness :
  (ci_file_update Fixtures.demo_gitlab Fixtures.demo_project
     (PStr "stages: [build]") = Ret tt
   ∨ ci_file_create Fixtures.demo_gitlab Fixtures.demo_project
       (PStr "stages: [build]") = Ret tt →
   execute Fixtures.demo_gitlab Fixtures.offline_cloud demo_deployer
     [("pipeline_yaml", PStr "stages: [build]");
      ("repo_url", PStr "https://gitlab.com/group/project")]
   = Ret (deployed_record Fixtures.demo_project))
  ∧ (∀ e1 e2,
       ci_file_update Fixtures.demo_gitlab Fixtures.demo_project
         (PStr "stages: [build]") = Raise e1 →
       ci_file_create Fixtures.demo_gitlab Fixtures.demo_project
         (PStr "stages: [build]") = Raise e2 →
       execute Fixtures.demo_gitlab Fixtures.offline_cloud demo_deployer
         [("pipeline_yaml", PStr "stages: [build]");
          ("repo_url", PStr "https://gitlab.com/group/project")]
       = Ret (PDict [("status", PStr "error");
                     ("message",
                      PStr ("Error deploying pipeline: " ++ exn_str e2));
                     ("data", PNone)])).
Proof.
  apply (deploy_update_or_create Fixtures.demo_gitlab Fixtures.offline_cloud
           demo_deployer _ (PStr "stages: [build]")
           (PStr "https://gitlab.com/group/project") "group/project"
           Fixtures.demo_project); reflexivity.
Defined.

End DeploymentProps.

(** ** Splitting and joining; the clean-up of the generated YAML *)

Module SplitProps.
Import Str.

Lemma append_cons c s t : String c s ++ t = String c (s ++ t).
Proof. reflexivity. Qed.

Lemma append_nil_r s : s ++ "" = s.
Proof.
  induction s as [|c s IH]; [reflexivity|].
  rewrite append_cons, IH. reflexivity.
Qed.

Lemma append_assoc s t u : (s ++ t) ++ u = s ++ (t ++ u).
Proof.
  induction s as [|c s IH]; [reflexivity|].
  rewrite !append_cons, IH. reflexivity.
Qed.

Lemma prefix_split p : ∀ s, String.prefix p s = true → ∃ r, s = p ++ r.
Proof.
  induction p as [|c p IH]; intros s H.
  - exists s. reflexivity.
  - destruct s as [|d s]; [discriminate H|]. cbn [String.prefix] in H.
    destruct (Ascii.ascii_dec c d) as [->|Hne]; [|discriminate H].
    destruct (IH s H) as (r & ->). exists r. reflexivity.
Qed.

Lemma split_go_nonempty sep : ∀ s skip cur, split_go sep skip cur s ≠ [].
Proof.
  induction s as [|c s IH]; intros skip cur; cbn [split_go]; [discriminate|].
  destruct skip as [|k]; [|apply IH].
  destruct (String.prefix sep (String c s)); [discriminate | apply IH].
Qed.

Lemma join_cons sep x l : l ≠ [] → join sep (x :: l) = x ++ sep ++ join sep l.
Proof. destruct l; [congruence | reflexivity]. Qed.

(** Skipping the rest of a matched separator. *)
Lemma split_go_skip sep u : ∀ cur rest,
  split_go sep (String.length u) cur (u ++ rest) = split_go sep 0 cur rest.
Proof.
  induction u as [|c u IH]; intros cur rest; [reflexivity|].
  rewrite append_cons. cbn [String.length split_go]. apply IH.
Qed.

(** Joining the pieces of a split gives the string back. *)
Lemma join_split_go sep : sep ≠ "" →
  ∀ n s, (String.length s <= n)%nat →
    ∀ cur, join sep (split_go sep 0 cur s) = cur ++ s.
Proof.
  intros Hsep. induction n as [|n IH]; intros s Hn cur.
  - destruct s; [|cbn in Hn; lia]. cbn. rewrite append_nil_r. reflexivity.
  - destruct s as [|c s]; [cbn; rewrite append_nil_r; reflexivity|].
    cbn [split_go].
    destruct (String.prefix sep (String c s)) eqn:Hp.
    + apply prefix_split in Hp. destruct Hp as (r & Hr).
      destruct sep as [|d sep']; [congruence|].
      rewrite append_cons in Hr. injection Hr as <- ->.
      replace (String.length (String c sep') - 1)%nat
        with (String.length sep') by (cbn [String.length]; lia).
      rewrite split_go_skip, join_cons by apply split_go_nonempty.
      rewrite IH.
      * rewrite append_cons. reflexivity.
      * cbn [String.length] in Hn.
        assert (String.length (sep' ++ r)
                = (String.length sep' + String.length r)%nat).
        { clear. induction sep' as [|e t IHt]; [reflexivity|].
          rewrite append_cons. cbn [String.length]. rewrite IHt. reflexivity. }
        lia.
    + rewrite IH by (cbn [String.length] in Hn; lia).
      rewrite append_assoc. reflexivity.
Qed.

Lemma join_split sep s : sep ≠ "" → join sep (split sep s) = s.
Proof.
  intros H. unfold split. rewrite (join_split_go sep H (String.length s)); auto.
Qed.

End SplitProps.

Module PipelineGenMoreProps.
Import Str Dyn Agent Pieces PipelineGen SplitProps OutcomeProps.

Lemma fix_lines_filter lines : ∀ in_yaml,
  fix_lines in_yaml lines = List.filter kept_line lines.
Proof.
  induction lines as [|line rest IH]; intros in_yaml; [reflexivity|].
  cbn [fix_lines List.filter]. unfold kept_line at 1.
  destruct (startswith fence (strip line)); cbn [negb].
  - apply IH.
  - rewrite orb_true_r, IH. reflexivity.
Qed.

Lemma filter_all {A} (f : A → bool) l :
  List.forallb f l = true → List.filter f l = l.
Proof.
  induction l as [|x l IH]; [reflexivity|]. cbn [List.forallb List.filter].
  intros H. apply andb_true_iff in H. destruct H as [-> H].
  rewrite IH by exact H. reflexivity.
Qed.

(** X12. [_fix_common_yaml_issues] drops the lines that, stripped, start
    with a fence and keeps every other line, inside a fenced block or
    outside: the flag [in_yaml] that its loop maintains has no effect.
    A text without such a line comes back unchanged. *)
Theorem fix_common_yaml_issues_spec (yaml_str : string) :
  _fix_common_yaml_issues yaml_str
  = join nl (List.filter kept_line (split nl yaml_str))
  ∧ (List.forallb kept_line (split nl yaml_str) = true →
     _fix_common_yaml_issues yaml_str = yaml_str).
Proof.
  unfold _fix_common_yaml_issues. rewrite fix_lines_filter.
  split; [reflexivity|]. intros H. rewrite filter_all by exact H.
  apply join_split. discriminate.
Qed.

Lemma fix_common_yaml_issues_spec_witness :
  _fix_common_yaml_issues ("stages:" ++ nl ++ "  - build")
  = "stages:" ++ nl ++ "  - build".
Proof.
  apply (proj2 (fix_common_yaml_issues_spec ("stages:" ++ nl ++ "  - build"))).
  reflexivity.
Defined.

(** Text around a fenced block is kept with the block. *)
Example fix_keeps_prose :
  _fix_common_yaml_issues
    ("Here is the pipeline:" ++ nl ++ "```yaml" ++ nl ++ "stages: [build]"
     ++ nl ++ "```" ++ nl ++ "Done.")
  = "Here is the pipeline:" ++ nl ++ "stages: [build]" ++ nl ++ "Done.".
Proof. reflexivity. Qed.

(** *** [_clean_yaml_response] only trims *)

Lemma substring_refl s : substring_of s s.
Proof. exists "", "". rewrite append_nil_r. reflexivity. Qed.

Lemma substring_trans t u s :
  substring_of t u → substring_of u s → substring_of t s.
Proof.
  intros (p1 & q1 & ->) (p2 & q2 & ->).
  exists (p2 ++ p1), (q1 ++ q2). rewrite !append_assoc. reflexivity.
Qed.

Lemma lstrip_substring s : substring_of (lstrip s) s.
Proof.
  induction s as [|c s IH]; [apply substring_refl|]. cbn [lstrip].
  destruct (isspace c); [|apply substring_refl].
  destruct IH as (p & q & H). exists (String c p), q.
  rewrite append_cons. f_equal. exact H.
Qed.

Lemma rstrip_prefix s : ∃ ws, s = rstrip s ++ ws.
Proof.
  induction s as [|c s IH]; [exists ""; reflexivity|].
  destruct IH as (ws & H). cbn [rstrip].
  destruct (rstrip s) as [|d r] eqn:E.
  - destruct (isspace c).
    + exists (String c s). reflexivity.
    + exists ws. rewrite append_cons. f_equal. exact H.
  - exists ws. rewrite append_cons. f_equal. exact H.
Qed.

Lemma rstrip_substring s : substring_of (rstrip s) s.
Proof. destruct (rstrip_prefix s) as (ws & H). exists "", ws. exact H. Qed.

Lemma strip_substring s : substring_of (strip s) s.
Proof.
  unfold strip. eapply substring_trans;
    [apply rstrip_substring | apply lstrip_substring].
Qed.

Lemma slice_split n : ∀ s, s = slice_to n s ++ slice_from n s.
Proof.
  induction n as [|n IH]; intros s; [reflexivity|].
  destruct s as [|c s]; [reflexivity|].
  cbn [slice_to slice_from]. rewrite append_cons. f_equal. apply IH.
Qed.

Lemma slice_from_substring n s : substring_of (slice_from n s) s.
Proof.
  exists (slice_to n s), "". rewrite append_nil_r. apply slice_split.
Qed.

Lemma slice_to_substring n s : substring_of (slice_to n s) s.
Proof. exists "", (slice_from n s). apply slice_split. Qed.

Lemma rstrip_step c s :
  rstrip (String c s)
  = match rstrip s with
    | EmptyString => if isspace c then EmptyString else String c EmptyString
    | r => String c r
    end.
Proof. reflexivity. Qed.

Lemma rstrip_stripped s : rstrip (rstrip s) = rstrip s.
Proof.
  induction s as [|c s IH]; [reflexivity|]. rewrite rstrip_step.
  destruct (rstrip s) as [|d r] eqn:E.
  - destruct (isspace c) eqn:Hc; [reflexivity|]. rewrite rstrip_step.
    cbn [rstrip]. rewrite Hc. reflexivity.
  - rewrite rstrip_step, IH. reflexivity.
Qed.

Lemma lstrip_rstrip_head s c r :
  rstrip s = String c r → isspace c = false → lstrip (rstrip s) = rstrip s.
Proof. intros -> H. cbn [lstrip]. rewrite H. reflexivity. Qed.

Lemma rstrip_cons_nonspace c s :
  isspace c = false → ∃ r, rstrip (String c s) = String c r.
Proof.
  intros H. cbn [rstrip]. destruct (rstrip s) as [|d r].
  - rewrite H. eauto.
  - eauto.
Qed.

Lemma strip_stripped s : strip (strip s) = strip s.
Proof.
  unfold strip.
  assert (Hl : lstrip s = "" ∨ ∃ c t, lstrip s = String c t ∧ isspace c = false).
  { induction s as [|c s IH]; [left; reflexivity|]. cbn [lstrip].
    destruct (isspace c) eqn:Hc; [exact IH|]. right. eauto. }
  destruct Hl as [->|(c & t & -> & Hc)]; [reflexivity|].
  destruct (rstrip_cons_nonspace c t Hc) as (r & Hr).
  rewrite (lstrip_rstrip_head _ c r Hr Hc). apply rstrip_stripped.
Qed.

(** X13. [_clean_yaml_response] only trims: what it returns is a run of
    consecutive characters of its input, with no white space at either
    end.  It changes no character of the YAML it keeps. *)
Theorem clean_yaml_response_trims (yaml_str : string) :
  substring_of (_clean_yaml_response yaml_str) yaml_str
  ∧ strip (_clean_yaml_response yaml_str) = _clean_yaml_response yaml_str.
Proof.
  unfold _clean_yaml_response. split; [|apply strip_stripped].
  eapply substring_trans; [apply strip_substring|].
  eapply substring_trans;
    [destruct (endswith fence _);
       [apply slice_to_substring | apply substring_refl]|].
  eapply substring_trans;
    [destruct (startswith fence _);
       [apply slice_from_substring | apply substring_refl]|].
  eapply substring_trans;
    [destruct (startswith fence_yaml _);
       [apply slice_from_substring | apply substring_refl]|].
  apply strip_substring.
Qed.

(** *** [PipelineGenAgent.execute] *)

(** The success record of the generate task. *)
Lemma generate_execute_unfold chat yaml_safe_load py_str self context analysis y :
  assoc_get "analysis" context = Some analysis →
  truthy analysis = true →
  _generate_pipeline chat py_str self analysis = Ret y →
  execute chat yaml_safe_load py_str self context
  = try_except
      (pipeline_yaml <-
         try_except_class is_YAMLError
           (_ <- yaml_safe_load y ;; Ret y)
           (fun _ =>
              let fixed := _fix_common_yaml_issues y in
              try_except_class is_YAMLError
                (_ <- yaml_safe_load fixed ;; Ret fixed)
                (fun e =>
                   Raise (Exn ValueError
                            ("Generated pipeline has invalid YAML syntax: "
                             ++ exn_str e)))) ;;
       Ret (PDict [("status", PStr "success");
                   ("message", PStr "Pipeline generated successfully");
                   ("data", PDict [("pipeline_yaml", PStr pipeline_yaml)])]))
      (fun e => Ret (_format_error e)).
Proof.
  intros Ha Ht Hg. unfold execute, execute_body.
  rewrite Ha. cbn [default from_option id]. rewrite Ht. cbn [negb].
  rewrite Hg. reflexivity.
Qed.

(** X14. Without the API key the generate task asks nothing of the
    completion service: once the prompt is built, the request is refused
    locally and the task returns the error record of the missing key,
    whatever the service and the YAML loader would answer. *)
Theorem generate_without_key
    (chat : string → list (string * string) → outcome string)
    (yaml_safe_load : string → outcome unit) (py_str : pyval → string)
    (self : BaseAgent) (context : list (string * pyval))
    (analysis : pyval) (prompt : string) :
  unset (openai_api_key self) = true →
  assoc_get "analysis" context = Some analysis →
  truthy analysis = true →
  pipeline_prompt py_str analysis = Ret prompt →
  execute chat yaml_safe_load py_str self context
  = Ret (PDict [("status", PStr "error");
                ("message", PStr "OPENAI_API_KEY is not set.");
                ("data", PNone)]).
Proof.
  intros Hk Ha Ht Hp. unfold execute, execute_body.
  rewrite Ha. cbn [default from_option id]. rewrite Ht. cbn [negb].
  unfold _generate_pipeline. rewrite Hp. cbn [bind].
  unfold _call_openai, _make_openai_request. rewrite Hk. reflexivity.
Qed.

Lemma generate_without_key_witness :
  execute GenFixtures.fenced_chat GenFixtures.strict_yaml Fixtures.str_of
    GenFixtures.keyless_agent [("analysis", GenFixtures.python_analysis)]
  = Ret (PDict [("status", PStr "error");
                ("message", PStr "OPENAI_API_KEY is not set.");
                ("data", PNone)]).
Proof.
  eapply (generate_without_key GenFixtures.fenced_chat GenFixtures.strict_yaml
            Fixtures.str_of GenFixtures.keyless_agent
            [("analysis", GenFixtures.python_analysis)]
            GenFixtures.python_analysis);
    reflexivity.
Defined.

(** X15. The generated YAML gets a second chance.  If [yaml.safe_load]
    accepts the cleaned completion, that text is the result.  If it
    rejects it with a [YAMLError], the fence lines are dropped and the
    text is loaded again: accepted, the repaired text is the result;
    rejected again, the task returns the error record that quotes the
    second error. *)
Theorem generate_repairs_yaml
    (chat : string → list (string * string) → outcome string)
    (yaml_safe_load : string → outcome unit) (py_str : pyval → string)
    (self : BaseAgent) (context : list (string * pyval))
    (analysis : pyval) (y : string) :
  assoc_get "analysis" context = Some analysis →
  truthy analysis = true →
  _generate_pipeline chat py_str self analysis = Ret y →
  let success text :=
    Ret (PDict [("status", PStr "success");
                ("message", PStr "Pipeline generated successfully");
                ("data", PDict [("pipeline_yaml", PStr text)])]) in
  (yaml_safe_load y = Ret tt →
   execute chat yaml_safe_load py_str self context = success y)
  ∧ (∀ e, yaml_safe_load y = Raise e → exn_cls e = YAMLError →
          yaml_safe_load (_fix_common_yaml_issues y) = Ret tt →
          execute chat yaml_safe_load py_str self context
          = success (_fix_common_yaml_issues y))
  ∧ (∀ e e2, yaml_safe_load y = Raise e → exn_cls e = YAMLError →
             yaml_safe_load (_fix_common_yaml_issues y) = Raise e2 →
             exn_cls e2 = YAMLError →
             execute chat yaml_safe_load py_str self context
             = Ret (PDict [("status", PStr "error");
                           ("message",
                            PStr ("Generated pipeline has invalid YAML syntax: "
                                  ++ exn_str e2));
                           ("data", PNone)])).
Proof.
  intros Ha Ht Hg success.
  rewrite (generate_execute_unfold _ _ _ _ _ _ _ Ha Ht Hg). subst success.
  split; [|split].
  - intros ->. reflexivity.
  - intros e -> He Hf. cbn [bind try_except_class]. rewrite He.
    cbn [is_YAMLError]. cbv zeta. rewrite Hf. reflexivity.
  - intros e e2 -> He Hf He2. cbn [bind try_except_class]. rewrite He.
    cbn [is_YAMLError]. cbv zeta. rewrite Hf. cbn [bind try_except_class].
    rewrite He2. reflexivity.
Qed.

Lemma generate_repairs_yaml_witness :
  execute GenFixtures.fenced_chat GenFixtures.strict_yaml Fixtures.str_of
    GenFixtures.keyed_agent [("analysis", GenFixtures.python_analysis)]
  = Ret (PDict [("status", PStr "success");
                ("message", PStr "Pipeline generated successfully");
                ("data",
                 PDict [("pipeline_yaml",
                         PStr ("Sure:" ++ nl ++ "stages: [build]"))])]).
Proof.
  eapply (proj1 (proj2
            (generate_repairs_yaml GenFixtures.fenced_chat
               GenFixtures.strict_yaml Fixtures.str_of GenFixtures.keyed_agent
               [("analysis", GenFixtures.python_analysis)]
               GenFixtures.python_analysis
               ("Sure:" ++ nl ++ "```yaml" ++ nl ++ "stages: [build]")
               eq_refl eq_refl eq_refl)));
    reflexivity.
Defined.

End PipelineGenMoreProps.

(** ** The project path of a repository URL *)

Module UrlProps.
Import Str Dyn Urls SplitProps.

Lemma prefix_dslash_cons c s :
  Ascii.eqb c "/" = false → String.prefix "//" (String c s) = false.
Proof.
  intros H. cbn [String.prefix].
  destruct (Ascii.ascii_dec "/" c) as [<-|_]; [discriminate H | reflexivity].
Qed.

Lemma prefix_slash_cons c s :
  Ascii.eqb c "/" = false → String.prefix "/" (String c s) = false.
Proof.
  intros H. cbn [String.prefix].
  destruct (Ascii.ascii_dec "/" c) as [<-|_]; [discriminate H | reflexivity].
Qed.

(** A piece without slashes is read into the current piece. *)
Lemma split_go_no_slash sep a : 
  (∀ c s, Ascii.eqb c "/" = false → String.prefix sep (String c s) = false) →
  no_slash a = true →
  ∀ cur t, split_go sep 0 cur (a ++ t) = split_go sep 0 (cur ++ a) t.
Proof.
  intros Hsep. induction a as [|c a IH]; intros Ha cur t.
  - rewrite append_nil_r. reflexivity.
  - cbn [no_slash] in Ha. apply andb_true_iff in Ha. destruct Ha as [Hc Ha].
    apply negb_true_iff in Hc. rewrite append_cons. cbn [split_go].
    rewrite (Hsep c _ Hc), (IH Ha), append_assoc. reflexivity.
Qed.

Lemma prefix_nil t : String.prefix "" t = true.
Proof. destruct t; reflexivity. Qed.

Lemma split_slash_sep cur t :
  split_go "/" 0 cur ("/" ++ t) = cur :: split_go "/" 0 "" t.
Proof.
  rewrite append_cons. cbn [split_go String.prefix].
  destruct (Ascii.ascii_dec "/" "/") as [_|]; [|congruence].
  rewrite prefix_nil. reflexivity.
Qed.

Lemma split_dslash_sep cur t :
  split_go "//" 0 cur ("//" ++ t) = cur :: split_go "//" 0 "" t.
Proof.
  rewrite !append_cons. cbn [split_go String.prefix].
  destruct (Ascii.ascii_dec "/" "/") as [_|]; [|congruence].
  rewrite prefix_nil. reflexivity.
Qed.

Lemma segment_inv s :
  segment s = true → s ≠ "" ∧ no_slash s = true.
Proof.
  unfold segment. intros H. apply andb_true_iff in H. destruct H as [H1 H2].
  split; [|exact H2]. intros ->. discriminate H1.
Qed.

(** Splitting a path at its slashes gives its segments. *)
Lemma split_join_segments segs :
  segs ≠ [] → List.forallb segment segs = true →
  split_go "/" 0 "" (join "/" segs) = segs.
Proof.
  induction segs as [|x segs IH]; [congruence|]. intros _ H.
  cbn [List.forallb] in H. apply andb_true_iff in H. destruct H as [Hx H].
  apply segment_inv in Hx. destruct Hx as [_ Hx].
  destruct segs as [|y segs].
  - cbn [join]. rewrite <- (append_nil_r x) at 1.
    rewrite (split_go_no_slash "/" x prefix_slash_cons Hx). reflexivity.
  - rewrite join_cons by discriminate.
    rewrite (split_go_no_slash "/" x prefix_slash_cons Hx), split_slash_sep.
    rewrite IH by (discriminate || exact H). reflexivity.
Qed.

(** A path of segments has no double slash, also behind a slash. *)
Lemma split_dslash_segments segs : ∀ cur,
  List.forallb segment segs = true →
  split_go "//" 0 cur ("/" ++ join "/" segs) = [cur ++ "/" ++ join "/" segs].
Proof.
  induction segs as [|x segs IH]; intros cur H.
  - reflexivity.
  - cbn [List.forallb] in H. apply andb_true_iff in H. destruct H as [Hx H].
    apply segment_inv in Hx. destruct Hx as [Hne Hx].
    destruct x as [|c x]; [congruence|].
    cbn [no_slash] in Hx. apply andb_true_iff in Hx. destruct Hx as [Hc Hx].
    apply negb_true_iff in Hc.
    assert (Hstep : ∀ t, split_go "//" 0 cur ("/" ++ String c x ++ t)
                         = split_go "//" 0 (cur ++ "/" ++ String c x) t).
    { intros t. change ("/" ++ String c x ++ t)
        with (String "/" (String c (x ++ t))).
      cbn [split_go]. 
      replace (String.prefix "//" (String "/" (String c (x ++ t))))
        with false.
      2:{ cbn [String.prefix].
          destruct (Ascii.ascii_dec "/" "/") as [_|]; [|congruence].
          destruct (Ascii.ascii_dec "/" c) as [<-|_];
            [discriminate Hc | reflexivity]. }
      rewrite (prefix_dslash_cons c _ Hc).
      rewrite (split_go_no_slash "//" x prefix_dslash_cons Hx).
      f_equal. rewrite !append_assoc. reflexivity. }
    destruct segs as [|y segs].
    + cbn [join]. rewrite <- (append_nil_r (String c x)) at 1.
      rewrite Hstep. reflexivity.
    + rewrite join_cons by discriminate.
      rewrite Hstep, (IH _ H), !append_assoc. reflexivity.
Qed.

Lemma url_pieces scheme host segs :
  no_slash scheme = true → no_slash host = true →
  List.forallb segment segs = true →
  split "//" (url_of scheme host segs) = [scheme; host ++ "/" ++ join "/" segs].
Proof.
  intros Hs Hh Hsegs. unfold split, url_of.
  rewrite (split_go_no_slash "//" scheme prefix_dslash_cons Hs).
  rewrite split_dslash_sep. cbn [append]. f_equal.
  rewrite (split_go_no_slash "//" host prefix_dslash_cons Hh).
  apply split_dslash_segments. exact Hsegs.
Qed.

Lemma path_pieces host segs :
  no_slash host = true → segs ≠ [] → List.forallb segment segs = true →
  split "/" (host ++ "/" ++ join "/" segs) = host :: segs.
Proof.
  intros Hh Hne Hsegs. unfold split.
  rewrite (split_go_no_slash "/" host prefix_slash_cons Hh), split_slash_sep.
  rewrite split_join_segments by assumption. reflexivity.
Qed.

Lemma filter_segments segs :
  List.forallb segment segs = true →
  List.filter (fun p => negb (String.eqb p "")) segs = segs.
Proof.
  induction segs as [|x segs IH]; [reflexivity|]. cbn [List.forallb List.filter].
  intros H. apply andb_true_iff in H. destruct H as [Hx H].
  unfold segment in Hx. apply andb_true_iff in Hx. destruct Hx as [-> _].
  rewrite IH by exact H. reflexivity.
Qed.

(** X16. For a URL made of a scheme, a host and a path of one or more
    segments, the analysis agent extracts the path without a [.git]
    suffix, and the validation and deployment agents extract the path as
    it stands, suffix included. *)
Theorem project_path_of_url (scheme host : string) (segs : list string) :
  no_slash scheme = true → no_slash host = true →
  segs ≠ [] → List.forallb segment segs = true →
  Analysis._extract_project_path (PStr (url_of scheme host segs))
  = Ret (drop_git (join "/" segs))
  ∧ Validation._extract_project_path (PStr (url_of scheme host segs))
    = Ret (join "/" segs).
Proof.
  intros Hs Hh Hne Hsegs.
  unfold Analysis._extract_project_path, Validation._extract_project_path.
  rewrite (url_pieces _ _ _ Hs Hh Hsegs).
  change (last_piece [scheme; host ++ "/" ++ join "/" segs])
    with (host ++ "/" ++ join "/" segs).
  rewrite (path_pieces _ _ Hh Hne Hsegs). cbn [List.tl List.length].
  rewrite (filter_segments _ Hsegs).
  destruct segs as [|x segs]; [congruence|]. cbn [List.length].
  split; reflexivity.
Qed.

Lemma drop_git_suffix p : drop_git (p ++ ".git") = p.
Proof.
  unfold drop_git. rewrite StrProps.endswith_app.
  apply (StrProps.slice_to_minus_app p ".git").
Qed.

Lemma project_path_of_url_witness :
  Analysis._extract_project_path
    (PStr (url_of "https:" "gitlab.com" ["group"; "project.git"]))
  = Ret (drop_git (join "/" ["group"; "project.git"]))
  ∧ Validation._extract_project_path
      (PStr (url_of "https:" "gitlab.com" ["group"; "project.git"]))
    = Ret (join "/" ["group"; "project.git"]).
Proof.
  apply (project_path_of_url "https:" "gitlab.com" ["group"; "project.git"]);
    [reflexivity | reflexivity | discriminate | reflexivity].
Defined.

(** A clone URL: the analysis looks up [group/project], the validation
    and the deployment [group/project.git]. *)
Example clone_url_paths :
  Analysis._extract_project_path (PStr "https://gitlab.com/group/project.git")
  = Ret "group/project"
  ∧ Validation._extract_project_path
      (PStr "https://gitlab.com/group/project.git")
    = Ret "group/project.git".
Proof. split; reflexivity. Qed.

End UrlProps.

(** ** More on the analyze task *)

Module AnalysisMoreProps.
Import Str Dyn Agent Gitlab Analysis OutcomeProps.

(** X17. The errors of the analysis before it reads the repository.
    Without a repository URL, or with an empty one, GitLab is not
    asked and the error says that the URL is required.  When GitLab
    answers the project lookup with a 404 the error names the URL; any
    other [GitlabGetError] is reported as an API error with its text. *)
Theorem analysis_errors (gl : api) (context : list (string * pyval)) :
  (truthy (default PNone (assoc_get "repo_url" context)) = false →
   execute gl context
   = Ret (PDict [("status", PStr "error");
                 ("message", PStr "Repository URL is required");
                 ("data", PNone)]))
  ∧ (∀ url path e code,
       assoc_get "repo_url" context = Some (PStr url) → url ≠ "" →
       _extract_project_path (PStr url) = Ret path →
       projects_get gl path = Raise e →
       exn_cls e = GitlabGetError code →
       execute gl context
       = Ret (PDict [("status", PStr "error");
                     ("message",
                      PStr (if code =? 404
                            then "Repository not found: " ++ url ++
                                 ". Please check if the URL is correct and you have access to it."
                            else "GitLab API error: " ++ exn_str e));
                     ("data", PNone)])).
Proof.
  split.
  - intros H. unfold execute, execute_body. rewrite H. reflexivity.
  - intros url path e code Hu Hne Hpath Hp He.
    unfold execute, execute_body. rewrite Hu.
    cbn [default from_option id truthy].
    destruct (String.eqb_spec url "") as [->|_]; [congruence|]. cbn [negb].
    rewrite Hpath. cbn [bind]. rewrite Hp. cbn [try_except]. rewrite He.
    destruct (code =? 404); reflexivity.
Qed.

Lemma analysis_errors_witness :
  execute Fixtures.offline_gitlab [("branch", PStr "main")]
  = Ret (PDict [("status", PStr "error");
                ("message", PStr "Repository URL is required");
                ("data", PNone)]).
Proof.
  apply (proj1 (analysis_errors Fixtures.offline_gitlab [("branch", PStr "main")])).
  reflexivity.
Defined.

(** X18. The manifest tables name the ecosystem of [package.json] "node",
    a language that no other table of the program knows.  So for a
    project whose only manifest is [package.json] the analysis reports
    the language "node" with the default build steps, and the template
    pipeline made from that analysis is the one of an unknown language. *)
Theorem node_project_gets_defaults (gl : api) (p : project) (branch : pyval)
    (files : list string) (content : string) :
  (∀ f, In f ["requirements.txt"; "setup.py"; "Pipfile"] →
        ∃ e, files_get gl p f branch = Raise e) →
  files_get gl p "package.json" branch = Ret content →
  ∃ deps,
    _analyze_dependencies gl p branch = Ret deps
    ∧ py_get (_generate_analysis files deps) "language" PNone
      = Ret (PStr "node")
    ∧ py_get (_generate_analysis files deps) "build_steps" PNone
      = Ret (str_list ["install dependencies"; "build"])
    ∧ Pipeline._generate_basic_pipeline (_generate_analysis files deps)
      = Pipeline._generate_basic_pipeline (PDict [("language", PStr "unknown")]).
Proof.
  intros Hpy Hnode.
  set (fetch := fun file => files_get gl p file branch).
  exists (scan_dependencies fetch dependency_files []).
  split; [reflexivity|].
  assert (Hhead : head_key (scan_dependencies fetch dependency_files [])
                  = Some "node").
  { rewrite AnalysisProps.scan_head_key.
    unfold dependency_files. cbn [spec_manifest_language first_manifest].
    destruct (Hpy "requirements.txt") as (e1 & H1); [cbn; auto|].
    destruct (Hpy "setup.py") as (e2 & H2); [cbn; auto|].
    destruct (Hpy "Pipfile") as (e3 & H3); [cbn; auto|].
    unfold fetch. rewrite H1, H2, H3, Hnode. reflexivity. }
  assert (Hlang : _detect_language files
                    (scan_dependencies fetch dependency_files []) = "node")
    by (apply AnalysisProps.detect_language_head, Hhead).
  unfold _generate_analysis. rewrite Hlang.
  repeat split; reflexivity.
Qed.

Lemma node_project_gets_defaults_witness :
  ∃ deps,
    _analyze_dependencies
      (mkApi (fun _ => Ret Fixtures.demo_project) (fun _ _ => Ret [])
         (fun _ file _ =>
            if String.eqb file "package.json" then Ret "{}"
            else Raise (Exn (GitlabGetError 404) "404 File Not Found"))
         (fun _ _ => Ret tt) (fun _ _ => Ret tt))
      Fixtures.demo_project (PStr "main") = Ret deps
    ∧ py_get (_generate_analysis ["package.json"; "index.js"] deps)
        "language" PNone = Ret (PStr "node")
    ∧ py_get (_generate_analysis ["package.json"; "index.js"] deps)
        "build_steps" PNone
      = Ret (str_list ["install dependencies"; "build"])
    ∧ Pipeline._generate_basic_pipeline
        (_generate_analysis ["package.json"; "index.js"] deps)
      = Pipeline._generate_basic_pipeline (PDict [("language", PStr "unknown")]).
Proof.
  apply (node_project_gets_defaults _ Fixtures.demo_project (PStr "main")
           ["package.json"; "index.js"] "{}").
  - intros f [<-|[<-|[<-|[]]]]; eexists; reflexivity.
  - reflexivity.
Defined.

End AnalysisMoreProps.

(** ** The code review *)

Module ReviewProps.
Import Str Dyn Agent Gitlab Store Tasks Main Review ReviewSpec OutcomeProps.

Lemma analysis_init_missing env now :
  unset (getenv env "GITLAB_URL") || unset (getenv env "GITLAB_TOKEN") = true →
  CodeAnalysisAgent_init env now
  = Raise (Exn ValueError "GitLab configuration is missing").
Proof. unfold CodeAnalysisAgent_init, gitlab_config. intros ->. reflexivity. Qed.

(** X19. The review task has no catch-all.  [review_code] always answers
    that the review is processing, because the agent is only built by
    the task.  With the GitLab configuration missing, where [/analyze]
    answers with a 500, the review task dies of the constructor's
    error; and when, after a successful analysis, GitLab fails the
    second project lookup or the listing of the tree, the task dies of
    that error.  In both cases nothing is stored for the operation. *)
Theorem review_task_can_die (w : world) (gl2 : api)
    (json_loads : string → outcome pyval) (json_dumps : pyval → string)
    (fl : floats) (rq : request_env) (repo_url : string)
    (branch focus_areas : pyval) :
  let task := run_review w gl2 json_loads json_dumps fl rq
                ("review_" ++ stamp rq) repo_url branch focus_areas in
  (∃ body, review_code w gl2 json_loads json_dumps fl rq repo_url branch
             focus_areas = (Ok body, Some task)
           ∧ py_subscript body "status" = Ret (PStr "processing")
           ∧ py_subscript body "review_id" = Ret (PStr ("review_" ++ stamp rq)))
  ∧ (unset (getenv (environ rq) "GITLAB_URL")
     || unset (getenv (environ rq) "GITLAB_TOKEN") = true →
     analyze_repository w rq repo_url branch
     = (HttpError 500 "GitLab configuration is missing", None)
     ∧ ∀ st, task st = Raise (Exn ValueError "GitLab configuration is missing"))
  ∧ (∀ agent v path e,
       CodeAnalysisAgent_init (environ rq) (now rq) = Ret agent →
       Analysis.execute_body (gl w)
         [("repo_url", PStr repo_url); ("branch", branch)] = Ret v →
       Analysis._extract_project_path (PStr repo_url) = Ret path →
       (projects_get gl2 path = Raise e
        ∨ ∃ p, projects_get gl2 path = Ret p
               ∧ repository_tree gl2 p branch = Raise e) →
       ∀ st, task st = Raise e).
Proof.
  intros task. split; [|split].
  - eexists. split; [reflexivity|]. split; reflexivity.
  - intros H. split.
    + unfold analyze_repository. rewrite (analysis_init_missing _ _ H).
      reflexivity.
    + intros st. unfold task, run_review.
      rewrite (analysis_init_missing _ _ H). reflexivity.
  - intros agent v path e Hagent Hv Hpath Hgl st.
    unfold task, run_review. rewrite Hagent. cbn [bind execute].
    unfold Analysis.execute. rewrite Hv. cbn [try_except bind].
    destruct (MainProps.analysis_success_data _ _ _ Hv) as (s & d & a & ->).
    cbn [_format_success py_subscript assoc_get String.eqb Ascii.eqb
         Bool.eqb bind is_error].
    rewrite Hpath. cbn [bind].
    destruct Hgl as [->|(p & -> & Ht)]; [reflexivity|].
    cbn [bind]. rewrite Ht. reflexivity.
Qed.

Lemma review_task_can_die_witness :
  analyze_repository Fixtures.demo_world (mkEnv ∅ 0 "20240101_120000")
    "https://gitlab.com/group/project" (PStr "main")
  = (HttpError 500 "GitLab configuration is missing", None)
  ∧ ∀ st, run_review Fixtures.demo_world Fixtures.demo_gitlab
            (fun _ => Ret (PDict [])) (fun _ => "[]") Binary64.binary64
            (mkEnv ∅ 0 "20240101_120000") "review_20240101_120000"
            "https://gitlab.com/group/project" (PStr "main") (PList []) st
          = Raise (Exn ValueError "GitLab configuration is missing").
Proof.
  apply (proj1 (proj2
          (review_task_can_die Fixtures.demo_world Fixtures.demo_gitlab
             (fun _ => Ret (PDict [])) (fun _ => "[]") Binary64.binary64
             (mkEnv ∅ 0 "20240101_120000")
             "https://gitlab.com/group/project" (PStr "main") (PList [])))).
  reflexivity.
Defined.





(** X21. Once the loop is reached, a review in which one request failed
    hard, or in which no file was reviewed, stores the mock review:
    one mock finding, the three fixed recommendations and the score 50,
    with the status "completed".  What the files before the failure
    contributed is not in the record. *)
Theorem review_stores_mock (w : world) (gl2 : api)
    (json_loads : string → outcome pyval) (json_dumps : pyval → string)
    (fl : floats) (rq : request_env) (operation_id repo_url : string)
    (branch focus_areas : pyval) (agent : GitlabAgent) (v : pyval)
    (path : string) (p : project) (items : list tree_item) :
  CodeAnalysisAgent_init (environ rq) (now rq) = Ret agent →
  Analysis.execute_body (gl w)
    [("repo_url", PStr repo_url); ("branch", branch)] = Ret v →
  Analysis._extract_project_path (PStr repo_url) = Ret path →
  projects_get gl2 path = Ret p →
  repository_tree gl2 p branch = Ret items →
  let rv := mkReviewer gl2 p branch focus_areas (chat w) (gl_base agent)
              json_loads fl in
  let s := review_files rv (List.firstn 5 (code_files items)) initial in
  openai_failed s = true ∨ files_reviewed s = 0%nat →
  ∀ st,
    run_review w gl2 json_loads json_dumps fl rq operation_id repo_url
      branch focus_areas st
    = Ret (set_operation operation_id
             (mock_record operation_id (openai_failed s)
                (openai_error_message s)) st).
Proof.
  intros Hagent Hv Hpath Hp Ht rv s Hs st.
  unfold run_review. rewrite Hagent. cbn [bind execute].
  unfold Analysis.execute. rewrite Hv. cbn [try_except bind].
  destruct (MainProps.analysis_success_data _ _ _ Hv) as (s1 & d & a & ->).
  cbn [_format_success py_subscript assoc_get String.eqb Ascii.eqb
       Bool.eqb bind is_error].
  rewrite Hpath. cbn [bind]. rewrite Hp. cbn [bind]. rewrite Ht. cbn [bind].
  fold rv. fold s.
  unfold review_record, mock_record.
  assert (Hc : openai_failed s || (files_reviewed s =? 0)%nat = true).
  { destruct Hs as [->| ->]; [reflexivity | apply orb_true_r]. }
  rewrite Hc. cbn [bind]. destruct (openai_failed s); reflexivity.
Qed.

Lemma review_stores_mock_witness :
  run_review ReviewFixtures.flaky_world ReviewFixtures.readable_gitlab
    ReviewFixtures.demo_json_loads (fun _ => "[]") Binary64.binary64
    ReviewFixtures.review_request "review_20240101_120000"
    "https://gitlab.com/group/project" (PStr "main")
    (PList [PStr "security"]) (Store Missing 0)
  = Ret (set_operation "review_20240101_120000"
           (mock_record "review_20240101_120000" true
              (Some "quota exceeded")) (Store Missing 0)).
Proof.
  eapply (review_stores_mock ReviewFixtures.flaky_world
            ReviewFixtures.readable_gitlab ReviewFixtures.demo_json_loads
            (fun _ => "[]") Binary64.binary64 ReviewFixtures.review_request
            "review_20240101_120000" "https://gitlab.com/group/project"
            (PStr "main") (PList [PStr "security"])
            (mkGitlabAgent
               (mkBaseAgent (Some "sk-test") "gpt-3.5-turbo" 0 1000000)
               "https://gitlab.com" "glpat-token")
            _ "group/project"
            Fixtures.demo_project
            [mkItem "src" "tree"; mkItem "src/app.py" "blob";
             mkItem "requirements.txt" "blob"]);
    [reflexivity | reflexivity | reflexivity | reflexivity | reflexivity |].
  left. reflexivity.
Defined.

(** In the example the first file is reviewed and contributes a
    finding; the second request fails and the record holds the mock
    finding only. *)
Example first_file_contributes :
  let s1 := fst (review_file ReviewFixtures.demo_reviewer
                   (mkItem "src/app.py" "blob") initial) in
  findings s1 = [PStr "Unused import"] ∧ files_reviewed s1 = 1%nat
  ∧ openai_failed s1 = false.
Proof. repeat split; reflexivity. Qed.





(** The floats of the example are Python's: a third and a tenth are the
    floats that [1 / 3] and [1 / 10] give; two integers that lie
    between two floats go to the one with the even significand; and
    there is no float for [10 ** 400]. *)
Example nearest_float_examples :
  Binary64.nearest_float (1 # 3)
  = Some (6004799503160661 # 18014398509481984)
  ∧ Binary64.nearest_float (1 # 10)
    = Some (3602879701896397 # 36028797018963968)
  ∧ Binary64.nearest_float (inject_Z (2 ^ 53 + 1)) = Some (inject_Z (2 ^ 53))
  ∧ Binary64.nearest_float (inject_Z (2 ^ 53 + 3))
    = Some (inject_Z (2 ^ 53 + 4))
  ∧ Binary64.nearest_float (inject_Z (10 ^ 400)) = None.
Proof. repeat split; vm_compute; reflexivity. Qed.

(** With two files that are each given the score [10 ** 400], every
    request succeeds and the division of the sum by two raises: the
    task ends with that error and stores nothing. *)
Example huge_scores_leave_no_record :
  run_review ReviewFixtures.steady_world ReviewFixtures.readable_gitlab
    ReviewFixtures.huge_json_loads (fun _ => "[]") Binary64.binary64
    ReviewFixtures.review_request "review_20240101_120000"
    "https://gitlab.com/group/project" (PStr "main")
    (PList [PStr "security"]) (Store Missing 0)
  = Raise (Exn OtherException
             "integer division result too large for a float").
Proof. vm_compute. reflexivity. Qed.

End ReviewProps.

(** ** The pacing of the completion requests *)

Module GatewayProps.
Import Agent Gateway.

Lemma serve_start chat g q :
  0 <= q_pause_lag q →
  ∃ c, log (serve chat g q) = (log g ++ [c])%list
       ∧ last_request_time (self g) + min_request_interval (self g)
         <= started c
       ∧ finished c = started c + q_duration q
       ∧ result c = _make_openai_request chat (self g) (q_prompt q)
                      (q_system_prompt q)
       ∧ self (serve chat g q)
         = (if succeeded c then set_last_request_time (self g) (finished c)
            else self g).
Proof.
  intros Hlag. eexists. split; [reflexivity|].
  cbn [started finished result]. split; [|split; [reflexivity|split]].
  - destruct (Z.ltb_spec (clock g - last_request_time (self g))
                (min_request_interval (self g))); lia.
  - reflexivity.
  - unfold serve, succeeded. cbn [self result].
    destruct (_make_openai_request chat (self g) (q_prompt q)
                (q_system_prompt q)); reflexivity.
Qed.

Lemma serve_paced chat m g q :
  sound q → paced m g → paced m (serve chat g q).
Proof.
  intros (Hlag & _ & _) (Hm & Hlast & Hpairs).
  destruct (serve_start chat g q Hlag) as (c & Hlog & Hstart & Hfin & Hres & Hself).
  unfold paced. rewrite Hlog, Hself. split; [|split].
  - destruct (succeeded c); exact Hm.
  - intros c' Hc' Hs. rewrite last_snoc in Hc'. injection Hc' as <-.
    rewrite Hs. reflexivity.
  - intros i c1 c2 H1 H2 Hs.
    assert (Hi : (S i < length (log g ++ [c]))%nat)
      by (apply lookup_lt_is_Some; eauto).
    rewrite length_app in Hi. cbn [length] in Hi.
    destruct (decide (S i < length (log g))%nat) as [Hlt|Hge].
    + rewrite lookup_app_l in H1 by lia. rewrite lookup_app_l in H2 by lia.
      eapply Hpairs; eauto.
    + assert (Hlen : S i = length (log g)) by lia.
      rewrite lookup_app_l in H1 by lia.
      rewrite lookup_app_r in H2 by lia.
      replace (S i - length (log g))%nat with 0%nat in H2 by lia.
      injection H2 as <-.
      assert (Hl : last (log g) = Some c1).
      { rewrite last_lookup. rewrite <- Hlen. exact H1. }
      rewrite <- (Hlast c1 Hl Hs), <- Hm. exact Hstart.
Qed.

Lemma run_paced chat m qs : ∀ g,
  Forall sound qs → paced m g → paced m (run chat qs g).
Proof.
  induction qs as [|q qs IH]; intros g Hqs Hg; [exact Hg|].
  inversion Hqs; subst. cbn [run fold_left]. apply IH; [assumption|].
  apply serve_paced; assumption.
Qed.

(** X23. A request that follows a successful one is entered no earlier than
    the minimum interval after the successful one was left, however
    long the requests take and whatever the sleeps overrun: the loop
    pauses for what is missing of the interval since the time stamp, and
    a success sets the time stamp. *)
Theorem requests_spaced_after_success
    (chat : string → list (string * string) → outcome string)
    (a : BaseAgent) (t0 : Z) (qs : list queued) (i : nat) (c1 c2 : request) :
  Forall sound qs →
  log (run chat qs (mkGateway a t0 [])) !! i = Some c1 →
  log (run chat qs (mkGateway a t0 [])) !! S i = Some c2 →
  succeeded c1 = true →
  finished c1 + min_request_interval a <= started c2.
Proof.
  intros Hqs H1 H2 Hs.
  assert (Hp : paced (min_request_interval a) (mkGateway a t0 [])).
  { split; [reflexivity|]. split.
    - intros c Hc. discriminate Hc.
    - intros j d1 d2 Hd. discriminate Hd. }
  destruct (run_paced chat _ qs _ Hqs Hp) as (_ & _ & Hpairs).
  eapply Hpairs; eauto.
Qed.

Lemma requests_spaced_after_success_witness :
  finished (mkRequest 1000000 1200000 (Ret "ok"))
  + min_request_interval paced_agent
  <= started (mkRequest 2200000 2400000 (Ret "ok")).
Proof.
  apply (requests_spaced_after_success moody_chat paced_agent 0
           [mkQueued "first" None 0 200000 0; mkQueued "second" None 0 200000 0]
           0%nat);
    [ repeat constructor; cbn; lia | reflexivity | reflexivity | reflexivity ].
Defined.

(** X24. A request that fails leaves the time stamp alone, so the request
    after it is paced against the last success only.  When the interval
    since the time stamp has already passed, the next request is entered
    without a pause, the sleep of a tenth of a second that ends the turn
    apart: the two requests are entered one tenth of a second, the
    duration of the failed request and the overrun of that sleep apart,
    which can be less than the minimum interval. *)
Theorem failure_is_not_paced
    (chat : string → list (string * string) → outcome string)
    (g : gateway) (q1 q2 : queued) (e : exn) :
  sound q1 →
  last_request_time (self g) + min_request_interval (self g) <= clock g →
  _make_openai_request chat (self g) (q_prompt q1) (q_system_prompt q1)
  = Raise e →
  ∃ c1 c2,
    log (run chat [q1; q2] g) = (log g ++ [c1; c2])%list
    ∧ result c1 = Raise e
    ∧ started c2 - started c1 = q_duration q1 + poll_interval + q_poll_lag q1.
Proof.
  intros (_ & Hd & Hp) Hclock Hfail.
  cbn [run fold_left]. unfold serve at 2. rewrite Hfail.
  replace (clock g - last_request_time (self g) <? min_request_interval (self g))
    with false by (symmetry; apply Z.ltb_ge; lia).
  unfold serve. cbn [self clock log].
  replace (clock g + q_duration q1 + poll_interval + q_poll_lag q1
           - last_request_time (self g) <? min_request_interval (self g))
    with false by (symmetry; apply Z.ltb_ge; unfold poll_interval; lia).
  eexists _, _. split; [rewrite <- app_assoc; reflexivity|].
  cbn [result started]. split; [reflexivity | lia].
Qed.

Lemma failure_is_not_paced_witness :
  ∃ c1 c2,
    log (run moody_chat
           [mkQueued "fail" None 0 0 0; mkQueued "next" None 0 200000 0]
           (mkGateway paced_agent 5000000 []))
    = ([] ++ [c1; c2])%list
    ∧ result c1 = Raise (Exn OtherException "rate limit exceeded")
    ∧ started c2 - started c1 = 0 + poll_interval + 0.
Proof.
  apply (failure_is_not_paced moody_chat (mkGateway paced_agent 5000000 [])
           (mkQueued "fail" None 0 0 0) (mkQueued "next" None 0 200000 0)).
  - repeat split; cbn; lia.
  - cbn. lia.
  - reflexivity.
Defined.

End GatewayProps.

(** ** The cloud set-up of the deploy task *)

Module CloudProps.
Import Str Agent Dyn Gitlab Records Deployment CloudNames.

(** X25. With the cloud set-up requested and the pipeline file written, the
    deployment looks the Artifact Registry repository and the Cloud Run
    service of the project up by name and creates only what it does not
    find.  When both exist nothing is created, and the record names
    them, under the message that resources were created.  When the
    repository is neither found nor created, the task returns the error
    of the creation, although the pipeline file has been written. *)
Theorem deploy_cloud_get_or_create (gl : api) (cloud : cloud_api)
    (self : DeploymentAgent) (context : list (string * pyval))
    (y repo_url : pyval) (ppath : string) (p : project) :
  assoc_get "pipeline_yaml" context = Some y →
  truthy y = true →
  assoc_get "repo_url" context = Some repo_url →
  Validation._extract_project_path repo_url = Ret ppath →
  projects_get gl ppath = Ret p →
  wants_cloud context = true →
  ci_file_update gl p y = Ret tt →
  (∀ repo service,
     get_repository cloud (repository_name self p) = Ret repo →
     get_service cloud (service_name self p) = Ret service →
     execute gl cloud self context = Ret (cloud_record p repo service))
  ∧ (∀ e1 e2,
       get_repository cloud (repository_name self p) = Raise e1 →
       create_repository cloud (parent_of self) (path p) = Raise e2 →
       execute gl cloud self context
       = Ret (PDict [("status", PStr "error");
                     ("message",
                      PStr ("Error setting up Google Cloud resources: "
                            ++ exn_str e2));
                     ("data", PNone)])).
Proof.
  intros Hy Ht Hu Hpath Hp Hc Hw. unfold wants_cloud in Hc.
  unfold execute, execute_body. rewrite Hy, Hu, Hc.
  cbn [default from_option id]. rewrite Ht. cbn [negb].
  rewrite Hpath. cbn [bind]. rewrite Hp. cbn [bind].
  unfold _deploy_pipeline. rewrite Hw. cbn [try_except bind].
  unfold _setup_cloud_resources.
  fold (parent_of self). fold (repository_name self p).
  fold (service_name self p). split.
  - intros repo service -> ->. reflexivity.
  - intros e1 e2 -> ->. reflexivity.
Qed.

Lemma deploy_cloud_get_or_create_witness :
  execute Fixtures.demo_gitlab provisioned_cloud demo_deployer
    [("pipeline_yaml", PStr "stages: [build]");
     ("repo_url", PStr "https://gitlab.com/group/project");
     ("deploy_to_cloud", PBool true)]
  = Ret (cloud_record Fixtures.demo_project
           (repository_name demo_deployer Fixtures.demo_project)
           (service_name demo_deployer Fixtures.demo_project)).
Proof.
  apply (proj1
           (deploy_cloud_get_or_create Fixtures.demo_gitlab provisioned_cloud
              demo_deployer
              [("pipeline_yaml", PStr "stages: [build]");
               ("repo_url", PStr "https://gitlab.com/group/project");
               ("deploy_to_cloud", PBool true)]
              (PStr "stages: [build]")
              (PStr "https://gitlab.com/group/project") "group/project"
              Fixtures.demo_project eq_refl eq_refl eq_refl eq_refl eq_refl
              eq_refl eq_refl));
    reflexivity.
Defined.

End CloudProps.

(** ** Operation ids; the status of a review; the template task *)

Module LifecycleProps.
Import Store Agent Dyn Tasks Main Review Kinds OutcomeProps.

Lemma operation_id_kind rq r :
  operation_id_of rq r = kind_of r ++ "_" ++ stamp rq.
Proof. destruct r; reflexivity. Qed.

Lemma set_twice operation_id r1 r2 st :
  file (set_operation operation_id r2 (set_operation operation_id r1 st))
  = file (set_operation operation_id r2 st).
Proof.
  unfold set_operation, _write_operations. cbn [file].
  unfold _read_operations at 1. cbn [file]. f_equal. apply insert_insert_eq.
Qed.

(** X26. Operation ids are the kind of the operation and the second in
    which it was started.  Two operations of the same kind started in
    the same second share their id: once both tasks have run, the file
    is as if only the second had, and the status endpoint returns the
    result of the second for that id, to both clients. *)
Theorem same_second_same_id (w1 w2 : world) (rq1 rq2 : request_env)
    (r1 r2 : start_request) (resp1 resp2 : response)
    (task1 task2 : background) :
  kind_of r1 = kind_of r2 →
  stamp rq1 = stamp rq2 →
  start w1 rq1 r1 = (resp1, Some task1) →
  start w2 rq2 r2 = (resp2, Some task2) →
  operation_id_of rq1 r1 = operation_id_of rq2 r2
  ∧ ∃ result2, ∀ st,
      ∃ st1 st2,
        task1 st = Ret st1 ∧ task2 st1 = Ret st2
        ∧ file st2 = file (set_operation (operation_id_of rq2 r2) result2 st)
        ∧ get_operation_status (operation_id_of rq1 r1) st2 = Ok result2.
Proof.
  intros Hk Hs H1 H2.
  assert (Hid : operation_id_of rq1 r1 = operation_id_of rq2 r2).
  { rewrite !operation_id_kind, Hk, Hs. reflexivity. }
  split; [exact Hid|].
  apply MainProps.started_task in H1.
  destruct H1 as (b1 & a1 & c1 & _ & _ & _ & Ht1).
  apply MainProps.started_task in H2.
  destruct H2 as (b2 & a2 & c2 & _ & _ & _ & Ht2).
  destruct (MainProps.task_of_execute w1 a1 c1 _ task1 Ht1)
    as (res1 & _ & E1).
  destruct (MainProps.task_of_execute w2 a2 c2 _ task2 Ht2)
    as (res2 & Hsh2 & E2).
  exists res2. intros st.
  exists (set_operation (operation_id_of rq1 r1) res1 st),
    (set_operation (operation_id_of rq2 r2) res2
       (set_operation (operation_id_of rq1 r1) res1 st)).
  split; [apply E1|]. split; [apply E2|]. rewrite Hid. split.
  - apply set_twice.
  - apply MainProps.status_of_written, MainProps.shape_truthy, Hsh2.
Qed.

Lemma same_second_same_id_witness :
  ∃ resp1 resp2 task1 task2,
    start Fixtures.offline_world Fixtures.demo_request
      (Validate "stages: [build]" "https://gitlab.com/group/project")
    = (resp1, Some task1)
    ∧ start Fixtures.demo_world Fixtures.demo_request
        (Validate "stages: [test]" "https://gitlab.com/group/project")
      = (resp2, Some task2)
    ∧ operation_id_of Fixtures.demo_request
        (Validate "stages: [build]" "https://gitlab.com/group/project")
      = operation_id_of Fixtures.demo_request
          (Validate "stages: [test]" "https://gitlab.com/group/project")
    ∧ ∃ result2, ∀ st,
        ∃ st1 st2,
          task1 st = Ret st1 ∧ task2 st1 = Ret st2
          ∧ file st2
            = file (set_operation
                      (operation_id_of Fixtures.demo_request
                         (Validate "stages: [test]"
                            "https://gitlab.com/group/project")) result2 st)
          ∧ get_operation_status
              (operation_id_of Fixtures.demo_request
                 (Validate "stages: [build]"
                    "https://gitlab.com/group/project")) st2
            = Ok result2.
Proof.
  eexists _, _, _, _. split; [reflexivity|]. split; [reflexivity|].
  eapply (same_second_same_id Fixtures.offline_world Fixtures.demo_world
            Fixtures.demo_request Fixtures.demo_request
            (Validate "stages: [build]" "https://gitlab.com/group/project")
            (Validate "stages: [test]" "https://gitlab.com/group/project"));
    reflexivity.
Defined.

(** X27. A review task that comes to its end stores one record under the
    id of the review, with the status "completed", or "error" when the
    analysis failed, never "processing"; the status endpoint returns
    that record from then on. *)
Theorem review_status (w : world) (gl2 : Gitlab.api)
    (json_loads : string → outcome pyval) (json_dumps : pyval → string)
    (fl : Review.floats) (rq : request_env) (operation_id repo_url : string)
    (branch focus_areas : pyval) (st st' : store) :
  run_review w gl2 json_loads json_dumps fl rq operation_id repo_url branch
    focus_areas st = Ret st' →
  ∃ record status,
    st' = set_operation operation_id record st
    ∧ py_subscript record "review_id" = Ret (PStr operation_id)
    ∧ py_subscript record "status" = Ret (PStr status)
    ∧ (status = "completed" ∨ status = "error")
    ∧ get_operation_status operation_id st' = Ok record.
Proof.
  unfold run_review. intros H.
  apply bind_ret in H. destruct H as (agent & _ & H).
  apply bind_ret in H. destruct H as (result & _ & H).
  apply bind_ret in H. destruct H as (status & _ & H).
  destruct (is_error status).
  - apply bind_ret in H. destruct H as (message & _ & H).
    injection H as <-. eexists _, "error". split; [reflexivity|].
    repeat split; auto.
    apply MainProps.status_of_written. reflexivity.
  - apply bind_ret in H. destruct H as (path & _ & H).
    apply bind_ret in H. destruct H as (p & _ & H).
    apply bind_ret in H. destruct H as (files & _ & H).
    apply bind_ret in H. destruct H as (record & Hrecord & H).
    injection H as <-. exists record, "completed". split; [reflexivity|].
    unfold review_record in Hrecord.
    apply bind_ret in Hrecord.
    destruct Hrecord as ([[[fs rs] score] summary] & _ & Hrecord).
    injection Hrecord as <-.
    repeat split; auto.
    apply MainProps.status_of_written. reflexivity.
Qed.

Lemma review_status_witness :
  ∃ record status,
    set_operation "review_20240101_120000"
      (ReviewSpec.mock_record "review_20240101_120000" true
         (Some "quota exceeded")) (Store Missing 0)
    = set_operation "review_20240101_120000" record (Store Missing 0)
    ∧ py_subscript record "review_id" = Ret (PStr "review_20240101_120000")
    ∧ py_subscript record "status" = Ret (PStr status)
    ∧ (status = "completed" ∨ status = "error")
    ∧ get_operation_status "review_20240101_120000"
        (set_operation "review_20240101_120000"
           (ReviewSpec.mock_record "review_20240101_120000" true
              (Some "quota exceeded")) (Store Missing 0))
      = Ok record.
Proof.
  apply (review_status ReviewFixtures.flaky_world
           ReviewFixtures.readable_gitlab ReviewFixtures.demo_json_loads
           (fun _ => "[]") Binary64.binary64 ReviewFixtures.review_request
           "review_20240101_120000" "https://gitlab.com/group/project"
           (PStr "main") (PList [PStr "security"]) (Store Missing 0)).
  reflexivity.
Defined.

End LifecycleProps.

Module TemplateProps.
Import Agent Dyn Kinds Pipeline.

(** X28. The template task fails in three ways only: without an analysis,
    or with an empty one; with an analysis that is no dict; and with a
    language that cannot be a dict key.  For every other analysis,
    whatever its language is, a string the tables know, another string,
    a number or [None], it returns a pipeline. *)
Theorem template_outcomes (context : list (string * pyval)) :
  let analysis := default (PDict []) (assoc_get "analysis" context) in
  (truthy analysis = false →
   execute context = Ret (_format_error
                            (Exn ValueError "Repository analysis is required")))
  ∧ (∀ d, analysis = PDict d → d ≠ [] →
          let language := default (PStr "unknown") (assoc_get "language" d) in
          (hashable language = true →
           ∃ yaml, execute context
                   = Ret (_format_success "Pipeline generation completed"
                            (PDict [("pipeline_yaml", PStr yaml)])))
          ∧ (hashable language = false →
             execute context
             = Ret (_format_error
                      (Exn TypeError ("unhashable type: '"
                                      ++ type_name language ++ "'")))))
  ∧ (truthy analysis = true → (∀ d, analysis ≠ PDict d) →
     execute context
     = Ret (_format_error
              (Exn AttributeError (no_attribute analysis "get")))).
Proof.
  intros analysis. split; [|split].
  - intros H. unfold execute, execute_body. fold analysis. rewrite H.
    reflexivity.
  - intros d Hd Hne language.
    assert (Hbody : execute_body context
                    = (pipeline_yaml <- _generate_basic_pipeline (PDict d) ;;
                       Ret (_format_success "Pipeline generation completed"
                              (PDict [("pipeline_yaml", PStr pipeline_yaml)])))).
    { unfold execute_body. fold analysis. rewrite Hd.
      destruct d as [|kv d]; [congruence|]. reflexivity. }
    unfold execute. rewrite Hbody.
    unfold _generate_basic_pipeline. cbn [py_get bind]. fold language.
    unfold _get_language_image, _get_build_commands, _get_test_commands.
    split; intros Hh.
    + destruct language; try discriminate Hh; cbn [table_get bind try_except];
        eexists; reflexivity.
    + destruct language; try discriminate Hh; reflexivity.
  - intros Ht Hnd. unfold execute, execute_body. fold analysis. rewrite Ht.
    cbn [negb].
    destruct analysis; try reflexivity. exfalso. eapply Hnd. reflexivity.
Qed.

Lemma template_outcomes_witness :
  ∃ yaml,
    execute [("analysis", PDict [("language", PStr "Python")])]
    = Ret (_format_success "Pipeline generation completed"
             (PDict [("pipeline_yaml", PStr yaml)])).
Proof.
  apply (proj1 (proj1 (proj2
           (template_outcomes [("analysis", PDict [("language", PStr "Python")])]))
           [("language", PStr "Python")] eq_refl ltac:(discriminate))).
  reflexivity.
Defined.

End TemplateProps.

(** ** The language detection, on every file list *)

Module LanguageProps.
Import Str Analysis LanguageSpec.

Lemma count_extensions_tally files :
  count_extensions files = tally (List.map extension files).
Proof.
  unfold count_extensions, tally. generalize (@nil (string * Z)).
  induction files as [|f files IH]; intros acc; [reflexivity|].
  cbn [fold_left List.map]. rewrite IH. reflexivity.
Qed.

Lemma tally_snoc es e : tally (es ++ [e]) = bump (tally es) e.
Proof. unfold tally. rewrite fold_left_app. reflexivity. Qed.

Lemma assoc_get_set {A} k k' (v : A) d :
  assoc_get k (assoc_set k' v d)
  = if String.eqb k k' then Some v else assoc_get k d.
Proof.
  induction d as [|[k0 v0] d IH]; cbn [assoc_set assoc_get].
  - reflexivity.
  - destruct (String.eqb_spec k' k0) as [->|Hne]; cbn [assoc_get].
    + destruct (String.eqb k k0); reflexivity.
    + rewrite IH. destruct (String.eqb_spec k k0) as [->|Hne2];
        [|reflexivity].
      destruct (String.eqb_spec k0 k') as [E|_]; [congruence | reflexivity].
Qed.

Lemma assoc_get_none {A} k (d : list (string * A)) :
  assoc_get k d = None ↔ ¬ In k (List.map fst d).
Proof.
  induction d as [|[k0 v0] d IH]; cbn [assoc_get List.map In fst].
  - tauto.
  - destruct (String.eqb_spec k k0) as [->|Hne].
    + split; [discriminate | tauto].
    + rewrite IH. split; [intros H [E|H']; [congruence | tauto] | tauto].
Qed.

Lemma assoc_get_in {A} k (v : A) d : assoc_get k d = Some v → In (k, v) d.
Proof.
  induction d as [|[k0 v0] d IH]; cbn [assoc_get]; [discriminate|].
  destruct (String.eqb_spec k k0) as [->|Hne].
  - intros [= ->]. left. reflexivity.
  - intros H. right. apply IH, H.
Qed.

Lemma in_assoc_get {A} k (v : A) d :
  List.NoDup (List.map fst d) → In (k, v) d → assoc_get k d = Some v.
Proof.
  induction d as [|[k0 v0] d IH]; cbn [assoc_get List.map fst];
    intros Hnd Hin; [destruct Hin|].
  inversion Hnd as [|? ? Hnotin Hnd']; subst.
  destruct Hin as [[= -> ->]|Hin].
  - rewrite String.eqb_refl. reflexivity.
  - destruct (String.eqb_spec k k0) as [->|Hne]; [|apply IH; assumption].
    exfalso. apply Hnotin. apply (in_map fst) in Hin. exact Hin.
Qed.

Lemma keys_set {A} k (v : A) d :
  List.map fst (assoc_set k v d)
  = match assoc_get k d with
    | Some _ => List.map fst d
    | None => (List.map fst d ++ [k])%list
    end.
Proof.
  induction d as [|[k0 v0] d IH]; cbn [assoc_set assoc_get List.map fst app];
    [reflexivity|].
  destruct (String.eqb_spec k k0) as [->|Hne]; cbn [List.map fst].
  - reflexivity.
  - rewrite IH. destruct (assoc_get k d); reflexivity.
Qed.

Lemma count_snoc es x e :
  List.count_occ String.string_dec (es ++ [x]) e
  = (List.count_occ String.string_dec es e
     + if String.eqb x e then 1 else 0)%nat.
Proof.
  rewrite count_occ_app. cbn [List.count_occ].
  destruct (String.string_dec x e) as [->|Hne].
  - rewrite String.eqb_refl. reflexivity.
  - destruct (String.eqb_spec x e); [congruence | reflexivity].
Qed.

(** The loop counts: the entry of an extension is the number of its
    occurrences, and an extension that does not occur has no entry. *)
Lemma tally_get es : ∀ e,
  assoc_get e (tally es)
  = if (List.count_occ String.string_dec es e =? 0)%nat then None
    else Some (Z.of_nat (List.count_occ String.string_dec es e)).
Proof.
  induction es as [|x es IH] using rev_ind; intros e; [reflexivity|].
  rewrite tally_snoc. unfold bump. rewrite assoc_get_set, count_snoc.
  destruct (String.eqb_spec e x) as [->|Hne].
  - rewrite String.eqb_refl, IH.
    destruct (Nat.eqb_spec (List.count_occ String.string_dec es x) 0) as [E|E].
    + rewrite E. reflexivity.
    + cbn [default from_option id].
      destruct (Nat.eqb_spec (List.count_occ String.string_dec es x + 1) 0);
        [lia|]. f_equal. lia.
  - destruct (String.eqb_spec x e) as [E|_]; [congruence|].
    rewrite Nat.add_0_r. apply IH.
Qed.

Lemma tally_nodup es : List.NoDup (List.map fst (tally es)).
Proof.
  induction es as [|x es IH] using rev_ind; [constructor|].
  rewrite tally_snoc. unfold bump. rewrite keys_set.
  destruct (assoc_get x (tally es)) eqn:E; [exact IH|].
  apply assoc_get_none in E. apply NoDup_app_remove_l with (l := []).
  cbn [app]. apply List.NoDup_app; [exact IH | repeat constructor; tauto |].
  intros y Hy [<-|[]]. tauto.
Qed.

Lemma count_pos_in es e :
  (List.count_occ String.string_dec es e =? 0)%nat = false ↔ In e es.
Proof.
  rewrite Nat.eqb_neq. rewrite (count_occ_In String.string_dec). lia.
Qed.

Lemma key_in_list es k : In k (List.map fst (tally es)) ↔ In k es.
Proof.
  rewrite <- (count_pos_in es k). pose proof (tally_get es k) as H.
  pose proof (assoc_get_none k (tally es)) as Hn.
  destruct (List.count_occ String.string_dec es k =? 0)%nat.
  - split; [|intros E; discriminate E]. intros Hin. exfalso.
    apply (proj1 Hn H). exact Hin.
  - split; [reflexivity|]. intros _.
    destruct (in_dec String.string_dec k (List.map fst (tally es))) as [Hi|Hni];
      [exact Hi|]. apply Hn in Hni. congruence.
Qed.

Lemma tally_order es : first_seen_order es (List.map fst (tally es)).
Proof.
  induction es as [|x es IH] using rev_ind.
  - intros pre y post H. destruct pre; discriminate H.
  - rewrite tally_snoc. unfold bump. rewrite keys_set.
    destruct (assoc_get x (tally es)) eqn:E.
    + intros pre k post Hk y Hy.
      destruct (IH pre k post Hk y Hy) as (a & b & -> & Hn).
      exists a, (b ++ [x])%list. split; [|exact Hn].
      rewrite <- app_assoc. reflexivity.
    + apply assoc_get_none in E.
      intros pre k post Hk y Hy.
      assert (Hpost : post = [] ∨ ∃ post0 p, post = (post0 ++ [p])%list).
      { clear. induction post using rev_ind; [left; reflexivity | right; eauto]. }
      destruct Hpost as [->|(post0 & p & ->)]; [destruct Hy|].
      rename post0 into post.
      rewrite app_comm_cons, app_assoc in Hk.
      apply app_inj_tail in Hk. destruct Hk as [Hk <-].
      apply in_app_or in Hy. destruct Hy as [Hy|[<-|[]]].
      * destruct (IH pre k post Hk y Hy) as (a & b & -> & Hn).
        exists a, (b ++ [x])%list. split; [|exact Hn].
        rewrite <- app_assoc. reflexivity.
      * assert (Hin : In k es).
        { apply key_in_list. rewrite Hk. apply in_or_app. right. left.
          reflexivity. }
        apply in_split in Hin. destruct Hin as (a & b & ->).
        exists a, (b ++ [x])%list. split.
        -- rewrite <- app_assoc. reflexivity.
        -- intros Hp. apply E. apply key_in_list. apply in_or_app. left.
           exact Hp.
Qed.

(** [max] returns the first of the items with the largest count. *)
Lemma max_by_count_first items : ∀ best,
  ∃ pre post,
    (best :: items = pre ++ max_by_count best items :: post)%list
    ∧ (∀ x, In x pre → snd x < snd (max_by_count best items))
    ∧ (∀ x, In x post → snd x <= snd (max_by_count best items)).
Proof.
  induction items as [|item items IH]; intros best.
  - exists [], []. cbn. repeat split; intros x [].
  - cbn [max_by_count]. destruct (Z.ltb_spec (snd best) (snd item)) as [Hlt|Hge].
    + destruct (IH item) as (pre & post & Heq & Hpre & Hpost).
      exists (best :: pre), post. split; [cbn; rewrite Heq; reflexivity|].
      split; [|exact Hpost]. intros x [<-|Hx]; [|apply Hpre, Hx].
      assert (Hi : snd item <= snd (max_by_count item items)).
      { destruct pre as [|p pre].
        - cbn in Heq. injection Heq as Heq _. rewrite <- Heq. lia.
        - cbn in Heq. injection Heq as <- _.
          specialize (Hpre item (or_introl eq_refl)). lia. }
      lia.
    + destruct (IH best) as (pre & post & Heq & Hpre & Hpost).
      destruct pre as [|p pre].
      * cbn in Heq. injection Heq as Hb Hitems.
        exists [], (item :: post).
        split; [cbn [app]; rewrite <- Hb; f_equal; f_equal; exact Hitems|].
        split; [intros x []|]. rewrite <- Hb.
        intros x [<-|Hx]; [lia|]. specialize (Hpost x Hx).
        rewrite <- Hb in Hpost. exact Hpost.
      * cbn in Heq. injection Heq as -> Hitems.
        exists (p :: item :: pre), post.
        split; [cbn [app]; f_equal; f_equal; exact Hitems|].
        split; [|exact Hpost].
        intros x [<-|[<-|Hx]].
        -- apply Hpre. left. reflexivity.
        -- specialize (Hpre p (or_introl eq_refl)). lia.
        -- apply Hpre. right. exact Hx.
Qed.

Lemma first_occurrence (e : string) es :
  In e es → ∃ a b, es = (a ++ e :: b)%list ∧ ¬ In e a.
Proof.
  induction es as [|x es IH]; [intros []|].
  destruct (String.string_dec x e) as [->|Hne].
  - intros _. exists [], es. split; [reflexivity | intros []].
  - intros [E|Hin]; [congruence|].
    destruct (IH Hin) as (a & b & -> & Hn).
    exists (x :: a), b. split; [reflexivity|].
    intros [E|H]; [congruence | tauto].
Qed.

Lemma before_first (e : string) a b : ∀ a' b',
  (a ++ e :: b = a' ++ e :: b')%list → ¬ In e a → ∀ y, In y a → In y a'.
Proof.
  induction a as [|x a IH]; intros a' b' Heq Hn y Hy; [destruct Hy|].
  destruct a' as [|x' a'].
  - cbn in Heq. injection Heq as -> _. exfalso. apply Hn. left. reflexivity.
  - cbn in Heq. injection Heq as <- Heq.
    destruct Hy as [<-|Hy]; [left; reflexivity|]. right.
    eapply IH; eauto. intros H. apply Hn. right. exact H.
Qed.

(** The extension that wins, for a list of extensions that is not
    empty: it has the largest number of occurrences, and every
    extension seen before its first occurrence has fewer. *)
Lemma tally_winner es :
  es ≠ [] →
  ∃ item items a e b,
    tally es = item :: items
    ∧ fst (max_by_count item items) = e
    ∧ es = (a ++ e :: b)%list ∧ ¬ In e a
    ∧ (∀ e', (List.count_occ String.string_dec es e'
              <= List.count_occ String.string_dec es e)%nat)
    ∧ (∀ e', In e' a →
             (List.count_occ String.string_dec es e'
              < List.count_occ String.string_dec es e)%nat).
Proof.
  intros Hne.
  destruct (tally es) as [|item items] eqn:Ht.
  { exfalso. destruct es as [|x es]; [congruence|].
    assert (Hin : In x (List.map fst (tally (x :: es))))
      by (apply key_in_list; left; reflexivity).
    rewrite Ht in Hin. destruct Hin. }
  destruct (max_by_count_first items item) as (pre & post & Heq & Hpre & Hpost).
  set (w := max_by_count item items) in *.
  assert (Hentry : ∀ k v, In (k, v) (tally es) →
            v = Z.of_nat (List.count_occ String.string_dec es k)
            ∧ List.count_occ String.string_dec es k ≠ 0%nat).
  { intros k v Hin. apply in_assoc_get in Hin; [|apply tally_nodup].
    rewrite tally_get in Hin.
    destruct (Nat.eqb_spec (List.count_occ String.string_dec es k) 0);
      [discriminate|]. injection Hin as <-. auto. }
  assert (Hw : In w (tally es)).
  { rewrite Ht, Heq. apply in_or_app. right. left. reflexivity. }
  destruct w as [e c] eqn:Ew. destruct (Hentry e c Hw) as (Hc & Hpos).
  assert (Hmax : ∀ k v, In (k, v) (tally es) → v <= c).
  { intros k v Hin. rewrite Ht, Heq in Hin.
    apply in_app_or in Hin. destruct Hin as [Hin|[E|Hin]].
    - specialize (Hpre _ Hin). cbn in Hpre. lia.
    - injection E as _ <-. lia.
    - specialize (Hpost _ Hin). cbn in Hpost. lia. }
  assert (Hcount : ∀ e', (List.count_occ String.string_dec es e'
                          <= List.count_occ String.string_dec es e)%nat).
  { intros e'. pose proof (tally_get es e') as Hg.
    destruct (Nat.eqb_spec (List.count_occ String.string_dec es e') 0) as [E|E];
      [lia|]. apply assoc_get_in in Hg. specialize (Hmax _ _ Hg). lia. }
  assert (Hin : In e es) by (apply count_pos_in, Nat.eqb_neq, Hpos).
  destruct (first_occurrence e es Hin) as (a & b & Hes & Hna).
  exists item, items, a, e, b. split; [reflexivity|].
  split; [change (fst w = e); rewrite Ew; reflexivity|].
  split; [exact Hes|]. split; [exact Hna|].
  split; [exact Hcount|].
  intros e' He'.
  assert (He'in : In e' es) by (rewrite Hes; apply in_or_app; left; exact He').
  assert (Hnee : e' ≠ e) by (intros ->; tauto).
  pose proof (tally_get es e') as Hg.
  destruct (Nat.eqb_spec (List.count_occ String.string_dec es e') 0) as [E|E].
  { apply (count_occ_not_In String.string_dec) in E. tauto. }
  apply assoc_get_in in Hg. rewrite Ht, Heq in Hg.
  apply in_app_or in Hg. destruct Hg as [Hg|[Eq|Hg]].
  - specialize (Hpre _ Hg). cbn in Hpre. lia.
  - injection Eq as Eq _. congruence.
  - exfalso.
    assert (Hkeys : List.map fst (tally es)
                    = (List.map fst pre ++ e :: List.map fst post)%list).
    { rewrite Ht, Heq, map_app. reflexivity. }
    destruct (tally_order es _ _ _ Hkeys e') as (a' & b' & Hes' & Hn').
    { apply (in_map fst) in Hg. exact Hg. }
    apply Hn'. eapply (before_first e a b a' b'); eauto. congruence.
Qed.

Lemma first_manifest_none fetch files :
  (∀ f, In f files → ∃ e, fetch f = Raise e) →
  first_manifest fetch files = None.
Proof.
  induction files as [|f files IH]; intros H; [reflexivity|].
  cbn [first_manifest]. destruct (H f (or_introl eq_refl)) as (e & ->).
  apply IH. intros g Hg. apply H. right. exact Hg.
Qed.

Lemma first_manifest_some fetch files f c :
  In f files → fetch f = Ret c → ∃ c', first_manifest fetch files = Some c'.
Proof.
  induction files as [|g files IH]; [intros []|]. cbn [first_manifest].
  intros [->|Hin] Hf.
  - rewrite Hf. eauto.
  - destruct (fetch g); eauto.
Qed.

Lemma first_ecosystem fetch before lang fs after f c :
  In f fs → fetch f = Ret c →
  (∀ l gs g, In (l, gs) before → In g gs → ∃ e, fetch g = Raise e) →
  spec_manifest_language fetch (before ++ (lang, fs) :: after) = Some lang.
Proof.
  intros Hf Hc. induction before as [|[l gs] before IH]; intros Hb.
  - cbn [app spec_manifest_language].
    destruct (first_manifest_some fetch fs f c Hf Hc) as (c' & ->). reflexivity.
  - cbn [app spec_manifest_language].
    rewrite first_manifest_none.
    + apply IH. intros l' gs' g Hin Hg.
      apply (Hb l' gs' g); [right; exact Hin | exact Hg].
    + intros g Hg. apply (Hb l gs g); [left; reflexivity | exact Hg].
Qed.

Lemma no_manifest_none fetch table :
  no_manifest fetch table → scan_dependencies fetch table [] = [].
Proof.
  induction table as [|[l gs] table IH]; intros H; [reflexivity|].
  cbn [scan_dependencies]. rewrite first_manifest_none.
  - apply IH. intros l' gs' g Hin Hg.
    apply (H l' gs' g); [right; exact Hin | exact Hg].
  - intros g Hg. apply (H l gs g); [left; reflexivity | exact Hg].
Qed.

Lemma detect_without_manifest files :
  _detect_language files []
  = match tally (List.map extension files) with
    | [] => "unknown"
    | item :: items =>
        default "unknown"
          (assoc_get (fst (max_by_count item items)) ext_to_lang)
    end.
Proof. unfold _detect_language. rewrite count_extensions_tally. reflexivity. Qed.

(** Without a manifest: the earliest of the most frequent extensions
    is looked up in the table. *)
Lemma most_frequent_extension files :
  files ≠ [] →
  ∃ a e b,
    List.map extension files = (a ++ e :: b)%list ∧ ¬ In e a
    ∧ (∀ e', (occurrences e' files <= occurrences e files)%nat)
    ∧ (∀ e', In e' a → (occurrences e' files < occurrences e files)%nat)
    ∧ _detect_language files [] = default "unknown" (assoc_get e ext_to_lang).
Proof.
  intros Hne.
  assert (Hes : List.map extension files ≠ [])
    by (destruct files; [congruence | discriminate]).
  destruct (tally_winner _ Hes)
    as (item & items & a & e & b & Ht & Hw & Hsplit & Hna & Hmax & Hbefore).
  exists a, e, b. split; [exact Hsplit|]. split; [exact Hna|].
  split; [exact Hmax|]. split; [exact Hbefore|].
  rewrite detect_without_manifest, Ht, Hw. reflexivity.
Qed.

Lemma strict_maximum_wins files e :
  (∀ e', e' ≠ e → (occurrences e' files < occurrences e files)%nat) →
  _detect_language files [] = default "unknown" (assoc_get e ext_to_lang).
Proof.
  intros H.
  assert (Hne : files ≠ []).
  { intros ->. assert (Hx : String "x" e ≠ e).
    { intros E. apply (f_equal String.length) in E.
      cbn [String.length] in E. lia. }
    specialize (H _ Hx). unfold occurrences in H.
    cbn [List.map List.count_occ] in H. lia. }
  destruct (most_frequent_extension files Hne)
    as (a & e0 & b & _ & _ & Hmax & _ & ->).
  destruct (String.string_dec e0 e) as [->|Hd]; [reflexivity|].
  specialize (H e0 Hd). specialize (Hmax e). lia.
Qed.

(** C5. Language detection, on every file list and every repository.
    (i) When a manifest can be fetched, the detected language is the key
    of the first ecosystem, in the order of the table (python, node,
    java, ruby, php), one of whose manifests can be fetched, whatever
    the file list is; so a fetched [requirements.txt] gives "python".
    (ii) When none can be fetched, an empty file list gives "unknown";
    otherwise the extension with the most files among all extensions,
    the earliest seen among equals, is looked up in the table of
    extensions, and the language is "unknown" when it is not there.
    (iii) So an extension with strictly the most files decides, and
    the counts js: 3 and py: 1 give "javascript". *)
Theorem detect_language_rule (fetch : string → outcome string)
    (files : list string) :
  let detected :=
    _detect_language files (scan_dependencies fetch dependency_files []) in
  (∀ before lang fs after f c,
     dependency_files = (before ++ (lang, fs) :: after)%list →
     In f fs → fetch f = Ret c →
     (∀ l gs g, In (l, gs) before → In g gs → ∃ e, fetch g = Raise e) →
     detected = lang)
  ∧ (∀ c, fetch "requirements.txt" = Ret c → detected = "python")
  ∧ (no_manifest fetch dependency_files →
     (files = [] → detected = "unknown")
     ∧ (files ≠ [] →
        ∃ a e b,
          List.map extension files = (a ++ e :: b)%list ∧ ¬ In e a
          ∧ (∀ e', (occurrences e' files <= occurrences e files)%nat)
          ∧ (∀ e', In e' a → (occurrences e' files < occurrences e files)%nat)
          ∧ detected = default "unknown" (assoc_get e ext_to_lang))
     ∧ (∀ e, (∀ e', e' ≠ e →
                    (occurrences e' files < occurrences e files)%nat) →
             detected = default "unknown" (assoc_get e ext_to_lang))
     ∧ (occurrences "js" files = 3%nat → occurrences "py" files = 1%nat →
        (∀ e, e ≠ "js" → e ≠ "py" → occurrences e files = 0%nat) →
        detected = "javascript")).
Proof.
  intros detected. split; [|split].
  - intros before lang fs after f c Htable Hf Hc Hb. unfold detected.
    apply AnalysisProps.detect_language_head.
    rewrite AnalysisProps.scan_head_key, Htable.
    eapply first_ecosystem; eauto.
  - intros c Hc. unfold detected.
    apply AnalysisProps.detect_language_head.
    rewrite AnalysisProps.scan_head_key.
    apply (first_ecosystem fetch [] "python"
             ["requirements.txt"; "setup.py"; "Pipfile"] _
             "requirements.txt" c); [left; reflexivity | exact Hc |].
    intros l gs g [].
  - intros Hnone. unfold detected. rewrite (no_manifest_none _ _ Hnone).
    split; [intros ->; reflexivity|].
    split; [apply most_frequent_extension|].
    split; [apply strict_maximum_wins|].
    intros Hjs Hpy Hother.
    rewrite (strict_maximum_wins files "js"); [reflexivity|].
    intros e' Hne. rewrite Hjs.
    destruct (String.string_dec e' "py") as [->|Hp]; [lia|].
    rewrite (Hother e' Hne Hp). lia.
Qed.

Lemma detect_language_rule_witness :
  _detect_language ["app.rb"; "lib.rb"]
    (scan_dependencies two_manifests dependency_files []) = "python"
  ∧ _detect_language ["a.js"; "b.py"; "c.JS"; "d.js"]
      (scan_dependencies (fun _ => Raise (Exn OtherException "no file"))
         dependency_files []) = "javascript".
Proof.
  split.
  - apply (proj1 (proj2 (detect_language_rule two_manifests
                           ["app.rb"; "lib.rb"])) "flask").
    reflexivity.
  - destruct (proj2 (proj2 (detect_language_rule
                              (fun _ => Raise (Exn OtherException "no file"))
                              ["a.js"; "b.py"; "c.JS"; "d.js"])))
      as (_ & _ & _ & H).
    { intros l gs g _ _. eexists. reflexivity. }
    apply H.
    + reflexivity.
    + reflexivity.
    + intros e Hj Hp. unfold occurrences. cbn [List.map].
      repeat match goal with
             | |- context [extension ?f] =>
                 let v := eval vm_compute in (extension f) in
                 change (extension f) with v
             end.
      cbn [List.count_occ].
      repeat match goal with
             | |- context [String.string_dec ?x e] =>
                 destruct (String.string_dec x e); [congruence|]
             end.
      reflexivity.
Defined.

(** The rule of the claim does not hold: with four notes, three
    JavaScript files and one Python file, "js" is the most frequent of
    the mapped extensions, and the detected language is "unknown",
    because "md" is the most frequent extension. *)
Lemma mapped_extension_does_not_win : ¬ mapped_extension_wins.
Proof.
  intros H. specialize (H notes_and_code "js" "javascript" eq_refl).
  assert (Hd : _detect_language notes_and_code [] = "unknown")
    by reflexivity.
  rewrite Hd in H. 
  assert (Hu : "unknown" = "javascript"); [|discriminate Hu].
  apply H. intros e' lang' Hne Hmapped.
  assert (Hjs : occurrences "js" notes_and_code = 3%nat) by reflexivity.
  rewrite Hjs. unfold ext_to_lang in Hmapped. cbn [assoc_get] in Hmapped.
  repeat match type of Hmapped with
         | (if String.eqb e' ?k then _ else _) = _ =>
             destruct (String.eqb_spec e' k) as [->|_];
               [first [congruence | (vm_compute; lia)]|]
         end.
  discriminate Hmapped.
Qed.

End LanguageProps.
